(** * Quflux: the OAuth connection service, its token cipher and its OAuth 1.0a signer

    A shallow embedding of
      - [backend/core/encryption.py] ([TokenEncryption]),
      - [backend/services/oauth/twitter.py] ([TwitterOAuth1Handler],
        [TwitterOAuthHandler]),
      - [backend/services/oauth/base.py], [linkedin.py], [meta.py] (the
        OAuth 2.0 handlers),
      - [backend/services/platform_connection_service.py]
        ([PlatformConnectionService]),
      - [backend/core/database.py] (the session of a request),
    together with models of the Python standard-library functions these call
    ([base64], [urllib.parse.quote], [hmac], [hashlib.sha1], [sorted],
    [str.upper]).

    Conventions.  A Python [str] and a Python [bytes] are both a Rocq [string]:
    a sequence of 8-bit characters.  A [str] is represented by its UTF-8
    encoding, so [s.encode()] is the identity on the representation and
    [b.decode()] succeeds exactly on well-formed UTF-8.  Comparing two [str] by
    code points is comparing their UTF-8 encodings bytewise.  A function that can
    raise returns a [result]; whatever the source reads from the outside world
    (clock, random tokens, HTTP answers, settings) is an explicit argument. *)

From Stdlib Require Import ZArith NArith List String Ascii Bool Lia Arith.
From Stdlib Require Import Sorting.Permutation.
Import ListNotations.
Local Open Scope string_scope.

(** ** Characters as bytes *)

Module Bytes.

Definition code (c : ascii) : N := N_of_ascii c.
Definition chr (n : N) : ascii := ascii_of_N n.

(** Every 8-bit character, in increasing order of its code. *)
Definition all_ascii : list ascii := map ascii_of_nat (seq 0 256).

Fixpoint to_list (s : string) : list ascii :=
  match s with
  | EmptyString => []
  | String c r => c :: to_list r
  end.

Fixpoint of_list (l : list ascii) : string :=
  match l with
  | [] => EmptyString
  | c :: r => String c (of_list r)
  end.

(** [s.translate(table)] for a table given as a function on characters. *)
Fixpoint translate (f : ascii -> ascii) (s : string) : string :=
  match s with
  | EmptyString => EmptyString
  | String c r => String (f c) (translate f r)
  end.

(** Python's truthiness of a [str]: [not s] holds for the empty string. *)
Definition is_empty (s : string) : bool :=
  match s with EmptyString => true | _ => false end.

End Bytes.

(** ** [base64] of the Python standard library

  [b64encode] is [binascii.b2a_base64(s, newline=False)]; [b64decode] with
  [validate=False] is [binascii.a2b_base64] in its lenient mode, whose loop
  over the input is [a2b_loop] below.  The URL-safe variants translate
  [+ /] to [- _] after encoding and back before decoding. *)

Module Base64.
Import Bytes.

Definition alphabet : string :=
  "ABCDEFGHIJKLMNOPQRSTUVWXYZabcdefghijklmnopqrstuvwxyz0123456789+/".

Definition pad : ascii := "="%char.

(** [table_b2a_base64]: the character of a 6-bit value. *)
Definition b2a (v : N) : ascii :=
  match String.get (N.to_nat v) alphabet with
  | Some c => c
  | None => pad
  end.

Fixpoint index_from (c : ascii) (s : string) (i : N) : option N :=
  match s with
  | EmptyString => None
  | String d r => if Ascii.eqb c d then Some i else index_from c r (N.succ i)
  end.

(** [table_a2b_base64]: the 6-bit value of a character of the alphabet,
    [None] for every other character. *)
Definition a2b (c : ascii) : option N := index_from c alphabet 0.

Fixpoint b2a_base64 (s : string) : string :=
  match s with
  | EmptyString => EmptyString
  | String x EmptyString =>
      let a := code x in
      String (b2a (N.shiftr a 2))
        (String (b2a (N.shiftl (N.land a 3) 4))
           (String pad (String pad EmptyString)))
  | String x (String y EmptyString) =>
      let a := code x in
      let b := code y in
      String (b2a (N.shiftr a 2))
        (String (b2a (N.lor (N.shiftl (N.land a 3) 4) (N.shiftr b 4)))
           (String (b2a (N.shiftl (N.land b 15) 2))
              (String pad EmptyString)))
  | String x (String y (String z r)) =>
      let a := code x in
      let b := code y in
      let c := code z in
      String (b2a (N.shiftr a 2))
        (String (b2a (N.lor (N.shiftl (N.land a 3) 4) (N.shiftr b 4)))
           (String (b2a (N.lor (N.shiftl (N.land b 15) 2) (N.shiftr c 6)))
              (String (b2a (N.land c 63)) (b2a_base64 r))))
  end.

(** The decoder's loop.  [quad_pos] is the position inside the current group
    of four characters, [leftchar] the bits not yet written, [pads] the
    number of [=] seen in a row once two characters of the group are in, and
    [out] the bytes written so far, last first.  [None] is [binascii.Error]. *)
Fixpoint a2b_loop (s : string) (quad_pos : nat) (leftchar : N) (pads : nat)
         (out : list ascii) : option (list ascii) :=
  match s with
  | EmptyString =>
      match quad_pos with
      | O => Some out
      | _ => None
      end
  | String ch rest =>
      if Ascii.eqb ch pad then
        if (2 <=? quad_pos)%nat then
          if (4 <=? quad_pos + S pads)%nat then Some out
          else a2b_loop rest quad_pos leftchar (S pads) out
        else a2b_loop rest quad_pos leftchar pads out
      else
        match a2b ch with
        | None => a2b_loop rest quad_pos leftchar pads out
        | Some v =>
            match quad_pos with
            | 0%nat => a2b_loop rest 1 v 0 out
            | 1%nat =>
                a2b_loop rest 2 (N.land v 15) 0
                  (chr (N.lor (N.shiftl leftchar 2) (N.shiftr v 4)) :: out)
            | 2%nat =>
                a2b_loop rest 3 (N.land v 3) 0
                  (chr (N.lor (N.shiftl leftchar 4) (N.shiftr v 2)) :: out)
            | _ =>
                a2b_loop rest 0 0 0
                  (chr (N.lor (N.shiftl leftchar 6) v) :: out)
            end
        end
  end.

Definition a2b_base64 (s : string) : option string :=
  match a2b_loop s 0 0 0 [] with
  | Some out => Some (of_list (rev out))
  | None => None
  end.

Definition b64encode (s : string) : string := b2a_base64 s.
Definition b64decode (s : string) : option string := a2b_base64 s.

Definition urlsafe_encode_translation (c : ascii) : ascii :=
  if Ascii.eqb c "+" then "-"%char
  else if Ascii.eqb c "/" then "_"%char
  else c.

Definition urlsafe_decode_translation (c : ascii) : ascii :=
  if Ascii.eqb c "-" then "+"%char
  else if Ascii.eqb c "_" then "/"%char
  else c.

Definition urlsafe_b64encode (s : string) : string :=
  translate urlsafe_encode_translation (b64encode s).

Definition urlsafe_b64decode (s : string) : option string :=
  b64decode (translate urlsafe_decode_translation s).

End Base64.

(** ** [hashlib.sha1] and [hmac] of the Python standard library

  SHA-1 as in FIPS 180-4 on 32-bit words held in [Z] with the wrap-around
  written out, and HMAC as in RFC 2104 with SHA-1's 64-byte block. *)

Module SHA1.
Import Bytes.
Local Open Scope Z_scope.
Local Open Scope list_scope.

Definition wrap32 (x : Z) : Z := x mod 4294967296.
Definition add32 (x y : Z) : Z := wrap32 (x + y).
Definition rotl32 (n x : Z) : Z :=
  Z.lor (wrap32 (Z.shiftl x n)) (Z.shiftr x (32 - n)).
Definition not32 (x : Z) : Z := 4294967295 - x.

Definition byte_values (s : string) : list Z :=
  map (fun c => Z.of_N (code c)) (to_list s).

(** The [count] low bytes of [x], most significant first. *)
Definition be_bytes (count : nat) (x : Z) : list Z :=
  map (fun i => Z.land (Z.shiftr x (8 * Z.of_nat i)) 255) (rev (seq 0 count)).

(** The padded message: a [1] bit, zeros up to 56 modulo 64 bytes, and the
    length in bits as a 64-bit big-endian number. *)
Definition pad_message (m : list Z) : list Z :=
  let len := Z.of_nat (List.length m) in
  let zeros := Z.to_nat ((55 - len) mod 64) in
  m ++ [128] ++ repeat 0 zeros ++ be_bytes 8 (8 * len).

Fixpoint words_of_bytes (bs : list Z) : list Z :=
  match bs with
  | b0 :: b1 :: b2 :: b3 :: r =>
      (b0 * 16777216 + b1 * 65536 + b2 * 256 + b3) :: words_of_bytes r
  | _ => []
  end.

(** The message schedule, kept as a window of the last sixteen words. *)
Definition next_word (win : list Z) : Z :=
  rotl32 1 (Z.lxor (Z.lxor (nth 13 win 0) (nth 8 win 0))
                   (Z.lxor (nth 2 win 0) (nth 0 win 0))).

Fixpoint schedule (count : nat) (win : list Z) : list Z :=
  match count with
  | O => []
  | S k => let w := next_word win in w :: schedule k (tl win ++ [w])
  end.

Definition f_round (t : nat) (b c d : Z) : Z :=
  if (t <? 20)%nat then Z.lor (Z.land b c) (Z.land (not32 b) d)
  else if (t <? 40)%nat then Z.lxor (Z.lxor b c) d
  else if (t <? 60)%nat then
    Z.lor (Z.lor (Z.land b c) (Z.land b d)) (Z.land c d)
  else Z.lxor (Z.lxor b c) d.

Definition k_round (t : nat) : Z :=
  if (t <? 20)%nat then 0x5A827999
  else if (t <? 40)%nat then 0x6ED9EBA1
  else if (t <? 60)%nat then 0x8F1BBCDC
  else 0xCA62C1D6.

Record registers := Regs { ra : Z; rb : Z; rc : Z; rd : Z; re : Z }.

Definition round (st : registers * nat) (w : Z) : registers * nat :=
  let (r, t) := st in
  let temp :=
    add32 (add32 (add32 (add32 (rotl32 5 (ra r)) (f_round t (rb r) (rc r) (rd r)))
                        (re r)) w) (k_round t) in
  (Regs temp (ra r) (rotl32 30 (rb r)) (rc r) (rd r), S t).

Definition compress (h : registers) (block : list Z) : registers :=
  let ws := block ++ schedule 64 block in
  let r := fst (fold_left round ws (h, O)) in
  Regs (add32 (ra h) (ra r)) (add32 (rb h) (rb r)) (add32 (rc h) (rc r))
       (add32 (rd h) (rd r)) (add32 (re h) (re r)).

Fixpoint blocks (fuel : nat) (ws : list Z) (h : registers) : registers :=
  match fuel with
  | O => h
  | S k =>
      match ws with
      | [] => h
      | _ => blocks k (skipn 16 ws) (compress h (firstn 16 ws))
      end
  end.

Definition initial : registers :=
  Regs 0x67452301 0xEFCDAB89 0x98BADCFE 0x10325476 0xC3D2E1F0.

Definition digest_values (m : list Z) : list Z :=
  let ws := words_of_bytes (pad_message m) in
  let h := blocks (List.length ws) ws initial in
  be_bytes 4 (ra h) ++ be_bytes 4 (rb h) ++ be_bytes 4 (rc h)
    ++ be_bytes 4 (rd h) ++ be_bytes 4 (re h).

Definition string_of_values (l : list Z) : string :=
  of_list (map (fun z => chr (Z.to_N z)) l).

(** [hashlib.sha1(m).digest()] *)
Definition sha1 (m : string) : string :=
  string_of_values (digest_values (byte_values m)).

(** [hmac.new(key, msg, hashlib.sha1).digest()] *)
Definition hmac_sha1 (key msg : string) : string :=
  let k0 := byte_values key in
  let k1 := if (64 <? List.length k0)%nat then digest_values k0 else k0 in
  let k := k1 ++ repeat 0 (64 - List.length k1) in
  let ipad := map (fun b => Z.lxor b 0x36) k in
  let opad := map (fun b => Z.lxor b 0x5C) k in
  string_of_values
    (digest_values (opad ++ digest_values (ipad ++ byte_values msg))).

Definition hex_digit (n : Z) : ascii :=
  match String.get (Z.to_nat n) "0123456789abcdef" with
  | Some c => c
  | None => "?"%char
  end.

(** [bytes.hex()], used to state test vectors. *)
Definition hex (s : string) : string :=
  of_list (flat_map (fun b => [hex_digit (b / 16); hex_digit (b mod 16)])
                    (byte_values s)).

End SHA1.

(** ** [str.upper]

    A [str] is held as its UTF-8 bytes.  [upper] maps every code point
    through the full upper-case mapping of the Unicode character database
    (version 14.0.0, the one of CPython 3.11: [_PyUnicode_ToUpperFull]),
    which sends some characters to several; a code point that is not listed
    stays as it is.  Bytes that are not the UTF-8 form of a [str] are left
    unchanged. *)

Module Unicode.
Import Bytes.
Local Open Scope N_scope.

Definition continuation (c : ascii) : option N :=
  if (128 <=? code c) && (code c <=? 191) then Some (N.land (code c) 63)
  else None.

(** The code points of a UTF-8 string. *)
Fixpoint code_points (s : string) : option (list N) :=
  match s with
  | EmptyString => Some []
  | String c0 r0 =>
      let b0 := code c0 in
      if b0 <? 128 then option_map (cons b0) (code_points r0)
      else
        match r0 with
        | EmptyString => None
        | String c1 r1 =>
            match continuation c1 with
            | None => None
            | Some x1 =>
                if (192 <=? b0) && (b0 <? 224) then
                  option_map (cons (N.shiftl (N.land b0 31) 6 + x1))
                             (code_points r1)
                else
                  match r1 with
                  | EmptyString => None
                  | String c2 r2 =>
                      match continuation c2 with
                      | None => None
                      | Some x2 =>
                          if (224 <=? b0) && (b0 <? 240) then
                            option_map
                              (cons (N.shiftl (N.land b0 15) 12
                                     + N.shiftl x1 6 + x2))
                              (code_points r2)
                          else
                            match r2 with
                            | EmptyString => None
                            | String c3 r3 =>
                                match continuation c3 with
                                | None => None
                                | Some x3 =>
                                    if (240 <=? b0) && (b0 <? 248) then
                                      option_map
                                        (cons (N.shiftl (N.land b0 7) 18
                                               + N.shiftl x1 12
                                               + N.shiftl x2 6 + x3))
                                        (code_points r3)
                                    else None
                                end
                            end
                      end
                  end
            end
        end
  end.

(** The UTF-8 form of a code point. *)
Definition utf8 (cp : N) : string :=
  let tail (shift : N) : ascii := chr (128 + N.land (N.shiftr cp shift) 63) in
  if cp <? 128 then String (chr cp) EmptyString
  else if cp <? 2048 then
    String (chr (192 + N.shiftr cp 6)) (String (tail 0) EmptyString)
  else if cp <? 65536 then
    String (chr (224 + N.shiftr cp 12))
           (String (tail 6) (String (tail 0) EmptyString))
  else
    String (chr (240 + N.shiftr cp 18))
           (String (tail 12) (String (tail 6) (String (tail 0) EmptyString))).

(** The code points that [upper] changes, each with what it becomes. *)
Definition to_upper_full : list (N * list N) :=
  [(97, [65]); (98, [66]); (99, [67]); (100, [68]); (101, [69]); (102, [70]);
   (103, [71]); (104, [72]); (105, [73]); (106, [74]); (107, [75]);
   (108, [76]); (109, [77]); (110, [78]); (111, [79]); (112, [80]);
   (113, [81]); (114, [82]); (115, [83]); (116, [84]); (117, [85]);
   (118, [86]); (119, [87]); (120, [88]); (121, [89]); (122, [90]);
   (181, [924]); (223, [83; 83]); (224, [192]); (225, [193]); (226, [194]);
   (227, [195]); (228, [196]); (229, [197]); (230, [198]); (231, [199]);
   (232, [200]); (233, [201]); (234, [202]); (235, [203]); (236, [204]);
   (237, [205]); (238, [206]); (239, [207]); (240, [208]); (241, [209]);
   (242, [210]); (243, [211]); (244, [212]); (245, [213]); (246, [214]);
   (248, [216]); (249, [217]); (250, [218]); (251, [219]); (252, [220]);
   (253, [221]); (254, [222]); (255, [376]); (257, [256]); (259, [258]);
   (261, [260]); (263, [262]); (265, [264]); (267, [266]); (269, [268]);
   (271, [270]); (273, [272]); (275, [274]); (277, [276]); (279, [278]);
   (281, [280]); (283, [282]); (285, [284]); (287, [286]); (289, [288]);
   (291, [290]); (293, [292]); (295, [294]); (297, [296]); (299, [298]);
   (301, [300]); (303, [302]); (305, [73]); (307, [306]); (309, [308]);
   (311, [310]); (314, [313]); (316, [315]); (318, [317]); (320, [319]);
   (322, [321]); (324, [323]); (326, [325]); (328, [327]); (329, [700; 78]);
   (331, [330]); (333, [332]); (335, [334]); (337, [336]); (339, [338]);
   (341, [340]); (343, [342]); (345, [344]); (347, [346]); (349, [348]);
   (351, [350]); (353, [352]); (355, [354]); (357, [356]); (359, [358]);
   (361, [360]); (363, [362]); (365, [364]); (367, [366]); (369, [368]);
   (371, [370]); (373, [372]); (375, [374]); (378, [377]); (380, [379]);
   (382, [381]); (383, [83]); (384, [579]); (387, [386]); (389, [388]);
   (392, [391]); (396, [395]); (402, [401]); (405, [502]); (409, [408]);
   (410, [573]); (414, [544]); (417, [416]); (419, [418]); (421, [420]);
   (424, [423]); (429, [428]); (432, [431]); (436, [435]); (438, [437]);
   (441, [440]); (445, [444]); (447, [503]); (453, [452]); (454, [452]);
   (456, [455]); (457, [455]); (459, [458]); (460, [458]); (462, [461]);
   (464, [463]); (466, [465]); (468, [467]); (470, [469]); (472, [471]);
   (474, [473]); (476, [475]); (477, [398]); (479, [478]); (481, [480]);
   (483, [482]); (485, [484]); (487, [486]); (489, [488]); (491, [490]);
   (493, [492]); (495, [494]); (496, [74; 780]); (498, [497]); (499, [497]);
   (501, [500]); (505, [504]); (507, [506]); (509, [508]); (511, [510]);
   (513, [512]); (515, [514]); (517, [516]); (519, [518]); (521, [520]);
   (523, [522]); (525, [524]); (527, [526]); (529, [528]); (531, [530]);
   (533, [532]); (535, [534]); (537, [536]); (539, [538]); (541, [540]);
   (543, [542]); (547, [546]); (549, [548]); (551, [550]); (553, [552]);
   (555, [554]); (557, [556]); (559, [558]); (561, [560]); (563, [562]);
   (572, [571]); (575, [11390]); (576, [11391]); (578, [577]); (583, [582]);
   (585, [584]); (587, [586]); (589, [588]); (591, [590]); (592, [11375]);
   (593, [11373]); (594, [11376]); (595, [385]); (596, [390]); (598, [393]);
   (599, [394]); (601, [399]); (603, [400]); (604, [42923]); (608, [403]);
   (609, [42924]); (611, [404]); (613, [42893]); (614, [42922]); (616, [407]);
   (617, [406]); (618, [42926]); (619, [11362]); (620, [42925]); (623, [412]);
   (625, [11374]); (626, [413]); (629, [415]); (637, [11364]); (640, [422]);
   (642, [42949]); (643, [425]); (647, [42929]); (648, [430]); (649, [580]);
   (650, [433]); (651, [434]); (652, [581]); (658, [439]); (669, [42930]);
   (670, [42928]); (837, [921]); (881, [880]); (883, [882]); (887, [886]);
   (891, [1021]); (892, [1022]); (893, [1023]); (912, [921; 776; 769]);
   (940, [902]); (941, [904]); (942, [905]); (943, [906]);
   (944, [933; 776; 769]); (945, [913]); (946, [914]); (947, [915]);
   (948, [916]); (949, [917]); (950, [918]); (951, [919]); (952, [920]);
   (953, [921]); (954, [922]); (955, [923]); (956, [924]); (957, [925]);
   (958, [926]); (959, [927]); (960, [928]); (961, [929]); (962, [931]);
   (963, [931]); (964, [932]); (965, [933]); (966, [934]); (967, [935]);
   (968, [936]); (969, [937]); (970, [938]); (971, [939]); (972, [908]);
   (973, [910]); (974, [911]); (976, [914]); (977, [920]); (981, [934]);
   (982, [928]); (983, [975]); (985, [984]); (987, [986]); (989, [988]);
   (991, [990]); (993, [992]); (995, [994]); (997, [996]); (999, [998]);
   (1001, [1000]); (1003, [1002]); (1005, [1004]); (1007, [1006]);
   (1008, [922]); (1009, [929]); (1010, [1017]); (1011, [895]); (1013, [917]);
   (1016, [1015]); (1019, [1018]); (1072, [1040]); (1073, [1041]);
   (1074, [1042]); (1075, [1043]); (1076, [1044]); (1077, [1045]);
   (1078, [1046]); (1079, [1047]); (1080, [1048]); (1081, [1049]);
   (1082, [1050]); (1083, [1051]); (1084, [1052]); (1085, [1053]);
   (1086, [1054]); (1087, [1055]); (1088, [1056]); (1089, [1057]);
   (1090, [1058]); (1091, [1059]); (1092, [1060]); (1093, [1061]);
   (1094, [1062]); (1095, [1063]); (1096, [1064]); (1097, [1065]);
   (1098, [1066]); (1099, [1067]); (1100, [1068]); (1101, [1069]);
   (1102, [1070]); (1103, [1071]); (1104, [1024]); (1105, [1025]);
   (1106, [1026]); (1107, [1027]); (1108, [1028]); (1109, [1029]);
   (1110, [1030]); (1111, [1031]); (1112, [1032]); (1113, [1033]);
   (1114, [1034]); (1115, [1035]); (1116, [1036]); (1117, [1037]);
   (1118, [1038]); (1119, [1039]); (1121, [1120]); (1123, [1122]);
   (1125, [1124]); (1127, [1126]); (1129, [1128]); (1131, [1130]);
   (1133, [1132]); (1135, [1134]); (1137, [1136]); (1139, [1138]);
   (1141, [1140]); (1143, [1142]); (1145, [1144]); (1147, [1146]);
   (1149, [1148]); (1151, [1150]); (1153, [1152]); (1163, [1162]);
   (1165, [1164]); (1167, [1166]); (1169, [1168]); (1171, [1170]);
   (1173, [1172]); (1175, [1174]); (1177, [1176]); (1179, [1178]);
   (1181, [1180]); (1183, [1182]); (1185, [1184]); (1187, [1186]);
   (1189, [1188]); (1191, [1190]); (1193, [1192]); (1195, [1194]);
   (1197, [1196]); (1199, [1198]); (1201, [1200]); (1203, [1202]);
   (1205, [1204]); (1207, [1206]); (1209, [1208]); (1211, [1210]);
   (1213, [1212]); (1215, [1214]); (1218, [1217]); (1220, [1219]);
   (1222, [1221]); (1224, [1223]); (1226, [1225]); (1228, [1227]);
   (1230, [1229]); (1231, [1216]); (1233, [1232]); (1235, [1234]);
   (1237, [1236]); (1239, [1238]); (1241, [1240]); (1243, [1242]);
   (1245, [1244]); (1247, [1246]); (1249, [1248]); (1251, [1250]);
   (1253, [1252]); (1255, [1254]); (1257, [1256]); (1259, [1258]);
   (1261, [1260]); (1263, [1262]); (1265, [1264]); (1267, [1266]);
   (1269, [1268]); (1271, [1270]); (1273, [1272]); (1275, [1274]);
   (1277, [1276]); (1279, [1278]); (1281, [1280]); (1283, [1282]);
   (1285, [1284]); (1287, [1286]); (1289, [1288]); (1291, [1290]);
   (1293, [1292]); (1295, [1294]); (1297, [1296]); (1299, [1298]);
   (1301, [1300]); (1303, [1302]); (1305, [1304]); (1307, [1306]);
   (1309, [1308]); (1311, [1310]); (1313, [1312]); (1315, [1314]);
   (1317, [1316]); (1319, [1318]); (1321, [1320]); (1323, [1322]);
   (1325, [1324]); (1327, [1326]); (1377, [1329]); (1378, [1330]);
   (1379, [1331]); (1380, [1332]); (1381, [1333]); (1382, [1334]);
   (1383, [1335]); (1384, [1336]); (1385, [1337]); (1386, [1338]);
   (1387, [1339]); (1388, [1340]); (1389, [1341]); (1390, [1342]);
   (1391, [1343]); (1392, [1344]); (1393, [1345]); (1394, [1346]);
   (1395, [1347]); (1396, [1348]); (1397, [1349]); (1398, [1350]);
   (1399, [1351]); (1400, [1352]); (1401, [1353]); (1402, [1354]);
   (1403, [1355]); (1404, [1356]); (1405, [1357]); (1406, [1358]);
   (1407, [1359]); (1408, [1360]); (1409, [1361]); (1410, [1362]);
   (1411, [1363]); (1412, [1364]); (1413, [1365]); (1414, [1366]);
   (1415, [1333; 1362]); (4304, [7312]); (4305, [7313]); (4306, [7314]);
   (4307, [7315]); (4308, [7316]); (4309, [7317]); (4310, [7318]);
   (4311, [7319]); (4312, [7320]); (4313, [7321]); (4314, [7322]);
   (4315, [7323]); (4316, [7324]); (4317, [7325]); (4318, [7326]);
   (4319, [7327]); (4320, [7328]); (4321, [7329]); (4322, [7330]);
   (4323, [7331]); (4324, [7332]); (4325, [7333]); (4326, [7334]);
   (4327, [7335]); (4328, [7336]); (4329, [7337]); (4330, [7338]);
   (4331, [7339]); (4332, [7340]); (4333, [7341]); (4334, [7342]);
   (4335, [7343]); (4336, [7344]); (4337, [7345]); (4338, [7346]);
   (4339, [7347]); (4340, [7348]); (4341, [7349]); (4342, [7350]);
   (4343, [7351]); (4344, [7352]); (4345, [7353]); (4346, [7354]);
   (4349, [7357]); (4350, [7358]); (4351, [7359]); (5112, [5104]);
   (5113, [5105]); (5114, [5106]); (5115, [5107]); (5116, [5108]);
   (5117, [5109]); (7296, [1042]); (7297, [1044]); (7298, [1054]);
   (7299, [1057]); (7300, [1058]); (7301, [1058]); (7302, [1066]);
   (7303, [1122]); (7304, [42570]); (7545, [42877]); (7549, [11363]);
   (7566, [42950]); (7681, [7680]); (7683, [7682]); (7685, [7684]);
   (7687, [7686]); (7689, [7688]); (7691, [7690]); (7693, [7692]);
   (7695, [7694]); (7697, [7696]); (7699, [7698]); (7701, [7700]);
   (7703, [7702]); (7705, [7704]); (7707, [7706]); (7709, [7708]);
   (7711, [7710]); (7713, [7712]); (7715, [7714]); (7717, [7716]);
   (7719, [7718]); (7721, [7720]); (7723, [7722]); (7725, [7724]);
   (7727, [7726]); (7729, [7728]); (7731, [7730]); (7733, [7732]);
   (7735, [7734]); (7737, [7736]); (7739, [7738]); (7741, [7740]);
   (7743, [7742]); (7745, [7744]); (7747, [7746]); (7749, [7748]);
   (7751, [7750]); (7753, [7752]); (7755, [7754]); (7757, [7756]);
   (7759, [7758]); (7761, [7760]); (7763, [7762]); (7765, [7764]);
   (7767, [7766]); (7769, [7768]); (7771, [7770]); (7773, [7772]);
   (7775, [7774]); (7777, [7776]); (7779, [7778]); (7781, [7780]);
   (7783, [7782]); (7785, [7784]); (7787, [7786]); (7789, [7788]);
   (7791, [7790]); (7793, [7792]); (7795, [7794]); (7797, [7796]);
   (7799, [7798]); (7801, [7800]); (7803, [7802]); (7805, [7804]);
   (7807, [7806]); (7809, [7808]); (7811, [7810]); (7813, [7812]);
   (7815, [7814]); (7817, [7816]); (7819, [7818]); (7821, [7820]);
   (7823, [7822]); (7825, [7824]); (7827, [7826]); (7829, [7828]);
   (7830, [72; 817]); (7831, [84; 776]); (7832, [87; 778]); (7833, [89; 778]);
   (7834, [65; 702]); (7835, [7776]); (7841, [7840]); (7843, [7842]);
   (7845, [7844]); (7847, [7846]); (7849, [7848]); (7851, [7850]);
   (7853, [7852]); (7855, [7854]); (7857, [7856]); (7859, [7858]);
   (7861, [7860]); (7863, [7862]); (7865, [7864]); (7867, [7866]);
   (7869, [7868]); (7871, [7870]); (7873, [7872]); (7875, [7874]);
   (7877, [7876]); (7879, [7878]); (7881, [7880]); (7883, [7882]);
   (7885, [7884]); (7887, [7886]); (7889, [7888]); (7891, [7890]);
   (7893, [7892]); (7895, [7894]); (7897, [7896]); (7899, [7898]);
   (7901, [7900]); (7903, [7902]); (7905, [7904]); (7907, [7906]);
   (7909, [7908]); (7911, [7910]); (7913, [7912]); (7915, [7914]);
   (7917, [7916]); (7919, [7918]); (7921, [7920]); (7923, [7922]);
   (7925, [7924]); (7927, [7926]); (7929, [7928]); (7931, [7930]);
   (7933, [7932]); (7935, [7934]); (7936, [7944]); (7937, [7945]);
   (7938, [7946]); (7939, [7947]); (7940, [7948]); (7941, [7949]);
   (7942, [7950]); (7943, [7951]); (7952, [7960]); (7953, [7961]);
   (7954, [7962]); (7955, [7963]); (7956, [7964]); (7957, [7965]);
   (7968, [7976]); (7969, [7977]); (7970, [7978]); (7971, [7979]);
   (7972, [7980]); (7973, [7981]); (7974, [7982]); (7975, [7983]);
   (7984, [7992]); (7985, [7993]); (7986, [7994]); (7987, [7995]);
   (7988, [7996]); (7989, [7997]); (7990, [7998]); (7991, [7999]);
   (8000, [8008]); (8001, [8009]); (8002, [8010]); (8003, [8011]);
   (8004, [8012]); (8005, [8013]); (8016, [933; 787]); (8017, [8025]);
   (8018, [933; 787; 768]); (8019, [8027]); (8020, [933; 787; 769]);
   (8021, [8029]); (8022, [933; 787; 834]); (8023, [8031]); (8032, [8040]);
   (8033, [8041]); (8034, [8042]); (8035, [8043]); (8036, [8044]);
   (8037, [8045]); (8038, [8046]); (8039, [8047]); (8048, [8122]);
   (8049, [8123]); (8050, [8136]); (8051, [8137]); (8052, [8138]);
   (8053, [8139]); (8054, [8154]); (8055, [8155]); (8056, [8184]);
   (8057, [8185]); (8058, [8170]); (8059, [8171]); (8060, [8186]);
   (8061, [8187]); (8064, [7944; 921]); (8065, [7945; 921]);
   (8066, [7946; 921]); (8067, [7947; 921]); (8068, [7948; 921]);
   (8069, [7949; 921]); (8070, [7950; 921]); (8071, [7951; 921]);
   (8072, [7944; 921]); (8073, [7945; 921]); (8074, [7946; 921]);
   (8075, [7947; 921]); (8076, [7948; 921]); (8077, [7949; 921]);
   (8078, [7950; 921]); (8079, [7951; 921]); (8080, [7976; 921]);
   (8081, [7977; 921]); (8082, [7978; 921]); (8083, [7979; 921]);
   (8084, [7980; 921]); (8085, [7981; 921]); (8086, [7982; 921]);
   (8087, [7983; 921]); (8088, [7976; 921]); (8089, [7977; 921]);
   (8090, [7978; 921]); (8091, [7979; 921]); (8092, [7980; 921]);
   (8093, [7981; 921]); (8094, [7982; 921]); (8095, [7983; 921]);
   (8096, [8040; 921]); (8097, [8041; 921]); (8098, [8042; 921]);
   (8099, [8043; 921]); (8100, [8044; 921]); (8101, [8045; 921]);
   (8102, [8046; 921]); (8103, [8047; 921]); (8104, [8040; 921]);
   (8105, [8041; 921]); (8106, [8042; 921]); (8107, [8043; 921]);
   (8108, [8044; 921]); (8109, [8045; 921]); (8110, [8046; 921]);
   (8111, [8047; 921]); (8112, [8120]); (8113, [8121]); (8114, [8122; 921]);
   (8115, [913; 921]); (8116, [902; 921]); (8118, [913; 834]);
   (8119, [913; 834; 921]); (8124, [913; 921]); (8126, [921]);
   (8130, [8138; 921]); (8131, [919; 921]); (8132, [905; 921]);
   (8134, [919; 834]); (8135, [919; 834; 921]); (8140, [919; 921]);
   (8144, [8152]); (8145, [8153]); (8146, [921; 776; 768]);
   (8147, [921; 776; 769]); (8150, [921; 834]); (8151, [921; 776; 834]);
   (8160, [8168]); (8161, [8169]); (8162, [933; 776; 768]);
   (8163, [933; 776; 769]); (8164, [929; 787]); (8165, [8172]);
   (8166, [933; 834]); (8167, [933; 776; 834]); (8178, [8186; 921]);
   (8179, [937; 921]); (8180, [911; 921]); (8182, [937; 834]);
   (8183, [937; 834; 921]); (8188, [937; 921]); (8526, [8498]);
   (8560, [8544]); (8561, [8545]); (8562, [8546]); (8563, [8547]);
   (8564, [8548]); (8565, [8549]); (8566, [8550]); (8567, [8551]);
   (8568, [8552]); (8569, [8553]); (8570, [8554]); (8571, [8555]);
   (8572, [8556]); (8573, [8557]); (8574, [8558]); (8575, [8559]);
   (8580, [8579]); (9424, [9398]); (9425, [9399]); (9426, [9400]);
   (9427, [9401]); (9428, [9402]); (9429, [9403]); (9430, [9404]);
   (9431, [9405]); (9432, [9406]); (9433, [9407]); (9434, [9408]);
   (9435, [9409]); (9436, [9410]); (9437, [9411]); (9438, [9412]);
   (9439, [9413]); (9440, [9414]); (9441, [9415]); (9442, [9416]);
   (9443, [9417]); (9444, [9418]); (9445, [9419]); (9446, [9420]);
   (9447, [9421]); (9448, [9422]); (9449, [9423]); (11312, [11264]);
   (11313, [11265]); (11314, [11266]); (11315, [11267]); (11316, [11268]);
   (11317, [11269]); (11318, [11270]); (11319, [11271]); (11320, [11272]);
   (11321, [11273]); (11322, [11274]); (11323, [11275]); (11324, [11276]);
   (11325, [11277]); (11326, [11278]); (11327, [11279]); (11328, [11280]);
   (11329, [11281]); (11330, [11282]); (11331, [11283]); (11332, [11284]);
   (11333, [11285]); (11334, [11286]); (11335, [11287]); (11336, [11288]);
   (11337, [11289]); (11338, [11290]); (11339, [11291]); (11340, [11292]);
   (11341, [11293]); (11342, [11294]); (11343, [11295]); (11344, [11296]);
   (11345, [11297]); (11346, [11298]); (11347, [11299]); (11348, [11300]);
   (11349, [11301]); (11350, [11302]); (11351, [11303]); (11352, [11304]);
   (11353, [11305]); (11354, [11306]); (11355, [11307]); (11356, [11308]);
   (11357, [11309]); (11358, [11310]); (11359, [11311]); (11361, [11360]);
   (11365, [570]); (11366, [574]); (11368, [11367]); (11370, [11369]);
   (11372, [11371]); (11379, [11378]); (11382, [11381]); (11393, [11392]);
   (11395, [11394]); (11397, [11396]); (11399, [11398]); (11401, [11400]);
   (11403, [11402]); (11405, [11404]); (11407, [11406]); (11409, [11408]);
   (11411, [11410]); (11413, [11412]); (11415, [11414]); (11417, [11416]);
   (11419, [11418]); (11421, [11420]); (11423, [11422]); (11425, [11424]);
   (11427, [11426]); (11429, [11428]); (11431, [11430]); (11433, [11432]);
   (11435, [11434]); (11437, [11436]); (11439, [11438]); (11441, [11440]);
   (11443, [11442]); (11445, [11444]); (11447, [11446]); (11449, [11448]);
   (11451, [11450]); (11453, [11452]); (11455, [11454]); (11457, [11456]);
   (11459, [11458]); (11461, [11460]); (11463, [11462]); (11465, [11464]);
   (11467, [11466]); (11469, [11468]); (11471, [11470]); (11473, [11472]);
   (11475, [11474]); (11477, [11476]); (11479, [11478]); (11481, [11480]);
   (11483, [11482]); (11485, [11484]); (11487, [11486]); (11489, [11488]);
   (11491, [11490]); (11500, [11499]); (11502, [11501]); (11507, [11506]);
   (11520, [4256]); (11521, [4257]); (11522, [4258]); (11523, [4259]);
   (11524, [4260]); (11525, [4261]); (11526, [4262]); (11527, [4263]);
   (11528, [4264]); (11529, [4265]); (11530, [4266]); (11531, [4267]);
   (11532, [4268]); (11533, [4269]); (11534, [4270]); (11535, [4271]);
   (11536, [4272]); (11537, [4273]); (11538, [4274]); (11539, [4275]);
   (11540, [4276]); (11541, [4277]); (11542, [4278]); (11543, [4279]);
   (11544, [4280]); (11545, [4281]); (11546, [4282]); (11547, [4283]);
   (11548, [4284]); (11549, [4285]); (11550, [4286]); (11551, [4287]);
   (11552, [4288]); (11553, [4289]); (11554, [4290]); (11555, [4291]);
   (11556, [4292]); (11557, [4293]); (11559, [4295]); (11565, [4301]);
   (42561, [42560]); (42563, [42562]); (42565, [42564]); (42567, [42566]);
   (42569, [42568]); (42571, [42570]); (42573, [42572]); (42575, [42574]);
   (42577, [42576]); (42579, [42578]); (42581, [42580]); (42583, [42582]);
   (42585, [42584]); (42587, [42586]); (42589, [42588]); (42591, [42590]);
   (42593, [42592]); (42595, [42594]); (42597, [42596]); (42599, [42598]);
   (42601, [42600]); (42603, [42602]); (42605, [42604]); (42625, [42624]);
   (42627, [42626]); (42629, [42628]); (42631, [42630]); (42633, [42632]);
   (42635, [42634]); (42637, [42636]); (42639, [42638]); (42641, [42640]);
   (42643, [42642]); (42645, [42644]); (42647, [42646]); (42649, [42648]);
   (42651, [42650]); (42787, [42786]); (42789, [42788]); (42791, [42790]);
   (42793, [42792]); (42795, [42794]); (42797, [42796]); (42799, [42798]);
   (42803, [42802]); (42805, [42804]); (42807, [42806]); (42809, [42808]);
   (42811, [42810]); (42813, [42812]); (42815, [42814]); (42817, [42816]);
   (42819, [42818]); (42821, [42820]); (42823, [42822]); (42825, [42824]);
   (42827, [42826]); (42829, [42828]); (42831, [42830]); (42833, [42832]);
   (42835, [42834]); (42837, [42836]); (42839, [42838]); (42841, [42840]);
   (42843, [42842]); (42845, [42844]); (42847, [42846]); (42849, [42848]);
   (42851, [42850]); (42853, [42852]); (42855, [42854]); (42857, [42856]);
   (42859, [42858]); (42861, [42860]); (42863, [42862]); (42874, [42873]);
   (42876, [42875]); (42879, [42878]); (42881, [42880]); (42883, [42882]);
   (42885, [42884]); (42887, [42886]); (42892, [42891]); (42897, [42896]);
   (42899, [42898]); (42900, [42948]); (42903, [42902]); (42905, [42904]);
   (42907, [42906]); (42909, [42908]); (42911, [42910]); (42913, [42912]);
   (42915, [42914]); (42917, [42916]); (42919, [42918]); (42921, [42920]);
   (42933, [42932]); (42935, [42934]); (42937, [42936]); (42939, [42938]);
   (42941, [42940]); (42943, [42942]); (42945, [42944]); (42947, [42946]);
   (42952, [42951]); (42954, [42953]); (42961, [42960]); (42967, [42966]);
   (42969, [42968]); (42998, [42997]); (43859, [42931]); (43888, [5024]);
   (43889, [5025]); (43890, [5026]); (43891, [5027]); (43892, [5028]);
   (43893, [5029]); (43894, [5030]); (43895, [5031]); (43896, [5032]);
   (43897, [5033]); (43898, [5034]); (43899, [5035]); (43900, [5036]);
   (43901, [5037]); (43902, [5038]); (43903, [5039]); (43904, [5040]);
   (43905, [5041]); (43906, [5042]); (43907, [5043]); (43908, [5044]);
   (43909, [5045]); (43910, [5046]); (43911, [5047]); (43912, [5048]);
   (43913, [5049]); (43914, [5050]); (43915, [5051]); (43916, [5052]);
   (43917, [5053]); (43918, [5054]); (43919, [5055]); (43920, [5056]);
   (43921, [5057]); (43922, [5058]); (43923, [5059]); (43924, [5060]);
   (43925, [5061]); (43926, [5062]); (43927, [5063]); (43928, [5064]);
   (43929, [5065]); (43930, [5066]); (43931, [5067]); (43932, [5068]);
   (43933, [5069]); (43934, [5070]); (43935, [5071]); (43936, [5072]);
   (43937, [5073]); (43938, [5074]); (43939, [5075]); (43940, [5076]);
   (43941, [5077]); (43942, [5078]); (43943, [5079]); (43944, [5080]);
   (43945, [5081]); (43946, [5082]); (43947, [5083]); (43948, [5084]);
   (43949, [5085]); (43950, [5086]); (43951, [5087]); (43952, [5088]);
   (43953, [5089]); (43954, [5090]); (43955, [5091]); (43956, [5092]);
   (43957, [5093]); (43958, [5094]); (43959, [5095]); (43960, [5096]);
   (43961, [5097]); (43962, [5098]); (43963, [5099]); (43964, [5100]);
   (43965, [5101]); (43966, [5102]); (43967, [5103]); (64256, [70; 70]);
   (64257, [70; 73]); (64258, [70; 76]); (64259, [70; 70; 73]);
   (64260, [70; 70; 76]); (64261, [83; 84]); (64262, [83; 84]);
   (64275, [1348; 1350]); (64276, [1348; 1333]); (64277, [1348; 1339]);
   (64278, [1358; 1350]); (64279, [1348; 1341]); (65345, [65313]);
   (65346, [65314]); (65347, [65315]); (65348, [65316]); (65349, [65317]);
   (65350, [65318]); (65351, [65319]); (65352, [65320]); (65353, [65321]);
   (65354, [65322]); (65355, [65323]); (65356, [65324]); (65357, [65325]);
   (65358, [65326]); (65359, [65327]); (65360, [65328]); (65361, [65329]);
   (65362, [65330]); (65363, [65331]); (65364, [65332]); (65365, [65333]);
   (65366, [65334]); (65367, [65335]); (65368, [65336]); (65369, [65337]);
   (65370, [65338]); (66600, [66560]); (66601, [66561]); (66602, [66562]);
   (66603, [66563]); (66604, [66564]); (66605, [66565]); (66606, [66566]);
   (66607, [66567]); (66608, [66568]); (66609, [66569]); (66610, [66570]);
   (66611, [66571]); (66612, [66572]); (66613, [66573]); (66614, [66574]);
   (66615, [66575]); (66616, [66576]); (66617, [66577]); (66618, [66578]);
   (66619, [66579]); (66620, [66580]); (66621, [66581]); (66622, [66582]);
   (66623, [66583]); (66624, [66584]); (66625, [66585]); (66626, [66586]);
   (66627, [66587]); (66628, [66588]); (66629, [66589]); (66630, [66590]);
   (66631, [66591]); (66632, [66592]); (66633, [66593]); (66634, [66594]);
   (66635, [66595]); (66636, [66596]); (66637, [66597]); (66638, [66598]);
   (66639, [66599]); (66776, [66736]); (66777, [66737]); (66778, [66738]);
   (66779, [66739]); (66780, [66740]); (66781, [66741]); (66782, [66742]);
   (66783, [66743]); (66784, [66744]); (66785, [66745]); (66786, [66746]);
   (66787, [66747]); (66788, [66748]); (66789, [66749]); (66790, [66750]);
   (66791, [66751]); (66792, [66752]); (66793, [66753]); (66794, [66754]);
   (66795, [66755]); (66796, [66756]); (66797, [66757]); (66798, [66758]);
   (66799, [66759]); (66800, [66760]); (66801, [66761]); (66802, [66762]);
   (66803, [66763]); (66804, [66764]); (66805, [66765]); (66806, [66766]);
   (66807, [66767]); (66808, [66768]); (66809, [66769]); (66810, [66770]);
   (66811, [66771]); (66967, [66928]); (66968, [66929]); (66969, [66930]);
   (66970, [66931]); (66971, [66932]); (66972, [66933]); (66973, [66934]);
   (66974, [66935]); (66975, [66936]); (66976, [66937]); (66977, [66938]);
   (66979, [66940]); (66980, [66941]); (66981, [66942]); (66982, [66943]);
   (66983, [66944]); (66984, [66945]); (66985, [66946]); (66986, [66947]);
   (66987, [66948]); (66988, [66949]); (66989, [66950]); (66990, [66951]);
   (66991, [66952]); (66992, [66953]); (66993, [66954]); (66995, [66956]);
   (66996, [66957]); (66997, [66958]); (66998, [66959]); (66999, [66960]);
   (67000, [66961]); (67001, [66962]); (67003, [66964]); (67004, [66965]);
   (68800, [68736]); (68801, [68737]); (68802, [68738]); (68803, [68739]);
   (68804, [68740]); (68805, [68741]); (68806, [68742]); (68807, [68743]);
   (68808, [68744]); (68809, [68745]); (68810, [68746]); (68811, [68747]);
   (68812, [68748]); (68813, [68749]); (68814, [68750]); (68815, [68751]);
   (68816, [68752]); (68817, [68753]); (68818, [68754]); (68819, [68755]);
   (68820, [68756]); (68821, [68757]); (68822, [68758]); (68823, [68759]);
   (68824, [68760]); (68825, [68761]); (68826, [68762]); (68827, [68763]);
   (68828, [68764]); (68829, [68765]); (68830, [68766]); (68831, [68767]);
   (68832, [68768]); (68833, [68769]); (68834, [68770]); (68835, [68771]);
   (68836, [68772]); (68837, [68773]); (68838, [68774]); (68839, [68775]);
   (68840, [68776]); (68841, [68777]); (68842, [68778]); (68843, [68779]);
   (68844, [68780]); (68845, [68781]); (68846, [68782]); (68847, [68783]);
   (68848, [68784]); (68849, [68785]); (68850, [68786]); (71872, [71840]);
   (71873, [71841]); (71874, [71842]); (71875, [71843]); (71876, [71844]);
   (71877, [71845]); (71878, [71846]); (71879, [71847]); (71880, [71848]);
   (71881, [71849]); (71882, [71850]); (71883, [71851]); (71884, [71852]);
   (71885, [71853]); (71886, [71854]); (71887, [71855]); (71888, [71856]);
   (71889, [71857]); (71890, [71858]); (71891, [71859]); (71892, [71860]);
   (71893, [71861]); (71894, [71862]); (71895, [71863]); (71896, [71864]);
   (71897, [71865]); (71898, [71866]); (71899, [71867]); (71900, [71868]);
   (71901, [71869]); (71902, [71870]); (71903, [71871]); (93792, [93760]);
   (93793, [93761]); (93794, [93762]); (93795, [93763]); (93796, [93764]);
   (93797, [93765]); (93798, [93766]); (93799, [93767]); (93800, [93768]);
   (93801, [93769]); (93802, [93770]); (93803, [93771]); (93804, [93772]);
   (93805, [93773]); (93806, [93774]); (93807, [93775]); (93808, [93776]);
   (93809, [93777]); (93810, [93778]); (93811, [93779]); (93812, [93780]);
   (93813, [93781]); (93814, [93782]); (93815, [93783]); (93816, [93784]);
   (93817, [93785]); (93818, [93786]); (93819, [93787]); (93820, [93788]);
   (93821, [93789]); (93822, [93790]); (93823, [93791]); (125218, [125184]);
   (125219, [125185]); (125220, [125186]); (125221, [125187]);
   (125222, [125188]); (125223, [125189]); (125224, [125190]);
   (125225, [125191]); (125226, [125192]); (125227, [125193]);
   (125228, [125194]); (125229, [125195]); (125230, [125196]);
   (125231, [125197]); (125232, [125198]); (125233, [125199]);
   (125234, [125200]); (125235, [125201]); (125236, [125202]);
   (125237, [125203]); (125238, [125204]); (125239, [125205]);
   (125240, [125206]); (125241, [125207]); (125242, [125208]);
   (125243, [125209]); (125244, [125210]); (125245, [125211]);
   (125246, [125212]); (125247, [125213]); (125248, [125214]);
   (125249, [125215]); (125250, [125216]); (125251, [125217])].

Definition to_upper (cp : N) : list N :=
  match find (fun e => fst e =? cp) to_upper_full with
  | Some e => snd e
  | None => [cp]
  end.

Definition upper (s : string) : string :=
  match code_points s with
  | Some cps => String.concat EmptyString (map utf8 (flat_map to_upper cps))
  | None => s
  end.

End Unicode.

(** ** [urllib.parse.quote], [sorted], [str.join], [str.upper] *)

Module PyStr.
Import Bytes.

Definition in_range (lo hi c : ascii) : bool :=
  (code lo <=? code c)%N && (code c <=? code hi)%N.

(** [_ALWAYS_SAFE]: the unreserved characters of RFC 3986. *)
Definition always_safe (c : ascii) : bool :=
  in_range "A" "Z" c || in_range "a" "z" c || in_range "0" "9" c
  || Ascii.eqb c "_" || Ascii.eqb c "." || Ascii.eqb c "-" || Ascii.eqb c "~".

Fixpoint mem (c : ascii) (s : string) : bool :=
  match s with
  | EmptyString => false
  | String d r => Ascii.eqb c d || mem c r
  end.

Definition hex_upper (n : N) : ascii :=
  match String.get (N.to_nat n) "0123456789ABCDEF" with
  | Some c => c
  | None => "?"%char
  end.

(** [quote(s, safe=safe)]: every byte of the UTF-8 encoding that is neither
    unreserved nor in [safe] becomes [%XX] with upper-case hex digits. *)
Fixpoint quote (s : string) (safe : string) : string :=
  match s with
  | EmptyString => EmptyString
  | String c r =>
      if always_safe c || mem c safe then String c (quote r safe)
      else
        String "%"
          (String (hex_upper (N.shiftr (code c) 4))
             (String (hex_upper (N.land (code c) 15)) (quote r safe)))
  end.

(** [sep.join(parts)] *)
Fixpoint join (sep : string) (parts : list string) : string :=
  match parts with
  | [] => EmptyString
  | [p] => p
  | p :: r => p ++ sep ++ join sep r
  end.

(** [s.upper()] *)
Definition upper (s : string) : string := Unicode.upper s.

(** The order of Python tuples [(k, v)] of strings: by [k], then by [v]. *)
Definition tuple_leb (p q : string * string) : bool :=
  match String.compare (fst p) (fst q) with
  | Lt => true
  | Gt => false
  | Eq => String.leb (snd p) (snd q)
  end.

Section Sorting.
Context {A : Type} (leb : A -> A -> bool).

Fixpoint insert (x : A) (l : list A) : list A :=
  match l with
  | [] => [x]
  | y :: r => if leb x y then x :: y :: r else y :: insert x r
  end.

(** [sorted(l)] for the order [leb]: a stable sort. *)
Definition sorted (l : list A) : list A := fold_right insert [] l.
End Sorting.

(** [s.split(sep)] for a one-character separator. *)
Fixpoint split_on (sep : ascii) (s : string) (cur : string) : list string :=
  match s with
  | EmptyString => [cur]
  | String c r =>
      if Ascii.eqb c sep then cur :: split_on sep r EmptyString
      else split_on sep r (cur ++ String c EmptyString)
  end.

Definition split (s : string) (sep : ascii) : list string :=
  split_on sep s EmptyString.

(** [s.startswith(p)] *)
Definition startswith (s p : string) : bool := String.prefix p s.

End PyStr.

(** ** Results of functions that can raise *)

Inductive exn : Type :=
| ValueError (msg : string)
| Exception (msg : string)
| KeyError (key : string)
| AttributeError (msg : string)
| NotImplementedError (msg : string)
| TypeError (msg : string)
| BinasciiError
| InvalidToken
| UnicodeDecodeError
| MultipleResultsFound
| IntegrityError
| OverflowError.

Inductive result (A : Type) : Type :=
| Ok (a : A)
| Raise (e : exn).
Arguments Ok {A} a.
Arguments Raise {A} e.

Definition bind {A B : Type} (r : result A) (k : A -> result B) : result B :=
match r with
| Ok a => k a
| Raise e => Raise e
end.

Notation "x <- r ;; k" := (bind r (fun x => k))
(at level 61, r at next level, right associativity).
Notation "' p <- r ;; k" := (bind r (fun x => match x with p => k end))
(at level 61, p pattern, r at next level, right associativity).

(** A Python [dict] with string keys: its items in insertion order, no key
  twice. *)
Module Dict.
Definition dict (V : Type) : Type := list (string * V).

Fixpoint get {V} (d : dict V) (k : string) : option V :=
  match d with
  | [] => None
  | (k', v) :: r => if String.eqb k k' then Some v else get r k
  end.

(** [k in d] *)
Definition contains {V} (d : dict V) (k : string) : bool :=
  match get d k with Some _ => true | None => false end.

(** [d[k] = v]: a present key keeps its place, a new one goes last. *)
Fixpoint set {V} (d : dict V) (k : string) (v : V) : dict V :=
  match d with
  | [] => [(k, v)]
  | (k', v') :: r =>
      if String.eqb k k' then (k', v) :: r else (k', v') :: set r k v
  end.

(** [del d[k]], for a key that is present (the code deletes only keys it
    has just looked up). *)
Definition del {V} (d : dict V) (k : string) : dict V :=
filter (fun kv => negb (String.eqb k (fst kv))) d.

(** [d.update(e)] *)
Definition update {V} (d e : dict V) : dict V :=
fold_left (fun acc kv => set acc (fst kv) (snd kv)) e d.

(** [d[k]], raising [KeyError] on a missing key. *)
Definition item {V} (d : dict V) (k : string) : result V :=
  match get d k with
  | Some v => Ok v
  | None => Raise (KeyError k)
  end.
End Dict.

(** Python's truthiness of an [Optional[str]]: [None] and the empty string
    are false. *)
Definition truthy (o : option string) : bool :=
  match o with
  | Some s => negb (Bytes.is_empty s)
  | None => false
  end.

(** [d.get(k, default)] on an optional field. *)
Definition get_or (o : option string) (default : string) : string :=
  match o with
  | Some s => s
  | None => default
  end.

(** ** The world outside: settings, clock, randomness, HTTP *)

(** [core.config.settings], the fields the handlers read. *)
Record Settings := {
  TWITTER_API_KEY : string;
  TWITTER_API_SECRET : string;
  LINKEDIN_CLIENT_ID : string;
  LINKEDIN_CLIENT_SECRET : string;
  META_APP_ID : string;
  META_APP_SECRET : string
}.

(** [response.json()] of a token endpoint, at the keys [parse_token_response]
    reads; [None] is an absent key. *)
Record TokenData := {
  td_access_token : option string;
  td_refresh_token : option string;
  td_expires_in : option Z;
  td_token_type : option string;
  td_scope : option string
}.

(** [response.json()] of a profile endpoint, at the keys the handlers read;
    [None] is an absent key.  [pd_id] is the value at ['id'] as text,
    [pd_picture] a string at ['picture'] (LinkedIn), [pd_picture_data_url]
    the string at ['picture']['data']['url'] (Facebook). *)
Record ProfileData := {
  pd_id : option string;
  pd_sub : option string;
  pd_name : option string;
  pd_email : option string;
  pd_username : option string;
  pd_screen_name : option string;
  pd_picture : option string;
  pd_picture_data_url : option string;
  pd_profile_image_url_https : option string
}.

Record Response := {
  status_code : Z;
  text : string;
  json_token : TokenData;
  json_profile : ProfileData
}.

(** What one call of the service reads from outside: the clock
    ([datetime.utcnow()] and [time.time()] at its n-th reading, in seconds
    since the epoch), the random
    values ([secrets.token_urlsafe(32)], [uuid.uuid4()]; [secrets.token_hex(16)]
    and [os.urandom(16)] at their n-th draw) and the providers' answers to
    [client.post(url, data, headers)] and [client.get(url, headers)]. *)
Record Env := {
  settings : Settings;
  utcnow : Z;
  time_time : nat -> Z;
  token_urlsafe : string;
  token_hex : nat -> string;
  urandom : nat -> string;
  uuid4 : string;
  http_post : string -> Dict.dict string -> Dict.dict string -> Response;
  http_get : string -> Dict.dict string -> Response
}.

(** Decimal text of a non-negative number: [str(int(time.time()))]. *)
Module Decimal.
Definition digit (n : N) : ascii := Bytes.chr (48 + n).

Fixpoint digits (fuel : nat) (n : N) (acc : string) : string :=
  match fuel with
  | O => acc
  | S k =>
      let acc' := String (digit (n mod 10)) acc in
      if (n <? 10)%N then acc' else digits k (n / 10) acc'
  end.

Definition str (z : Z) : string :=
  let n := Z.to_N z in digits (S (N.to_nat (N.log2 n))) n EmptyString.
End Decimal.

(** ** [core/encryption.py]: [TokenEncryption] *)

(** Well-formed UTF-8 (RFC 3629): what [bytes.decode()] accepts. *)
Module Utf8.
Import Bytes.

Definition between (lo hi : N) (c : ascii) : bool :=
  (lo <=? code c)%N && (code c <=? hi)%N.

Definition cont (c : ascii) : bool := between 128 191 c.

Fixpoint valid (s : string) : bool :=
  match s with
  | EmptyString => true
  | String c0 r0 =>
      if (code c0 <? 128)%N then valid r0
      else
        match r0 with
        | EmptyString => false
        | String c1 r1 =>
            if between 194 223 c0 then cont c1 && valid r1
            else
              match r1 with
              | EmptyString => false
              | String c2 r2 =>
                  if between 224 239 c0 then
                    (if (code c0 =? 224)%N then between 160 191 c1
                     else if (code c0 =? 237)%N then between 128 159 c1
                     else cont c1)
                    && cont c2 && valid r2
                  else
                    match r2 with
                    | EmptyString => false
                    | String c3 r3 =>
                        between 240 244 c0
                        && (if (code c0 =? 240)%N then between 144 191 c1
                            else if (code c0 =? 244)%N then between 128 143 c1
                            else cont c1)
                        && cont c2 && cont c3 && valid r3
                    end
              end
        end
  end.

(** [b.decode()] *)
Definition decode (b : string) : result string :=
  if valid b then Ok b else Raise UnicodeDecodeError.
End Utf8.

(** [cryptography.fernet.Fernet], the library the cipher is built on, by its
    contract.  [fernet_encrypt k t iv m] is [Fernet(k).encrypt(m)] at clock
    reading [t] with the random block [iv]; [fernet_decrypt k c] is
    [Fernet(k).decrypt(c)], [None] standing for [InvalidToken].  A token
    decrypts under its own key to the data it was made from, and a token is
    never empty (it starts with a version byte). *)
Class FernetLib := {
  fernet_key : Type;
  fernet_encrypt : fernet_key -> Z -> string -> string -> string;
  fernet_decrypt : fernet_key -> string -> option string;
  fernet_round_trip :
    forall k t iv m, fernet_decrypt k (fernet_encrypt k t iv m) = Some m;
  fernet_token_nonempty :
    forall k t iv m, fernet_encrypt k t iv m <> EmptyString
}.

(** An instance of the contract, to run the service on concrete inputs: the
    token is the version byte, the key and the data, with no secrecy at all.
    It reads neither the clock nor the random block. *)
Definition tagged_encrypt (k : ascii) (t : Z) (iv m : string) : string :=
  String (Bytes.chr 128) (String k m).

Definition tagged_decrypt (k : ascii) (c : string) : option string :=
  match c with
  | String v (String k' m) =>
      if Ascii.eqb v (Bytes.chr 128) && Ascii.eqb k' k then Some m else None
  | _ => None
  end.

Definition tagged_cipher : FernetLib.
Proof.
  refine {| fernet_key := ascii;
            fernet_encrypt := tagged_encrypt;
            fernet_decrypt := tagged_decrypt |}.
  - intros k t iv m. unfold tagged_decrypt, tagged_encrypt.
    rewrite Ascii.eqb_refl, Ascii.eqb_refl. reflexivity.
  - intros k t iv m. unfold tagged_encrypt. discriminate.
Defined.

Module TokenEncryption.
Section WithFernet.
Context {F : FernetLib}.

(** The object after [__init__]: [self.cipher_suite], a Fernet under the
    derived key. *)
Record t := { cipher_suite : fernet_key }.

(** [encrypt_token] at clock reading [now] and random block [iv]. *)
Definition encrypt_token (self : t) (now : Z) (iv : string) (token : string)
  : string :=
  if Bytes.is_empty token then EmptyString
  else
    let encrypted_token := fernet_encrypt (cipher_suite self) now iv token in
    Base64.urlsafe_b64encode encrypted_token.

(** The body of the [try] in [decrypt_token]. *)
Definition decrypt_attempt (self : t) (encrypted_token : string)
  : result string :=
  decoded_token <-
    match Base64.urlsafe_b64decode encrypted_token with
    | Some b => Ok b
    | None => Raise BinasciiError
    end ;;
  decrypted_token <-
    match fernet_decrypt (cipher_suite self) decoded_token with
    | Some m => Ok m
    | None => Raise InvalidToken
    end ;;
  Utf8.decode decrypted_token.

Definition decrypt_token (self : t) (encrypted_token : string)
  : result string :=
  if Bytes.is_empty encrypted_token then Ok EmptyString
  else
    match decrypt_attempt self encrypted_token with
    | Ok s => Ok s
    | Raise _ => Ok EmptyString
    end.

End WithFernet.
End TokenEncryption.

(** ** [services/oauth/base.py]: the data models *)

Module OAuthConfig.
Record t := {
  client_id : string;
  client_secret : string;
  authorization_url : string;
  token_url : string;
  scope : string;
  redirect_uri : string
}.
End OAuthConfig.

Module OAuthTokens.
Record t := {
  access_token : string;
  refresh_token : option string;
  expires_in : option Z;
  expires_at : option Z;
  token_type : string;
  scope : option string;
  oauth_token_secret : option string
}.
End OAuthTokens.

Module UserProfile.
Record t := {
  platform_user_id : string;
  username : string;
  display_name : option string;
  email : option string;
  profile_image_url : option string
}.
End UserProfile.

(** [urllib.parse.urlencode] and [quote_plus] *)
Module UrlEncode.
Import PyStr.

Definition plus_for_space (c : ascii) : ascii :=
  if Ascii.eqb c " " then "+"%char else c.

Definition quote_plus (s : string) : string :=
  Bytes.translate plus_for_space (quote s " ").

Definition urlencode (params : Dict.dict string) : string :=
  join "&" (map (fun kv => quote_plus (fst kv) ++ "=" ++ quote_plus (snd kv))
                params).
End UrlEncode.

(** ** [services/oauth/base.py], [linkedin.py], [meta.py]: the OAuth 2.0 handlers

    [BaseOAuthHandler] with its subclasses: [platform] selects the methods a
    subclass overrides. *)

Module BaseOAuthHandler.
Import PyStr.

Inductive subclass :=
| LinkedIn
| Meta (platform_type : string).

Record t := {
  config : OAuthConfig.t;
  platform : subclass
}.

(** [LinkedInOAuthHandler.__init__] *)
Definition LinkedInOAuthHandler (cfg : Settings) (redirect_uri : string) : t :=
  {| config :=
       {| OAuthConfig.client_id := LINKEDIN_CLIENT_ID cfg;
          OAuthConfig.client_secret := LINKEDIN_CLIENT_SECRET cfg;
          OAuthConfig.authorization_url :=
            "https://www.linkedin.com/oauth/v2/authorization";
          OAuthConfig.token_url := "https://www.linkedin.com/oauth/v2/accessToken";
          OAuthConfig.scope := "profile email w_member_social";
          OAuthConfig.redirect_uri := redirect_uri |};
     platform := LinkedIn |}.

(** [MetaOAuthHandler.__init__] *)
Definition MetaOAuthHandler (cfg : Settings) (redirect_uri : string)
           (platform_type : string) : t :=
  let instagram := String.eqb platform_type "instagram" in
  {| config :=
       {| OAuthConfig.client_id := META_APP_ID cfg;
          OAuthConfig.client_secret := META_APP_SECRET cfg;
          OAuthConfig.authorization_url :=
            if instagram then "https://api.instagram.com/oauth/authorize"
            else "https://www.facebook.com/v18.0/dialog/oauth";
          OAuthConfig.token_url :=
            if instagram then "https://api.instagram.com/oauth/access_token"
            else "https://graph.facebook.com/v18.0/oauth/access_token";
          OAuthConfig.scope :=
            if instagram then "instagram_basic"
            else "pages_manage_posts,pages_read_engagement,pages_show_list";
          OAuthConfig.redirect_uri := redirect_uri |};
     platform := Meta platform_type |}.

Definition FacebookOAuthHandler (cfg : Settings) (redirect_uri : string) : t :=
  MetaOAuthHandler cfg redirect_uri "facebook".

Definition InstagramOAuthHandler (cfg : Settings) (redirect_uri : string) : t :=
  MetaOAuthHandler cfg redirect_uri "instagram".

Definition get_authorization_params (self : t) : Dict.dict string := [].

Definition get_token_exchange_params (self : t) (code : option string)
           (state : string) : Dict.dict string := [].

Definition get_token_exchange_headers (self : t) : Dict.dict string :=
  [("Content-Type", "application/x-www-form-urlencoded")].

Definition get_api_headers (self : t) : Dict.dict string :=
  [("Content-Type", "application/json")].

Definition get_profile_url (self : t) : string :=
  match platform self with
  | LinkedIn => "https://api.linkedin.com/v2/userinfo"
  | Meta platform_type =>
      if String.eqb platform_type "instagram"
      then "https://graph.instagram.com/me?fields=id,username"
      else "https://graph.facebook.com/v18.0/me?fields=id,name,picture"
  end.

Definition parse_user_profile (self : t) (profile_data : ProfileData)
  : UserProfile.t :=
  match platform self with
  | LinkedIn =>
      let display_name := get_or (pd_name profile_data) "" in
      {| UserProfile.platform_user_id := get_or (pd_sub profile_data) "";
         UserProfile.username :=
           if truthy (pd_email profile_data)
           then hd EmptyString (split (get_or (pd_email profile_data) "") "@")
           else get_or (pd_sub profile_data) "";
         UserProfile.display_name :=
           if Bytes.is_empty display_name then None else Some display_name;
         UserProfile.email := pd_email profile_data;
         UserProfile.profile_image_url := pd_picture profile_data |}
  | Meta platform_type =>
      if String.eqb platform_type "instagram" then
        {| UserProfile.platform_user_id := get_or (pd_id profile_data) "";
           UserProfile.username := get_or (pd_username profile_data) "";
           UserProfile.display_name := pd_username profile_data;
           UserProfile.email := None;
           UserProfile.profile_image_url := None |}
      else
        {| UserProfile.platform_user_id := get_or (pd_id profile_data) "";
           UserProfile.username := get_or (pd_name profile_data) "";
           UserProfile.display_name := pd_name profile_data;
           UserProfile.email := None;
           UserProfile.profile_image_url := pd_picture_data_url profile_data |}
  end.

Definition generate_authorization_url (self : t) (state : string) : string :=
  let params :=
    [("client_id", OAuthConfig.client_id (config self));
     ("redirect_uri", OAuthConfig.redirect_uri (config self));
     ("scope", OAuthConfig.scope (config self));
     ("response_type", "code");
     ("state", state)] in
  let params := Dict.update params (get_authorization_params self) in
  OAuthConfig.authorization_url (config self) ++ "?"
    ++ UrlEncode.urlencode params.

(** The first and the last second a [datetime] can hold, in seconds since
    the epoch: 0001-01-01T00:00:00 and 9999-12-31T23:59:59. *)
Definition datetime_min : Z := (-62135596800)%Z.
Definition datetime_max : Z := 253402300799%Z.

(** [datetime.utcnow() + timedelta(seconds=seconds)]: [OverflowError] when
    the result is no [datetime] (a [timedelta] that cannot be built is out of
    that range too). *)
Definition datetime_add (now seconds : Z) : result Z :=
  let t := (now + seconds)%Z in
  if (datetime_min <=? t)%Z && (t <=? datetime_max)%Z then Ok t
  else Raise OverflowError.

Definition parse_token_response (env : Env) (token_data : TokenData)
  : result OAuthTokens.t :=
  expires_at <-
    match td_expires_in token_data with
    | Some seconds =>
        t <- datetime_add (utcnow env) seconds ;; Ok (Some t)
    | None => Ok None
    end ;;
  match td_access_token token_data with
  | None => Raise (KeyError "access_token")
  | Some access_token =>
      Ok {| OAuthTokens.access_token := access_token;
            OAuthTokens.refresh_token := td_refresh_token token_data;
            OAuthTokens.expires_in := td_expires_in token_data;
            OAuthTokens.expires_at := expires_at;
            OAuthTokens.token_type := get_or (td_token_type token_data) "Bearer";
            OAuthTokens.scope := td_scope token_data;
            OAuthTokens.oauth_token_secret := None |}
  end.

(** [code] may be [None]; the form then carries an empty value. *)
Definition exchange_code_for_tokens (self : t) (env : Env)
           (code : option string) (state : string) : result OAuthTokens.t :=
  let data :=
    [("client_id", OAuthConfig.client_id (config self));
     ("client_secret", OAuthConfig.client_secret (config self));
     ("code", get_or code "");
     ("redirect_uri", OAuthConfig.redirect_uri (config self));
     ("grant_type", "authorization_code")] in
  let data := Dict.update data (get_token_exchange_params self code state) in
  let headers := get_token_exchange_headers self in
  let response := http_post env (OAuthConfig.token_url (config self)) data headers in
  if negb (status_code response =? 200)%Z then
    Raise (Exception ("Token exchange failed: " ++ text response))
  else parse_token_response env (json_token response).

Definition refresh_access_token (self : t) (env : Env) (refresh_token : string)
  : result OAuthTokens.t :=
  if Bytes.is_empty refresh_token then
    Raise (Exception "No refresh token available")
  else
    let data :=
      [("client_id", OAuthConfig.client_id (config self));
       ("client_secret", OAuthConfig.client_secret (config self));
       ("refresh_token", refresh_token);
       ("grant_type", "refresh_token")] in
    let headers := get_token_exchange_headers self in
    let response :=
      http_post env (OAuthConfig.token_url (config self)) data headers in
    if negb (status_code response =? 200)%Z then
      Raise (Exception ("Token refresh failed: " ++ text response))
    else parse_token_response env (json_token response).

Definition get_user_profile (self : t) (env : Env) (access_token : string)
  : result UserProfile.t :=
  let headers :=
    Dict.update [("Authorization", "Bearer " ++ access_token)]
                (get_api_headers self) in
  let profile_url := get_profile_url self in
  let response := http_get env profile_url headers in
  if negb (status_code response =? 200)%Z then
    Raise (Exception ("Failed to get user profile: " ++ text response))
  else Ok (parse_user_profile self (json_profile response)).

End BaseOAuthHandler.

(** ** [services/oauth/twitter.py]: [TwitterOAuth1Handler] *)

Module TwitterOAuth1Handler.
Import PyStr.

Record t := {
  client_id : string;
  client_secret : string;
  redirect_uri : string
}.

Definition init (cfg : Settings) (redirect_uri : string) : t :=
  {| client_id := TWITTER_API_KEY cfg;
     client_secret := TWITTER_API_SECRET cfg;
     redirect_uri := redirect_uri |}.

Definition request_token_url := "https://api.x.com/oauth/request_token".
Definition authorize_url := "https://api.x.com/oauth/authenticate".
Definition access_token_url := "https://api.x.com/oauth/access_token".
Definition profile_url :=
  "https://api.x.com/1.1/account/verify_credentials.json".

(** [f"{quote(str(k), safe='')}={quote(str(v), safe='')}"] *)
Definition encode_pair (kv : string * string) : string :=
  quote (fst kv) "" ++ "=" ++ quote (snd kv) "".

Definition _generate_oauth_signature (self : t) (method url : string)
           (params : Dict.dict string) (token_secret : string) : string :=
  let sorted_params := sorted tuple_leb params in
  let param_string := join "&" (map encode_pair sorted_params) in
  let base_string :=
    upper method ++ "&" ++ quote url "" ++ "&" ++ quote param_string "" in
  let signing_key :=
    quote (client_secret self) "" ++ "&" ++ quote token_secret "" in
  let signature := SHA1.hmac_sha1 signing_key base_string in
  Base64.b64encode signature.

Definition dquote : string := String (Bytes.chr 34) EmptyString.

Definition _create_oauth_header (self : t) (params : Dict.dict string)
  : string :=
  let oauth_params := filter (fun kv => startswith (fst kv) "oauth_") params in
  let sorted_params := sorted tuple_leb oauth_params in
  let param_string :=
    join ", " (map (fun kv => fst kv ++ "=" ++ dquote ++ quote (snd kv) "/"
                                ++ dquote) sorted_params) in
  "OAuth " ++ param_string.

(** The loop that reads a form-encoded answer:
    [key, value = param.split('=')] raises unless there are two parts. *)
Fixpoint parse_pairs (parts : list string) (acc : Dict.dict string)
  : result (Dict.dict string) :=
  match parts with
  | [] => Ok acc
  | param :: rest =>
      match split param "=" with
      | [key; value] => parse_pairs rest (Dict.set acc key value)
      | [_] => Raise (ValueError "not enough values to unpack (expected 2, got 1)")
      | _ => Raise (ValueError "too many values to unpack (expected 2)")
      end
  end.

Definition parse_response (body : string) : result (Dict.dict string) :=
  parse_pairs (split body "&") [].

(** [n] counts the readings of the clock and of the random source inside
    one call of the service. *)
Definition get_request_token (self : t) (env : Env) (n : nat)
  : result (Dict.dict string) :=
  let oauth_params :=
    [("oauth_callback", redirect_uri self);
     ("oauth_consumer_key", client_id self);
     ("oauth_nonce", token_hex env n);
     ("oauth_signature_method", "HMAC-SHA1");
     ("oauth_timestamp", Decimal.str (time_time env n));
     ("oauth_version", "1.0")] in
  let oauth_params :=
    Dict.set oauth_params "oauth_signature"
      (_generate_oauth_signature self "POST" request_token_url oauth_params "") in
  let auth_header := _create_oauth_header self oauth_params in
  let response :=
    http_post env request_token_url [] [("Authorization", auth_header)] in
  if negb (status_code response =? 200)%Z then
    Raise (Exception ("Failed to get request token: " ++ text response))
  else parse_response (text response).

Definition generate_authorization_url (self : t) (oauth_token : string)
  : string :=
  authorize_url ++ "?" ++ UrlEncode.urlencode [("oauth_token", oauth_token)].

Definition get_access_token (self : t) (env : Env) (n : nat)
           (oauth_token oauth_verifier oauth_token_secret : string)
  : result (Dict.dict string) :=
  let oauth_params :=
    [("oauth_consumer_key", client_id self);
     ("oauth_nonce", token_hex env n);
     ("oauth_signature_method", "HMAC-SHA1");
     ("oauth_timestamp", Decimal.str (time_time env n));
     ("oauth_token", oauth_token);
     ("oauth_verifier", oauth_verifier);
     ("oauth_version", "1.0")] in
  let oauth_params :=
    Dict.set oauth_params "oauth_signature"
      (_generate_oauth_signature self "POST" access_token_url oauth_params
                                 oauth_token_secret) in
  let auth_header := _create_oauth_header self oauth_params in
  let response :=
    http_post env access_token_url [] [("Authorization", auth_header)] in
  if negb (status_code response =? 200)%Z then
    Raise (Exception ("Failed to get access token: " ++ text response))
  else parse_response (text response).

Definition get_user_profile (self : t) (env : Env) (n : nat)
           (oauth_token oauth_token_secret : string) : result UserProfile.t :=
  let oauth_params :=
    [("oauth_consumer_key", client_id self);
     ("oauth_nonce", token_hex env n);
     ("oauth_signature_method", "HMAC-SHA1");
     ("oauth_timestamp", Decimal.str (time_time env n));
     ("oauth_token", oauth_token);
     ("oauth_version", "1.0")] in
  let oauth_params :=
    Dict.set oauth_params "oauth_signature"
      (_generate_oauth_signature self "GET" profile_url oauth_params
                                 oauth_token_secret) in
  let auth_header := _create_oauth_header self oauth_params in
  let response := http_get env profile_url [("Authorization", auth_header)] in
  if negb (status_code response =? 200)%Z then
    Raise (Exception ("Failed to get user profile: " ++ text response))
  else
    let profile_data := json_profile response in
    Ok {| UserProfile.platform_user_id := get_or (pd_id profile_data) "";
          UserProfile.username := get_or (pd_screen_name profile_data) "";
          UserProfile.display_name := pd_name profile_data;
          UserProfile.email := None;
          UserProfile.profile_image_url :=
            pd_profile_image_url_https profile_data |}.

End TwitterOAuth1Handler.

(** ** [services/oauth/twitter.py]: [TwitterOAuthHandler], the wrapper *)

Module TwitterOAuthHandler.

Record RequestToken := {
  oauth_token : string;
  oauth_token_secret : string
}.

Record t := {
  handler : TwitterOAuth1Handler.t;
  redirect_uri : string;
  _request_tokens : Dict.dict RequestToken
}.

(** [__init__]: every new wrapper starts with an empty [_request_tokens]. *)
Definition init (cfg : Settings) (redirect_uri : string) : t :=
  {| handler := TwitterOAuth1Handler.init cfg redirect_uri;
     redirect_uri := redirect_uri;
     _request_tokens := [] |}.

Definition generate_authorization_url (self : t) (state : string)
  : result string :=
  Raise (NotImplementedError "Use initiate_oauth_flow instead").

(** Returns the wrapper as the call leaves it, and the URL. *)
Definition initiate_oauth_flow (self : t) (env : Env) (state : string)
  : result (t * string) :=
  request_token_data <- TwitterOAuth1Handler.get_request_token (handler self) env 0 ;;
  token <- Dict.item request_token_data "oauth_token" ;;
  secret <- Dict.item request_token_data "oauth_token_secret" ;;
  let self' :=
    {| handler := handler self;
       redirect_uri := redirect_uri self;
       _request_tokens :=
         Dict.set (_request_tokens self) state
                  {| oauth_token := token; oauth_token_secret := secret |} |} in
  let auth_url :=
    TwitterOAuth1Handler.generate_authorization_url (handler self) token in
  Ok (self', auth_url).

(** [str(v)] of an [Optional[str]] argument. *)
Definition py_str (o : option string) : string :=
  match o with
  | Some s => s
  | None => "None"
  end.

Definition option_string_eqb (a b : option string) : bool :=
  match a, b with
  | Some x, Some y => String.eqb x y
  | None, None => true
  | _, _ => false
  end.

Definition exchange_code_for_tokens (self : t) (env : Env)
           (oauth_token oauth_verifier : option string) (state : string)
  : result (t * OAuthTokens.t) :=
  match Dict.get (_request_tokens self) state with
  | None => Raise (Exception "Invalid state or expired request token")
  | Some request_token_data =>
      if negb (option_string_eqb (Some (TwitterOAuthHandler.oauth_token
                                          request_token_data)) oauth_token)
      then Raise (Exception "OAuth token mismatch")
      else
        access_token_data <-
          TwitterOAuth1Handler.get_access_token (handler self) env 0
            (py_str oauth_token) (py_str oauth_verifier)
            (TwitterOAuthHandler.oauth_token_secret request_token_data) ;;
        let self' :=
          {| handler := handler self;
             redirect_uri := redirect_uri self;
             _request_tokens := Dict.del (_request_tokens self) state |} in
        access_token <- Dict.item access_token_data "oauth_token" ;;
        secret <- Dict.item access_token_data "oauth_token_secret" ;;
        Ok (self',
            {| OAuthTokens.access_token := access_token;
               OAuthTokens.refresh_token := None;
               OAuthTokens.expires_in := None;
               OAuthTokens.expires_at := None;
               OAuthTokens.token_type := "oauth1";
               OAuthTokens.scope := None;
               OAuthTokens.oauth_token_secret := Some secret |})
  end.

Definition get_user_profile (self : t) (env : Env) (n : nat)
           (access_token : string) (oauth_token_secret : option string)
  : result UserProfile.t :=
  if negb (truthy oauth_token_secret) then
    Raise (Exception "OAuth token secret required for Twitter OAuth 1.0a")
  else
    TwitterOAuth1Handler.get_user_profile (handler self) env n access_token
                                          (get_or oauth_token_secret "").

End TwitterOAuthHandler.

(** ** [models/platform_connection.py] *)

Module PlatformConnection.
Record t := {
  id : string;
  user_id : string;
  platform : string;
  platform_user_id : string;
  platform_username : string;
  access_token : string;
  refresh_token : option string;
  oauth_token_secret : option string;
  expires_at : option Z;
  is_active : bool;
  created_at : Z;
  updated_at : Z
}.
End PlatformConnection.

(** The table [platform_connections]: its rows in insertion order. *)
Definition database := list PlatformConnection.t.

(** [core/database.py]: the [AsyncSession] a request gets from
    [get_database].  It holds the table as committed and the table as the
    session sees it, with the statements it has executed and not committed.
    The functions of the service that write commit right after the write;
    for them the table they are given and the table they return are both
    what is committed.  [disconnect_platform] executes its statement and
    does not commit. *)
Module Session.
Record t := {
  committed : database;
  seen : database
}.

(** [AsyncSessionLocal()] on a table. *)
Definition AsyncSessionLocal (db : database) : t :=
  {| committed := db; seen := db |}.

(** [session.execute(statement)] of a statement that turns the table into
    [f] of it. *)
Definition execute (f : database -> database) (s : t) : t :=
  {| committed := committed s; seen := f (seen s) |}.

(** [session.close()] at the end of [get_database] (no [commit] is issued
    there): what the session did not commit is rolled back.  The table that
    stays. *)
Definition close (s : t) : database := committed s.
End Session.

(** [result.scalar_one_or_none()] *)
Definition scalar_one_or_none {A} (rows : list A) : result (option A) :=
  match rows with
  | [] => Ok None
  | [r] => Ok (Some r)
  | _ => Raise MultipleResultsFound
  end.

(** ** [services/platform_connection_service.py] *)

Module PlatformConnectionService.
Section WithTokenEncryption.
Context {F : FernetLib}.

(** [core.encryption.token_encryption], the global instance. *)
Variable token_encryption : TokenEncryption.t.

Record StateData := {
  sd_user_id : string;
  sd_platform : string;
  sd_redirect_uri : string;
  sd_created_at : Z
}.

(** The service object: [self.active_states]; [self.oauth_handlers] never
    changes and is [oauth_handlers] below. *)
Record t := { active_states : Dict.dict StateData }.

(** [__init__] *)
Definition init : t := {| active_states := [] |}.

(** A handler object of one of the two handler classes. *)
Inductive Handler :=
| Twitter (h : TwitterOAuthHandler.t)
| OAuth2 (h : BaseOAuthHandler.t).

Definition oauth_handlers : Dict.dict (Settings -> string -> Handler) :=
  [("twitter", fun cfg r => Twitter (TwitterOAuthHandler.init cfg r));
   ("linkedin", fun cfg r => OAuth2 (BaseOAuthHandler.LinkedInOAuthHandler cfg r));
   ("facebook", fun cfg r => OAuth2 (BaseOAuthHandler.FacebookOAuthHandler cfg r));
   ("instagram", fun cfg r => OAuth2 (BaseOAuthHandler.InstagramOAuthHandler cfg r))].

Definition _get_oauth_handler (env : Env) (platform redirect_uri : string)
  : result Handler :=
  match Dict.get oauth_handlers platform with
  | None => Raise (ValueError ("Unsupported platform: " ++ platform))
  | Some handler_class => Ok (handler_class (settings env) redirect_uri)
  end.

(** Returns the service as the call leaves it (also when it raises) and the
    authorization URL. *)
Definition initiate_oauth (self : t) (env : Env)
           (platform user_id redirect_uri : string) : t * result string :=
  let state := token_urlsafe env in
  let self :=
    {| active_states :=
         Dict.set (active_states self) state
                  {| sd_user_id := user_id;
                     sd_platform := platform;
                     sd_redirect_uri := redirect_uri;
                     sd_created_at := utcnow env |} |} in
  match _get_oauth_handler env platform redirect_uri with
  | Raise e => (self, Raise e)
  | Ok handler =>
      if String.eqb platform "twitter" then
        match handler with
        | Twitter twitter_handler =>
            (self,
             r <- TwitterOAuthHandler.initiate_oauth_flow twitter_handler env state ;;
             Ok (snd r))
        | OAuth2 _ =>
            (self, Raise (AttributeError "initiate_oauth_flow"))
        end
      else
        match handler with
        | OAuth2 h => (self, Ok (BaseOAuthHandler.generate_authorization_url h state))
        | Twitter h => (self, TwitterOAuthHandler.generate_authorization_url h state)
        end
  end.

(** The loop of [complete_oauth] over [self.active_states.items()]: the first
    state whose platform is twitter. *)
Fixpoint first_twitter_state (items : Dict.dict StateData) : option string :=
  match items with
  | [] => None
  | (stored_state, data) :: rest =>
      if String.eqb (sd_platform data) "twitter" then Some stored_state
      else first_twitter_state rest
  end.

Definition same_triple (user_id platform platform_user_id : string)
           (c : PlatformConnection.t) : bool :=
  String.eqb (PlatformConnection.user_id c) user_id
  && String.eqb (PlatformConnection.platform c) platform
  && String.eqb (PlatformConnection.platform_user_id c) platform_user_id.

Definition _get_existing_connection (db : database)
           (user_id platform platform_user_id : string)
  : result (option PlatformConnection.t) :=
  scalar_one_or_none (filter (same_triple user_id platform platform_user_id) db).

(** [encrypt_token(x) if x else None] at the [n]-th reading of the clock and
    of the random source. *)
Definition encrypt_optional (env : Env) (n : nat) (x : option string)
  : option string :=
  if truthy x
  then Some (TokenEncryption.encrypt_token token_encryption (time_time env n)
                                           (urandom env n) (get_or x ""))
  else None.

Definition _create_new_connection (env : Env) (db : database)
           (user_id platform : string) (tokens : OAuthTokens.t)
           (user_profile : UserProfile.t)
  : database * result PlatformConnection.t :=
  let connection :=
    {| PlatformConnection.id := uuid4 env;
       PlatformConnection.user_id := user_id;
       PlatformConnection.platform := platform;
       PlatformConnection.platform_user_id :=
         UserProfile.platform_user_id user_profile;
       PlatformConnection.platform_username := UserProfile.username user_profile;
       PlatformConnection.access_token :=
         TokenEncryption.encrypt_token token_encryption (time_time env 2)
           (urandom env 2) (OAuthTokens.access_token tokens);
       PlatformConnection.refresh_token :=
         encrypt_optional env 3 (OAuthTokens.refresh_token tokens);
       PlatformConnection.oauth_token_secret :=
         encrypt_optional env 4 (OAuthTokens.oauth_token_secret tokens);
       PlatformConnection.expires_at := OAuthTokens.expires_at tokens;
       PlatformConnection.is_active := true;
       PlatformConnection.created_at := utcnow env;
       PlatformConnection.updated_at := utcnow env |} in
  if existsb (fun c => String.eqb (PlatformConnection.id c) (uuid4 env)) db
  then (db, Raise IntegrityError)
  else ((db ++ [connection])%list, Ok connection).

Definition with_new_tokens (env : Env) (tokens : OAuthTokens.t)
           (c : PlatformConnection.t) : PlatformConnection.t :=
  {| PlatformConnection.id := PlatformConnection.id c;
     PlatformConnection.user_id := PlatformConnection.user_id c;
     PlatformConnection.platform := PlatformConnection.platform c;
     PlatformConnection.platform_user_id := PlatformConnection.platform_user_id c;
     PlatformConnection.platform_username := PlatformConnection.platform_username c;
     PlatformConnection.access_token :=
       TokenEncryption.encrypt_token token_encryption (time_time env 2)
         (urandom env 2) (OAuthTokens.access_token tokens);
     PlatformConnection.refresh_token :=
       encrypt_optional env 3 (OAuthTokens.refresh_token tokens);
     PlatformConnection.oauth_token_secret :=
       encrypt_optional env 4 (OAuthTokens.oauth_token_secret tokens);
     PlatformConnection.expires_at := OAuthTokens.expires_at tokens;
     PlatformConnection.is_active := true;
     PlatformConnection.created_at := PlatformConnection.created_at c;
     PlatformConnection.updated_at := utcnow env |}.

(** The [UPDATE ... WHERE id = connection.id], then the row read back. *)
Definition _update_connection_tokens (env : Env) (db : database)
           (connection : PlatformConnection.t) (tokens : OAuthTokens.t)
  : database * result PlatformConnection.t :=
  let db' :=
    map (fun c =>
           if String.eqb (PlatformConnection.id c)
                         (PlatformConnection.id connection)
           then with_new_tokens env tokens c else c) db in
  (db', Ok (with_new_tokens env tokens connection)).

(** The [async with] block of [complete_oauth]: token exchange, then the
    profile. *)
Definition exchange_and_fetch_profile (env : Env) (handler : Handler)
           (platform : string) (code oauth_token oauth_verifier : option string)
           (state : string) : result (OAuthTokens.t * UserProfile.t) :=
  if String.eqb platform "twitter" then
    match handler with
    | Twitter h =>
        r <- TwitterOAuthHandler.exchange_code_for_tokens h env oauth_token
               oauth_verifier state ;;
        let tokens := snd r in
        user_profile <-
          TwitterOAuthHandler.get_user_profile (fst r) env 1
            (OAuthTokens.access_token tokens)
            (OAuthTokens.oauth_token_secret tokens) ;;
        Ok (tokens, user_profile)
    | OAuth2 _ =>
        Raise (TypeError "exchange_code_for_tokens() takes 3 positional arguments but 4 were given")
    end
  else
    match handler with
    | OAuth2 h =>
        tokens <- BaseOAuthHandler.exchange_code_for_tokens h env code state ;;
        user_profile <-
          BaseOAuthHandler.get_user_profile h env (OAuthTokens.access_token tokens) ;;
        Ok (tokens, user_profile)
    | Twitter _ =>
        Raise (TypeError "exchange_code_for_tokens() missing 1 required positional argument: 'state'")
    end.

(** Returns the service and the table as the call leaves them (also when it
    raises) and the connection. *)
Definition complete_oauth (self : t) (env : Env) (db : database)
           (code state oauth_token oauth_verifier : option string)
  : t * database * result PlatformConnection.t :=
  let resolved : result (option string * option string) :=
    if truthy oauth_token && truthy oauth_verifier then
      let state_found := first_twitter_state (active_states self) in
      if negb (truthy state_found)
      then Raise (ValueError "Invalid or expired OAuth token")
      else Ok (state_found, oauth_verifier)
    else Ok (state, code) in
  match resolved with
  | Raise e => (self, db, Raise e)
  | Ok (state, code) =>
      match state with
      | None => (self, db, Raise (ValueError "Invalid or expired state parameter"))
      | Some state =>
          match Dict.get (active_states self) state with
          | None =>
              (self, db, Raise (ValueError "Invalid or expired state parameter"))
          | Some state_data =>
              let user_id := sd_user_id state_data in
              let platform := sd_platform state_data in
              let redirect_uri := sd_redirect_uri state_data in
              let self :=
                {| active_states := Dict.del (active_states self) state |} in
              match
                (handler <- _get_oauth_handler env platform redirect_uri ;;
                 exchange_and_fetch_profile env handler platform code
                                            oauth_token oauth_verifier state)
              with
              | Raise e => (self, db, Raise e)
              | Ok (tokens, user_profile) =>
                  match
                    _get_existing_connection db user_id platform
                      (UserProfile.platform_user_id user_profile)
                  with
                  | Raise e => (self, db, Raise e)
                  | Ok (Some existing_connection) =>
                      let (db', r) :=
                        _update_connection_tokens env db existing_connection tokens in
                      (self, db', r)
                  | Ok None =>
                      let (db', r) :=
                        _create_new_connection env db user_id platform tokens
                                               user_profile in
                      (self, db', r)
                  end
              end
          end
      end
  end.

(** [handler.refresh_access_token(refresh_token)] on a handler object of
    either class: the Twitter wrapper has no such method. *)
Definition handler_refresh_access_token (handler : Handler) (env : Env)
           (refresh_token : string) : result OAuthTokens.t :=
  match handler with
  | OAuth2 h => BaseOAuthHandler.refresh_access_token h env refresh_token
  | Twitter _ =>
      Raise (AttributeError
               "'TwitterOAuthHandler' object has no attribute 'refresh_access_token'")
  end.

Definition refresh_connection_token (self : t) (env : Env) (db : database)
           (connection_id : string) : database * result PlatformConnection.t :=
  match
    scalar_one_or_none
      (filter (fun c => String.eqb (PlatformConnection.id c) connection_id) db)
  with
  | Raise e => (db, Raise e)
  | Ok None => (db, Raise (ValueError "Connection not found"))
  | Ok (Some connection) =>
      if negb (truthy (PlatformConnection.refresh_token connection)) then
        (db, Raise (ValueError "No refresh token available"))
      else
        match
          TokenEncryption.decrypt_token token_encryption
            (get_or (PlatformConnection.refresh_token connection) "")
        with
        | Raise e => (db, Raise e)
        | Ok refresh_token =>
            let redirect_uri := "http://localhost:8000/api/v1/oauth/callback" in
            match
              (handler <- _get_oauth_handler env
                            (PlatformConnection.platform connection) redirect_uri ;;
               handler_refresh_access_token handler env refresh_token)
            with
            | Raise e => (db, Raise e)
            | Ok new_tokens =>
                _update_connection_tokens env db connection new_tokens
            end
        end
  end.

(** The [DELETE ... WHERE id = connection_id AND user_id = user_id] is
    executed in the session and not committed; [result.rowcount > 0]. *)
Definition disconnect_platform (self : t) (db : Session.t)
           (connection_id user_id : string) : Session.t * bool :=
  let hit c :=
    String.eqb (PlatformConnection.id c) connection_id
    && String.eqb (PlatformConnection.user_id c) user_id in
  (Session.execute (filter (fun c => negb (hit c))) db,
   existsb hit (Session.seen db)).

Definition get_user_connections (self : t) (db : database) (user_id : string)
  : list PlatformConnection.t := [].

Definition get_connection_by_id (self : t) (db : database)
           (connection_id user_id : string)
  : result (option PlatformConnection.t) :=
  scalar_one_or_none
    (filter (fun c =>
               String.eqb (PlatformConnection.id c) connection_id
               && String.eqb (PlatformConnection.user_id c) user_id
               && Bool.eqb (PlatformConnection.is_active c) true) db).

End WithTokenEncryption.
End PlatformConnectionService.

(** ** The OAuth 1.0a signature as the specification words it

    Not taken from the code: the steps in the order the specification lists
    them.  Every parameter name and value is percent-encoded, the encoded
    pairs are sorted by encoded name, joined, and signed.  The code sorts the
    raw pairs first and encodes afterwards ([_generate_oauth_signature]). *)

Module SignatureSpec.
Import PyStr.

Definition key_leb (p q : string * string) : bool :=
  String.leb (fst p) (fst q).

Definition signature (consumer_secret token_secret method url : string)
           (params : Dict.dict string) : string :=
  let encoded :=
    map (fun kv => (quote (fst kv) "", quote (snd kv) "")) params in
  let ordered := sorted key_leb encoded in
  let param_string :=
    join "&" (map (fun kv => fst kv ++ "=" ++ snd kv) ordered) in
  let base_string :=
    upper method ++ "&" ++ quote url "" ++ "&" ++ quote param_string "" in
  let signing_key :=
    quote consumer_secret "" ++ "&" ++ quote token_secret "" in
  Base64.b64encode (SHA1.hmac_sha1 signing_key base_string).

End SignatureSpec.

(** ** Concrete worlds, to run the service on *)

Module Scenario.

Definition cfg : Settings :=
  {| TWITTER_API_KEY := "tw-key";
     TWITTER_API_SECRET := "tw-secret";
     LINKEDIN_CLIENT_ID := "li-client";
     LINKEDIN_CLIENT_SECRET := "li-secret";
     META_APP_ID := "meta-app";
     META_APP_SECRET := "meta-secret" |}.

Definition no_token : TokenData :=
  {| td_access_token := None; td_refresh_token := None; td_expires_in := None;
     td_token_type := None; td_scope := None |}.

Definition no_profile : ProfileData :=
  {| pd_id := None; pd_sub := None; pd_name := None; pd_email := None;
     pd_username := None; pd_screen_name := None; pd_picture := None;
     pd_picture_data_url := None; pd_profile_image_url_https := None |}.

(** A provider that answers 200 everywhere: to a token request with the
    access token [access] (and a refresh token), to a profile request with the
    member [member], and to a Twitter request-token or access-token request
    with the form-encoded body [form]. *)
Definition provider_post (access form : string)
           (url : string) (data headers : Dict.dict string) : Response :=
  {| status_code := 200;
     text := form;
     json_token :=
       {| td_access_token := Some access;
          td_refresh_token := Some "refresh-1";
          td_expires_in := Some 3600%Z;
          td_token_type := Some "Bearer";
          td_scope := None |};
     json_profile := no_profile |}.

Definition provider_get (member : string)
           (url : string) (headers : Dict.dict string) : Response :=
  {| status_code := 200;
     text := EmptyString;
     json_token := no_token;
     json_profile :=
       {| pd_id := Some member; pd_sub := Some member; pd_name := Some "Ada";
          pd_email := Some "ada@example.org"; pd_username := Some "ada";
          pd_screen_name := Some "ada"; pd_picture := None;
          pd_picture_data_url := None; pd_profile_image_url_https := None |} |}.

(** The world of one call: clock reading [now], state token [state], row id
    [uuid], and the provider above. *)
Definition world (now : Z) (state uuid access form member : string) : Env :=
  {| settings := cfg;
     utcnow := now;
     time_time := fun _ => now;
     token_urlsafe := state;
     token_hex := fun _ => "0123456789abcdef0123456789abcdef";
     urandom := fun _ => "0000000000000000";
     uuid4 := uuid;
     http_post := provider_post access form;
     http_get := provider_get member |}.

Definition cipher : @TokenEncryption.t tagged_cipher :=
  @TokenEncryption.Build_t tagged_cipher "k"%char.

(** One twitter initiation pending: state [s1] of user [u1], request token
    [rt1]. *)
Definition one_twitter_pending : PlatformConnectionService.t :=
  fst (PlatformConnectionService.initiate_oauth PlatformConnectionService.init
         (world 0 "s1" "id1" "acc"
            "oauth_token=rt1&oauth_token_secret=rs1&oauth_callback_confirmed=true"
            "m1")
         "twitter" "u1" "https://app/cb").

(** Then a second one: state [s2] of user [u2], request token [rt2]. *)
Definition two_twitter_pending : PlatformConnectionService.t :=
  fst (PlatformConnectionService.initiate_oauth one_twitter_pending
         (world 5 "s2" "id1" "acc"
            "oauth_token=rt2&oauth_token_secret=rs2&oauth_callback_confirmed=true"
            "m1")
         "twitter" "u2" "https://app/cb").

(** One LinkedIn initiation pending: state [s1] of user [u1], stored at
    clock reading 0. *)
Definition one_linkedin_pending : PlatformConnectionService.t :=
  fst (PlatformConnectionService.initiate_oauth PlatformConnectionService.init
         (world 0 "s1" "id1" "acc1" "" "m1") "linkedin" "u1" "https://app/cb").



(** The callback of [one_linkedin_pending], a minute later, on an empty
    table. *)
Definition linkedin_completed
  : PlatformConnectionService.t * database * result PlatformConnection.t :=
  PlatformConnectionService.complete_oauth cipher one_linkedin_pending
    (world 60 "s9" "id1" "acc1" "" "m1") [] (Some "code1") (Some "s1") None None.

(** The Twitter wrapper after [initiate_oauth_flow] for state [s1], when the
    provider issued request token [rt1] with secret [rs1]. *)
Definition wrapper_initiated : TwitterOAuthHandler.t :=
  {| TwitterOAuthHandler.handler :=
       TwitterOAuth1Handler.init cfg "https://app/cb";
     TwitterOAuthHandler.redirect_uri := "https://app/cb";
     TwitterOAuthHandler._request_tokens :=
       [("s1", {| TwitterOAuthHandler.oauth_token := "rt1";
                  TwitterOAuthHandler.oauth_token_secret := "rs1" |})] |}.

(** The same wrapper after the exchange, and the tokens the exchange gave
    when the provider answered [oauth_token=at&oauth_token_secret=as]. *)
Definition wrapper_exchanged : TwitterOAuthHandler.t :=
  {| TwitterOAuthHandler.handler :=
       TwitterOAuth1Handler.init cfg "https://app/cb";
     TwitterOAuthHandler.redirect_uri := "https://app/cb";
     TwitterOAuthHandler._request_tokens := [] |}.

Definition twitter_tokens : OAuthTokens.t :=
  {| OAuthTokens.access_token := "at";
     OAuthTokens.refresh_token := None;
     OAuthTokens.expires_in := None;
     OAuthTokens.expires_at := None;
     OAuthTokens.token_type := "oauth1";
     OAuthTokens.scope := None;
     OAuthTokens.oauth_token_secret := Some "as" |}.

(** The connection that [linkedin_completed] writes and returns. *)
Definition linkedin_connection : PlatformConnection.t :=
  {| PlatformConnection.id := "id1";
     PlatformConnection.user_id := "u1";
     PlatformConnection.platform := "linkedin";
     PlatformConnection.platform_user_id := "m1";
     PlatformConnection.platform_username := "ada";
     PlatformConnection.access_token :=
       TokenEncryption.encrypt_token cipher 60 "0000000000000000" "acc1";
     PlatformConnection.refresh_token :=
       Some (TokenEncryption.encrypt_token cipher 60 "0000000000000000"
                                           "refresh-1");
     PlatformConnection.oauth_token_secret := None;
     PlatformConnection.expires_at := Some 3660%Z;
     PlatformConnection.is_active := true;
     PlatformConnection.created_at := 60;
     PlatformConnection.updated_at := 60 |}.

(** A provider whose token answers carry no refresh token, and its world. *)
Definition provider_post_without_refresh (access : string)
           (url : string) (data headers : Dict.dict string) : Response :=
  {| status_code := 200;
     text := EmptyString;
     json_token :=
       {| td_access_token := Some access;
          td_refresh_token := None;
          td_expires_in := Some 3600%Z;
          td_token_type := Some "Bearer";
          td_scope := None |};
     json_profile := no_profile |}.

Definition world_without_refresh (now : Z) (access : string) : Env :=
  {| settings := cfg;
     utcnow := now;
     time_time := fun _ => now;
     token_urlsafe := "s9";
     token_hex := fun _ => "0123456789abcdef0123456789abcdef";
     urandom := fun _ => "0000000000000000";
     uuid4 := "id9";
     http_post := provider_post_without_refresh access;
     http_get := provider_get "m1" |}.

(** [linkedin_connection] after a refresh in that world at clock reading
    120. *)
Definition linkedin_refreshed : PlatformConnection.t :=
  {| PlatformConnection.id := "id1";
     PlatformConnection.user_id := "u1";
     PlatformConnection.platform := "linkedin";
     PlatformConnection.platform_user_id := "m1";
     PlatformConnection.platform_username := "ada";
     PlatformConnection.access_token :=
       TokenEncryption.encrypt_token cipher 120 "0000000000000000" "acc2";
     PlatformConnection.refresh_token := None;
     PlatformConnection.oauth_token_secret := None;
     PlatformConnection.expires_at := Some 3720%Z;
     PlatformConnection.is_active := true;
     PlatformConnection.created_at := 60;
     PlatformConnection.updated_at := 120 |}.

(** A LinkedIn row whose stored refresh token is no ciphertext. *)
Definition linkedin_damaged : PlatformConnection.t :=
  {| PlatformConnection.id := "id1";
     PlatformConnection.user_id := "u1";
     PlatformConnection.platform := "linkedin";
     PlatformConnection.platform_user_id := "m1";
     PlatformConnection.platform_username := "ada";
     PlatformConnection.access_token :=
       TokenEncryption.encrypt_token cipher 60 "0000000000000000" "acc1";
     PlatformConnection.refresh_token := Some "A";
     PlatformConnection.oauth_token_secret := None;
     PlatformConnection.expires_at := Some 3660%Z;
     PlatformConnection.is_active := true;
     PlatformConnection.created_at := 60;
     PlatformConnection.updated_at := 60 |}.

End Scenario.

(** ** Sequences of calls

    The service object and the table live across calls; [run] threads them
    through a list of calls, each with the world it sees.  A call is a
    request: it has a session of its own, closed when the call ends. *)

Module Driver.
Section WithTokenEncryption.
Context {F : FernetLib}.
Variable token_encryption : TokenEncryption.t.

Inductive call :=
| Initiate (env : Env) (platform user_id redirect_uri : string)
| Complete (env : Env) (code state oauth_token oauth_verifier : option string)
| Refresh (env : Env) (connection_id : string)
| Disconnect (connection_id user_id : string).

Definition step (st : PlatformConnectionService.t * database) (c : call)
  : PlatformConnectionService.t * database :=
  let (self, db) := st in
  match c with
  | Initiate env platform user_id redirect_uri =>
      (fst (PlatformConnectionService.initiate_oauth self env platform user_id
                                                     redirect_uri), db)
  | Complete env code state oauth_token oauth_verifier =>
      fst (PlatformConnectionService.complete_oauth token_encryption self env db
             code state oauth_token oauth_verifier)
  | Refresh env connection_id =>
      (self,
       fst (PlatformConnectionService.refresh_connection_token token_encryption
              self env db connection_id))
  | Disconnect connection_id user_id =>
      (self,
       Session.close
         (fst (PlatformConnectionService.disconnect_platform self
                 (Session.AsyncSessionLocal db) connection_id user_id)))
  end.

Definition run (calls : list call)
           (st : PlatformConnectionService.t * database)
  : PlatformConnectionService.t * database :=
  fold_left step calls st.

End WithTokenEncryption.
End Driver.

(** ** Definitions the properties are stated with *)

Module Statements.
Import Bytes Base64 PyStr PlatformConnectionService.

(** A character of the encoder's output after both translations. *)
Definition tr (c : ascii) : ascii :=
  urlsafe_decode_translation (urlsafe_encode_translation c).

(** The four 6-bit values the encoder takes from three bytes. *)
Definition s0 (x : ascii) : N := N.shiftr (code x) 2.
Definition s1 (x y : ascii) : N :=
  N.lor (N.shiftl (N.land (code x) 3) 4) (N.shiftr (code y) 4).
Definition s2 (y z : ascii) : N :=
  N.lor (N.shiftl (N.land (code y) 15) 2) (N.shiftr (code z) 6).
Definition s3 (z : ascii) : N := N.land (code z) 63.

(** A string of unreserved characters only. *)
Fixpoint unreserved (s : string) : bool :=
  match s with
  | EmptyString => true
  | String c r => always_safe c && unreserved r
  end.

(** No key twice: what every Python [dict] satisfies. *)
Definition wf {V} (d : Dict.dict V) : Prop := NoDup (map fst d).

(** The error of the state check of [complete_oauth]. *)
Definition state_error : exn := ValueError "Invalid or expired state parameter".

(** At most one row for every (user, platform, platform user) triple. *)
Definition triple_unique (db : database) : Prop :=
  forall u p q, (List.length (filter (same_triple u p q) db) <= 1)%nat.

(** The number of occurrences of a character. *)
Fixpoint count_char (c : ascii) (s : string) : nat :=
  match s with
  | EmptyString => O
  | String x r => if Ascii.eqb x c then S (count_char c r) else count_char c r
  end.

(** The platforms served by an OAuth 2.0 handler. *)
Definition oauth2_platform (p : string) : Prop :=
  p = "linkedin" \/ p = "facebook" \/ p = "instagram".

(** Tokens read from an answer of the provider to a POST of this call:
    the access token and the refresh token are the answer's, and there is
    no OAuth 1.0a secret. *)
Definition from_provider (env : Env) (tokens : OAuthTokens.t) : Prop :=
  exists url data headers,
    td_access_token (json_token (http_post env url data headers))
    = Some (OAuthTokens.access_token tokens)
    /\ OAuthTokens.refresh_token tokens
       = td_refresh_token (json_token (http_post env url data headers))
    /\ OAuthTokens.oauth_token_secret tokens = None.

(** A row of an OAuth 2.0 platform, without an OAuth 1.0a secret, and
    active. *)
Definition service_row (c : PlatformConnection.t) : Prop :=
  oauth2_platform (PlatformConnection.platform c)
  /\ PlatformConnection.oauth_token_secret c = None
  /\ PlatformConnection.is_active c = true.

(** The tokens in the provider's answers are texts ([str] values). *)
Definition text_answers (env : Env) : Prop :=
  forall url data headers,
    Utf8.valid
      (get_or (td_access_token (json_token (http_post env url data headers))) "")
    = true
    /\ Utf8.valid
         (get_or (td_refresh_token (json_token (http_post env url data headers)))
                 "")
       = true.

(** The token answers of the provider carry no refresh token. *)
Definition no_refresh_token_in_answers (env : Env) : Prop :=
  forall url data headers,
    td_refresh_token (json_token (http_post env url data headers)) = None.

(** A stored token that [decrypt_token] cannot read: the base64 decoder or
    Fernet rejects it. *)
Definition unreadable {F : FernetLib} (te : TokenEncryption.t) (x : string)
  : Prop :=
  Base64.urlsafe_b64decode x = None
  \/ exists d, Base64.urlsafe_b64decode x = Some d
               /\ fernet_decrypt (TokenEncryption.cipher_suite te) d = None.

Section WithTokenEncryption.
Context {F : FernetLib}.
Variable te : TokenEncryption.t.

(** The columns [_create_new_connection] and [_update_connection_tokens]
    write from the tokens. *)
Definition tokens_written (env : Env) (tokens : OAuthTokens.t)
           (c : PlatformConnection.t) : Prop :=
  PlatformConnection.access_token c
  = TokenEncryption.encrypt_token te (time_time env 2) (urandom env 2)
                                  (OAuthTokens.access_token tokens)
  /\ PlatformConnection.refresh_token c
     = encrypt_optional te env 3 (OAuthTokens.refresh_token tokens)
  /\ PlatformConnection.oauth_token_secret c
     = encrypt_optional te env 4 (OAuthTokens.oauth_token_secret tokens)
  /\ PlatformConnection.expires_at c = OAuthTokens.expires_at tokens
  /\ PlatformConnection.is_active c = true
  /\ PlatformConnection.updated_at c = utcnow env.

(** [complete_oauth] after the state check, for the state record [data]
    found under [s]. *)
Definition after_state_check (self : t) (env : Env) (db : database)
           (code oauth_token oauth_verifier : option string)
           (s : string) (data : StateData)
  : t * database * result PlatformConnection.t :=
  let self' := {| active_states := Dict.del (active_states self) s |} in
  match
    (handler <- _get_oauth_handler env (sd_platform data) (sd_redirect_uri data) ;;
     exchange_and_fetch_profile env handler (sd_platform data) code oauth_token
                                oauth_verifier s)
  with
  | Raise e => (self', db, Raise e)
  | Ok (tokens, user_profile) =>
      match
        _get_existing_connection db (sd_user_id data) (sd_platform data)
                                 (UserProfile.platform_user_id user_profile)
      with
      | Raise e => (self', db, Raise e)
      | Ok (Some existing_connection) =>
          let (db', r) :=
            _update_connection_tokens te env db existing_connection tokens in
          (self', db', r)
      | Ok None =>
          let (db', r) :=
            _create_new_connection te env db (sd_user_id data) (sd_platform data)
                                   tokens user_profile in
          (self', db', r)
      end
  end.

End WithTokenEncryption.
End Statements.

(** * Facts about the library models *)

(** ** Sanity checks against known values *)

Example b64encode_known :
  Base64.b64encode "foobar" = "Zm9vYmFy"
  /\ Base64.b64encode "fo" = "Zm8="
  /\ Base64.b64encode "f" = "Zg==".
Proof. repeat split; reflexivity. Qed.

Example b64decode_lenient :
  Base64.b64decode "Zm9v!YmFy" = Some "foobar"
  /\ Base64.b64decode "Zg==Zg==" = Some "f"
  /\ Base64.b64decode "A" = None
  /\ Base64.b64decode "Zg=" = None.
Proof. repeat split; reflexivity. Qed.

(** FIPS 180-4 and RFC 2202 test vectors. *)
Example sha1_abc :
  SHA1.hex (SHA1.sha1 "abc") = "a9993e364706816aba3e25717850c26c9cd0d89d".
Proof. vm_compute. reflexivity. Qed.

Example sha1_two_blocks :
  SHA1.hex (SHA1.sha1 "abcdbcdecdefdefgefghfghighijhijkijkljklmklmnlmnomnopnopq")
  = "84983e441c3bd26ebaae4aa1f95129e5e54670f1".
Proof. vm_compute. reflexivity. Qed.

Example hmac_sha1_rfc2202_case2 :
  SHA1.hex (SHA1.hmac_sha1 "Jefe" "what do ya want for nothing?")
  = "effcdf6ae5eb2fa2d27416d5f184df9c259a7c79".
Proof. vm_compute. reflexivity. Qed.

(** A key longer than the block is hashed first. *)
Example hmac_sha1_rfc2202_case6 :
  SHA1.hex (SHA1.hmac_sha1 (Bytes.of_list (repeat (Bytes.chr 170) 80))
              "Test Using Larger Than Block-Size Key - Hash Key First")
  = "aa4ae5e15272d00e95705637ce8a3b55ed402112".
Proof. vm_compute. reflexivity. Qed.

Example quote_known :
  PyStr.quote "a b/c~d" "" = "a%20b%2Fc~d"
  /\ PyStr.quote "a b/c" "/" = "a%20b/c"
  /\ PyStr.quote "http://x.y/z?q=1&r=%" ""
     = "http%3A%2F%2Fx.y%2Fz%3Fq%3D1%26r%3D%25".
Proof. repeat split; reflexivity. Qed.

Example split_known :
  PyStr.split "a=1&b=2" "&" = ["a=1"; "b=2"]
  /\ PyStr.split "" "&" = [""]
  /\ PyStr.split "a==" "=" = ["a"; ""; ""].
Proof. repeat split; reflexivity. Qed.

Example decimal_known :
  Decimal.str 0 = "0" /\ Decimal.str 1318622958 = "1318622958".
Proof. split; reflexivity. Qed.

Example utf8_known :
  Utf8.valid "plain" = true
  /\ Utf8.valid (String (Bytes.chr 195) (String (Bytes.chr 169) "")) = true
  /\ Utf8.valid (String (Bytes.chr 195) "") = false
  /\ Utf8.valid (String (Bytes.chr 237) (String (Bytes.chr 160) (String (Bytes.chr 128) ""))) = false
  /\ Utf8.valid (String (Bytes.chr 192) (String (Bytes.chr 128) "")) = false.
Proof. repeat split; reflexivity. Qed.

Example upper_known :
  PyStr.upper "post" = "POST"
  /\ PyStr.upper "Get /a-1" = "GET /A-1"
  /\ PyStr.upper (String (Bytes.chr 195) (String (Bytes.chr 169) ""))
     = String (Bytes.chr 195) (String (Bytes.chr 137) "")
  /\ PyStr.upper
       ("stra" ++ String (Bytes.chr 195) (String (Bytes.chr 159) "e"))
     = "STRASSE"
  /\ PyStr.upper (String (Bytes.chr 197) (String (Bytes.chr 137) ""))
     = String (Bytes.chr 202) (String (Bytes.chr 188) "N").
Proof.
  repeat (split; [vm_compute; reflexivity|]). vm_compute. reflexivity.
Qed.

Example datetime_add_known :
  BaseOAuthHandler.datetime_add 0 253402300799 = Ok 253402300799%Z
  /\ BaseOAuthHandler.datetime_add 0 253402300800 = Raise OverflowError
  /\ BaseOAuthHandler.datetime_add 0 (-62135596800) = Ok (-62135596800)%Z
  /\ BaseOAuthHandler.datetime_add 0 (-62135596801) = Raise OverflowError
  /\ BaseOAuthHandler.datetime_add 1700000000 3600 = Ok 1700003600%Z.
Proof. repeat split; reflexivity. Qed.

(** ** Checking a property of every byte by running it *)

Module AsciiFacts.
Import Bytes.

Lemma all_ascii_complete (a : ascii) : In a all_ascii.
Proof.
  unfold all_ascii. rewrite <- (ascii_nat_embedding a).
  apply in_map. apply in_seq. split; [lia|].
  pose proof (nat_ascii_bounded a). simpl. lia.
Qed.

Lemma forall_ascii (P : ascii -> bool) :
  forallb P all_ascii = true -> forall a, P a = true.
Proof.
  intros H a. rewrite forallb_forall in H. apply H, all_ascii_complete.
Qed.

Lemma forall_ascii2 (P : ascii -> ascii -> bool) :
  forallb (fun a => forallb (P a) all_ascii) all_ascii = true ->
  forall a b, P a b = true.
Proof.
  intros H a b.
  apply (forall_ascii (P a)).
  apply (forall_ascii (fun a => forallb (P a) all_ascii) H).
Qed.

Lemma forall_below (n : nat) (P : N -> bool) :
  forallb P (map N.of_nat (seq 0 n)) = true ->
  forall v, (v < N.of_nat n)%N -> P v = true.
Proof.
  intros H v Hv. rewrite forallb_forall in H. apply H.
  rewrite <- (N2Nat.id v). apply in_map. apply in_seq. lia.
Qed.

Lemma of_list_to_list (s : string) : of_list (to_list s) = s.
Proof. induction s as [|c r IH]; simpl; [reflexivity | now rewrite IH]. Qed.

Lemma translate_translate (f g : ascii -> ascii) (s : string) :
  translate f (translate g s) = translate (fun c => f (g c)) s.
Proof. induction s as [|c r IH]; simpl; [reflexivity | now rewrite IH]. Qed.

Lemma translate_length (f : ascii -> ascii) (s : string) :
  String.length (translate f s) = String.length s.
Proof. induction s as [|c r IH]; simpl; [reflexivity | now rewrite IH]. Qed.

(** Induction on a string three characters at a time. *)
Lemma string_ind3 (P : string -> Prop) :
  P EmptyString ->
  (forall a, P (String a EmptyString)) ->
  (forall a b, P (String a (String b EmptyString))) ->
  (forall a b c r, P r -> P (String a (String b (String c r)))) ->
  forall s, P s.
Proof.
  intros H0 H1 H2 H3.
  assert (forall s, P s /\ (forall a, P (String a s))
                    /\ (forall a b, P (String a (String b s)))) as H.
  { induction s as [|c r [IH0 [IH1 IH2]]].
    - repeat split; auto.
    - repeat split; auto. }
  intro s. apply H.
Qed.

End AsciiFacts.

(** ** [urlsafe_b64decode] undoes [urlsafe_b64encode] *)

Module Base64Facts.
Import Bytes Base64 AsciiFacts Statements.

Lemma tr_pad : tr pad = pad.
Proof. reflexivity. Qed.

Lemma sextet_char (v : N) :
  (v < 64)%N ->
  Ascii.eqb (tr (b2a v)) pad = false /\ a2b (tr (b2a v)) = Some v.
Proof.
  intro Hv.
  pose (P := fun v => negb (Ascii.eqb (tr (b2a v)) pad)
                      && match a2b (tr (b2a v)) with
                         | Some w => N.eqb w v
                         | None => false
                         end).
  assert (P v = true) as H.
  { apply (forall_below 64 P); [vm_compute; reflexivity | exact Hv]. }
  unfold P in H. apply andb_true_iff in H. destruct H as [H1 H2].
  split.
  - now apply negb_true_iff.
  - destruct (a2b (tr (b2a v))) as [w|]; [|discriminate].
    apply N.eqb_eq in H2. now subst.
Qed.

(** One step of the decoder on a character of the alphabet. *)
Lemma a2b_loop_char (ch : ascii) (v : N) (rest : string) (qp : nat)
      (lc : N) (p : nat) (out : list ascii) :
  Ascii.eqb ch pad = false -> a2b ch = Some v ->
  a2b_loop (String ch rest) qp lc p out =
  match qp with
  | 0%nat => a2b_loop rest 1 v 0 out
  | 1%nat =>
      a2b_loop rest 2 (N.land v 15) 0
               (chr (N.lor (N.shiftl lc 2) (N.shiftr v 4)) :: out)
  | 2%nat =>
      a2b_loop rest 3 (N.land v 3) 0
               (chr (N.lor (N.shiftl lc 4) (N.shiftr v 2)) :: out)
  | _ => a2b_loop rest 0 0 0 (chr (N.lor (N.shiftl lc 6) v) :: out)
  end.
Proof.
  intros H1 H2. cbn [a2b_loop]. rewrite H1, H2. reflexivity.
Qed.

Lemma sextets_1 (x : ascii) :
  (s0 x <? 64)%N && (s3 x <? 64)%N
  && (N.shiftl (N.land (code x) 3) 4 <? 64)%N
  && (N.shiftl (N.land (code x) 15) 2 <? 64)%N
  && Ascii.eqb (chr (N.lor (N.shiftl (N.shiftr (code x) 6) 6) (s3 x))) x
  && Ascii.eqb
       (chr (N.lor (N.shiftl (s0 x) 2)
                   (N.shiftr (N.shiftl (N.land (code x) 3) 4) 4))) x
  = true.
Proof. revert x. apply forall_ascii. vm_compute. reflexivity. Qed.

Lemma sextets_2 (x y : ascii) :
  (s1 x y <? 64)%N && (s2 x y <? 64)%N
  && Ascii.eqb (chr (N.lor (N.shiftl (s0 x) 2) (N.shiftr (s1 x y) 4))) x
  && (N.land (s1 x y) 15 =? N.shiftr (code y) 4)%N
  && Ascii.eqb
       (chr (N.lor (N.shiftl (N.shiftr (code x) 4) 4) (N.shiftr (s2 x y) 2))) x
  && (N.land (s2 x y) 3 =? N.shiftr (code y) 6)%N
  && Ascii.eqb
       (chr (N.lor (N.shiftl (N.shiftr (code x) 4) 4)
                   (N.shiftr (N.shiftl (N.land (code x) 15) 2) 2))) x
  && (N.land (N.shiftl (N.land (code x) 3) 4) 15 =? 0)%N
  = true.
Proof. revert x y. apply forall_ascii2. vm_compute. reflexivity. Qed.

Lemma b2a_base64_1 (x : ascii) :
  b2a_base64 (String x EmptyString)
  = String (b2a (s0 x))
      (String (b2a (N.shiftl (N.land (code x) 3) 4))
         (String pad (String pad EmptyString))).
Proof. reflexivity. Qed.

Lemma b2a_base64_2 (x y : ascii) :
  b2a_base64 (String x (String y EmptyString))
  = String (b2a (s0 x))
      (String (b2a (s1 x y))
         (String (b2a (N.shiftl (N.land (code y) 15) 2))
            (String pad EmptyString))).
Proof. reflexivity. Qed.

Lemma b2a_base64_3 (x y z : ascii) (r : string) :
  b2a_base64 (String x (String y (String z r)))
  = String (b2a (s0 x))
      (String (b2a (s1 x y))
         (String (b2a (s2 y z))
            (String (b2a (s3 z)) (b2a_base64 r)))).
Proof. reflexivity. Qed.

Ltac split_checks H :=
  repeat (apply andb_true_iff in H;
          let H' := fresh "K" in destruct H as [H H']).

Ltac decode_char v :=
  let Hv := fresh "Hv" in
  assert (v < 64)%N as Hv by (apply N.ltb_lt; assumption);
  destruct (sextet_char v Hv) as [? ?];
  rewrite (a2b_loop_char (tr (b2a v)) v) by assumption;
  clear Hv.

Lemma decode_encoded (s : string) :
  forall out,
    a2b_loop (translate tr (b2a_base64 s)) 0 0 0 out
    = Some (rev (to_list s) ++ out)%list.
Proof.
  induction s as [|x|x y|x y z r IH] using string_ind3; intro out.
  - reflexivity.
  - rewrite b2a_base64_1. cbn [translate].
    pose proof (sextets_1 x) as H1. split_checks H1.
    decode_char (s0 x).
    decode_char (N.shiftl (N.land (code x) 3) 4).
    rewrite tr_pad. cbn [a2b_loop].
    rewrite Ascii.eqb_refl. cbn [Nat.leb Nat.add].
    repeat match goal with
           | H : Ascii.eqb _ _ = true |- _ => apply Ascii.eqb_eq in H
           end.
    cbn [to_list rev app].
    repeat f_equal; assumption.
  - rewrite b2a_base64_2. cbn [translate].
    pose proof (sextets_1 x) as H1. split_checks H1.
    pose proof (sextets_1 y) as H1y. split_checks H1y.
    pose proof (sextets_2 x y) as H2. split_checks H2.
    pose proof (sextets_2 y y) as H2y. split_checks H2y.
    decode_char (s0 x).
    decode_char (s1 x y).
    decode_char (N.shiftl (N.land (code y) 15) 2).
    rewrite tr_pad. cbn [a2b_loop].
    rewrite Ascii.eqb_refl. cbn [Nat.leb Nat.add].
    match goal with
    | H : (N.land (s1 x y) 15 =? _)%N = true |- _ =>
        apply N.eqb_eq in H; rewrite H
    end.
    repeat match goal with
           | H : Ascii.eqb _ _ = true |- _ => apply Ascii.eqb_eq in H
           end.
    cbn [to_list rev app].
    repeat f_equal; assumption.
  - rewrite b2a_base64_3. cbn [translate].
    pose proof (sextets_1 x) as H1. split_checks H1.
    pose proof (sextets_1 z) as H1z. split_checks H1z.
    pose proof (sextets_2 x y) as H2. split_checks H2.
    pose proof (sextets_2 y z) as H2y. split_checks H2y.
    decode_char (s0 x).
    decode_char (s1 x y).
    decode_char (s2 y z).
    decode_char (s3 z).
    rewrite IH.
    repeat match goal with
           | H : (N.land _ _ =? _)%N = true |- _ =>
               apply N.eqb_eq in H; rewrite H
           end.
    repeat match goal with
           | H : Ascii.eqb _ _ = true |- _ => apply Ascii.eqb_eq in H
           end.
    cbn [to_list rev].
    rewrite <- !app_assoc. cbn [app].
    repeat f_equal; assumption.
Qed.

(** The round trip of the URL-safe codec on every byte string. *)
Lemma urlsafe_b64_round_trip (s : string) :
  urlsafe_b64decode (urlsafe_b64encode s) = Some s.
Proof.
  unfold urlsafe_b64decode, urlsafe_b64encode, b64decode, b64encode, a2b_base64.
  rewrite translate_translate.
  change (fun c => urlsafe_decode_translation (urlsafe_encode_translation c))
    with tr.
  rewrite decode_encoded, app_nil_r, rev_involutive, of_list_to_list.
  reflexivity.
Qed.

(** The encoder writes whole groups of four characters. *)
Lemma b2a_base64_length (s : string) :
  exists k, String.length (b2a_base64 s) = (4 * k)%nat.
Proof.
  induction s as [|x|x y|x y z r [k IH]] using string_ind3.
  - exists 0%nat. reflexivity.
  - exists 1%nat. reflexivity.
  - exists 1%nat. reflexivity.
  - exists (S k). rewrite b2a_base64_3. cbn [String.length]. rewrite IH. lia.
Qed.

Lemma urlsafe_b64encode_length (s : string) :
  exists k, String.length (urlsafe_b64encode s) = (4 * k)%nat.
Proof.
  unfold urlsafe_b64encode, b64encode. rewrite translate_length.
  apply b2a_base64_length.
Qed.

Lemma urlsafe_b64encode_nonempty (s : string) :
  s <> EmptyString -> is_empty (urlsafe_b64encode s) = false.
Proof.
  destruct s as [|x [|y [|z r]]]; [congruence | reflexivity ..].
Qed.

End Base64Facts.

(** * The token cipher ([core/encryption.py]) *)

Module TokenEncryptionFacts.
Import Bytes TokenEncryption.

Section WithFernet.
Context {F : FernetLib}.
Variable self : TokenEncryption.t.

Lemma is_empty_false (s : string) : is_empty s = false -> s <> EmptyString.
Proof. destruct s; [discriminate | discriminate]. Qed.

Lemma is_empty_true (s : string) : is_empty s = true -> s = EmptyString.
Proof. destruct s; [reflexivity | discriminate]. Qed.


(** What [encrypt_token] returns is empty or whole groups of four
    characters. *)
Lemma encrypt_token_length (now : Z) (iv x : string) :
  exists k, String.length (encrypt_token self now iv x) = (4 * k)%nat.
Proof.
  unfold encrypt_token. destruct (is_empty x).
  - exists 0%nat. reflexivity.
  - apply Base64Facts.urlsafe_b64encode_length.
Qed.

End WithFernet.
End TokenEncryptionFacts.

(** C1, as amended.  A ciphertext that the base64 decoder rejects, or that
    Fernet rejects under the current key (it was tampered with, or encrypted
    under another key), makes [decrypt_token] return the empty string: the
    [except Exception] clause turns every failure into [Ok ""], which is also
    what an empty (absent) token decrypts to.  No error is raised. *)
Theorem decrypt_token_rejected_is_empty_string
        (F : FernetLib) (self : TokenEncryption.t) (c : string) :
  (Base64.urlsafe_b64decode c = None
   \/ exists d, Base64.urlsafe_b64decode c = Some d
                /\ fernet_decrypt (TokenEncryption.cipher_suite self) d = None) ->
  TokenEncryption.decrypt_token self c = Ok EmptyString
  /\ TokenEncryption.decrypt_token self c
     = TokenEncryption.decrypt_token self EmptyString.
Proof.
  intro H.
  assert (TokenEncryption.decrypt_token self c = Ok EmptyString) as E.
  { unfold TokenEncryption.decrypt_token, TokenEncryption.decrypt_attempt.
    destruct (Bytes.is_empty c); [reflexivity|].
    destruct H as [H | [d [H1 H2]]].
    - rewrite H. reflexivity.
    - rewrite H1. cbn [bind]. rewrite H2. reflexivity. }
  split; [exact E | rewrite E; reflexivity].
Qed.

(** C1, witness: ["A"] is rejected by the base64 decoder. *)
Lemma decrypt_token_rejected_is_empty_string_witness :
  Base64.urlsafe_b64decode "A" = None
  /\ TokenEncryption.decrypt_token Scenario.cipher "A" = Ok EmptyString.
Proof.
  split; [reflexivity|].
  apply (decrypt_token_rejected_is_empty_string tagged_cipher Scenario.cipher "A").
  left. reflexivity.
Defined.

(** C1, counterexample.  ["A"] is no output of [encrypt_token] under any key,
    and [decrypt_token] returns [""] for it instead of raising; so it does
    for a real token cut short, and for a real token read under another
    key. *)
Lemma decrypt_token_silent_fallback :
  (forall (F : FernetLib) (self : TokenEncryption.t) now iv x,
      TokenEncryption.encrypt_token self now iv x <> "A")
  /\ TokenEncryption.decrypt_token Scenario.cipher "A" = Ok EmptyString
  /\ TokenEncryption.encrypt_token Scenario.cipher 0 "" "secret" = "gGtzZWNyZXQ="
  /\ TokenEncryption.decrypt_token Scenario.cipher "gGtzZWNyZXQ=" = Ok "secret"
  /\ TokenEncryption.decrypt_token Scenario.cipher "gGtzZWNyZXQ" = Ok EmptyString
  /\ TokenEncryption.decrypt_token
       (@TokenEncryption.Build_t tagged_cipher "j"%char) "gGtzZWNyZXQ="
     = Ok EmptyString.
Proof.
  split; [|repeat split; reflexivity].
  intros F self now iv x E.
  destruct (TokenEncryptionFacts.encrypt_token_length self now iv x) as [k Hk].
  rewrite E in Hk. cbn in Hk. lia.
Qed.

(** C5.  [decrypt_token (encrypt_token x) = x] for every text [x], the empty
    one included, under a fixed key, whatever the clock reading and the
    random block used to encrypt.  ([Utf8.valid x] says that [x] is a [str]:
    the representation of a text.) *)
Theorem decrypt_encrypt_round_trip
        (F : FernetLib) (self : TokenEncryption.t)
        (now : Z) (iv : string) (x : string) :
  Utf8.valid x = true ->
  TokenEncryption.decrypt_token self (TokenEncryption.encrypt_token self now iv x)
  = Ok x.
Proof.
  intro Hx.
  unfold TokenEncryption.encrypt_token.
  destruct (Bytes.is_empty x) eqn:Ex.
  - apply TokenEncryptionFacts.is_empty_true in Ex. subst x. reflexivity.
  - unfold TokenEncryption.decrypt_token.
    rewrite Base64Facts.urlsafe_b64encode_nonempty
      by apply fernet_token_nonempty.
    unfold TokenEncryption.decrypt_attempt.
    rewrite Base64Facts.urlsafe_b64_round_trip. cbn [bind].
    rewrite fernet_round_trip. cbn [bind].
    unfold Utf8.decode. rewrite Hx. reflexivity.
Qed.

(** C5, witness: a token and the empty string, under the cipher of
    [Scenario]. *)
Lemma decrypt_encrypt_round_trip_witness :
  TokenEncryption.decrypt_token Scenario.cipher
    (TokenEncryption.encrypt_token Scenario.cipher 1700000000 "0123456789abcdef"
                                   "ya29.secret-token")
  = Ok "ya29.secret-token"
  /\ TokenEncryption.decrypt_token Scenario.cipher
       (TokenEncryption.encrypt_token Scenario.cipher 0 "" EmptyString)
     = Ok EmptyString.
Proof.
  split.
  - apply (decrypt_encrypt_round_trip tagged_cipher Scenario.cipher). reflexivity.
  - apply (decrypt_encrypt_round_trip tagged_cipher Scenario.cipher). reflexivity.
Defined.

(** * The OAuth 1.0a signature ([TwitterOAuth1Handler._generate_oauth_signature]) *)

Module SignatureFacts.
Import PyStr Statements.

Section SortedMap.
Context {A B : Type} (f : A -> B) (leA : A -> A -> bool) (leB : B -> B -> bool).

Lemma insert_map (a : A) (l : list A) :
  (forall y, In y l -> leB (f a) (f y) = leA a y) ->
  insert leB (f a) (map f l) = map f (insert leA a l).
Proof.
  induction l as [|y r IH]; intro H; [reflexivity|].
  cbn [map insert]. rewrite (H y (or_introl eq_refl)).
  destruct (leA a y); [reflexivity|].
  cbn [map]. rewrite IH; [reflexivity|].
  intros z Hz. apply H. right. exact Hz.
Qed.

Lemma In_insert (le : A -> A -> bool) (a x : A) (l : list A) :
  In x (insert le a l) -> x = a \/ In x l.
Proof.
  induction l as [|y r IH]; cbn [insert].
  - intros [E|[]]. left. now symmetry.
  - destruct (le a y).
    + intros [E|H]; [left; now symmetry | right; exact H].
    + intros [E|H]; [right; left; exact E|].
      destruct (IH H) as [E|H']; [left; exact E | right; right; exact H'].
Qed.

Lemma In_sorted (le : A -> A -> bool) (x : A) (l : list A) :
  In x (sorted le l) -> In x l.
Proof.
  induction l as [|y r IH]; cbn [sorted fold_right]; [tauto|].
  intro H. apply In_insert in H. destruct H as [E|H].
  - left. now symmetry.
  - right. apply IH. exact H.
Qed.

(** Sorting commutes with a map that carries one order to the other on the
    elements of the list. *)
Lemma sorted_map (l : list A) :
  (forall x y, In x l -> In y l -> leB (f x) (f y) = leA x y) ->
  sorted leB (map f l) = map f (sorted leA l).
Proof.
  induction l as [|a r IH]; intro H; [reflexivity|].
  cbn [map sorted fold_right].
  change (fold_right (insert leB) [] (map f r)) with (sorted leB (map f r)).
  change (fold_right (insert leA) [] r) with (sorted leA r).
  rewrite IH.
  - apply insert_map. intros y Hy. apply H; [left; reflexivity|].
    right. apply (In_sorted leA). exact Hy.
  - intros x y Hx Hy. apply H; right; assumption.
Qed.

End SortedMap.

Lemma quote_unreserved (s : string) : unreserved s = true -> quote s "" = s.
Proof.
  induction s as [|c r IH]; [reflexivity|].
  cbn [unreserved quote]. intro H. apply andb_true_iff in H. destruct H as [Hc Hr].
  rewrite Hc. cbn [orb]. now rewrite IH.
Qed.

Lemma same_key_same_item (l : Dict.dict string) (x y : string * string) :
  NoDup (map fst l) -> In x l -> In y l -> fst x = fst y -> x = y.
Proof.
  induction l as [|a r IH]; [intros _ []|].
  cbn [map]. intros Hnd Hx Hy E.
  inversion Hnd as [|? ? Hn Hr]; subst.
  destruct Hx as [Hx|Hx], Hy as [Hy|Hy].
  - congruence.
  - subst a. exfalso. apply Hn. rewrite E. now apply in_map.
  - subst a. exfalso. apply Hn. rewrite <- E. now apply in_map.
  - now apply IH.
Qed.

Lemma leb_refl (s : string) : String.leb s s = true.
Proof.
  destruct (String.leb_total s s) as [H|H]; exact H.
Qed.

(** On a parameter dict whose names are unreserved, the order of the raw
    pairs is the order of the encoded names. *)
Lemma orders_agree (params : Dict.dict string) :
  NoDup (map fst params) ->
  Forall (fun kv => unreserved (fst kv) = true) params ->
  forall x y, In x params -> In y params ->
    SignatureSpec.key_leb (quote (fst x) "", quote (snd x) "")
                          (quote (fst y) "", quote (snd y) "")
    = tuple_leb x y.
Proof.
  intros Hnd Hall x y Hx Hy.
  rewrite Forall_forall in Hall.
  unfold SignatureSpec.key_leb, tuple_leb. cbn [fst snd].
  rewrite (quote_unreserved _ (Hall x Hx)), (quote_unreserved _ (Hall y Hy)).
  unfold String.leb at 1.
  destruct (String.compare (fst x) (fst y)) eqn:E; try reflexivity.
  apply String.compare_eq_iff in E.
  rewrite (same_key_same_item params x y Hnd Hx Hy E).
  symmetry. apply leb_refl.
Qed.

(** Where the code and the specification's wording agree: on every parameter
    dict whose names are made of unreserved characters, as are the [oauth_*]
    names the handler signs. *)
Lemma signature_agrees_on_unreserved_names
      (self : TwitterOAuth1Handler.t) (method url : string)
      (params : Dict.dict string) (token_secret : string) :
  NoDup (map fst params) ->
  Forall (fun kv => unreserved (fst kv) = true) params ->
  TwitterOAuth1Handler._generate_oauth_signature self method url params token_secret
  = SignatureSpec.signature (TwitterOAuth1Handler.client_secret self)
                            token_secret method url params.
Proof.
  intros Hnd Hall.
  unfold TwitterOAuth1Handler._generate_oauth_signature, SignatureSpec.signature.
  rewrite (sorted_map (fun kv => (quote (fst kv) "", quote (snd kv) ""))
                      tuple_leb SignatureSpec.key_leb params
                      (orders_agree params Hnd Hall)).
  rewrite map_map. reflexivity.
Qed.

End SignatureFacts.

(** C6.  On the published vectors (RFC 5849 section 1.2; the provider's
    documented example, with a token secret) [_generate_oauth_signature]
    reproduces the published signatures.  On a parameter dict with the names
    [a-] and [a/] it does not sort by encoded name: it sorts the raw pairs
    and encodes afterwards, so [a-] comes before [a/], whereas the encoded
    names are in the order [a%2F], [a-]; the two signatures differ. *)
Theorem oauth_signature_vectors_and_order :
  TwitterOAuth1Handler._generate_oauth_signature
    (TwitterOAuth1Handler.Build_t "dpf43f3p2l4k3l03" "kd94hf93k423kf44" "")
    "POST" "https://photos.example.net/initiate"
    [("oauth_consumer_key", "dpf43f3p2l4k3l03");
     ("oauth_signature_method", "HMAC-SHA1");
     ("oauth_timestamp", "137131200");
     ("oauth_nonce", "wIjqoS");
     ("oauth_callback", "http://printer.example.com/ready")] ""
  = "74KNZJeDHnMBp0EMJ9ZHt/XKycU="
  /\ TwitterOAuth1Handler._generate_oauth_signature
       (TwitterOAuth1Handler.Build_t "xvz1evFS4wEEPTGEFPHBog"
          "kAcSOqF21Fu85e7zjz7ZN2U4ZRhfV3WpwPAoE3Z7kBw" "")
       "post" "https://api.twitter.com/1.1/statuses/update.json"
       [("status", "Hello Ladies + Gentlemen, a signed OAuth request!");
        ("include_entities", "true");
        ("oauth_consumer_key", "xvz1evFS4wEEPTGEFPHBog");
        ("oauth_nonce", "kYjzVBB8Y0ZFabxSWbWovY3uYSQ2pTgmZeNu2VS4cg");
        ("oauth_signature_method", "HMAC-SHA1");
        ("oauth_timestamp", "1318622958");
        ("oauth_token", "370773112-GmHxMAgYyLbNEtIKZeRNFsMKPR9EyMZeS9weJAEb");
        ("oauth_version", "1.0")]
       "LswwdoUaIvS8ltyTt5jkRh4J50vUPVVHtR2YPi5kE"
     = "hCtSmYh+iHYCEqBWrE7C7hYmtUk="
  /\ map TwitterOAuth1Handler.encode_pair
         (PyStr.sorted PyStr.tuple_leb [("a/", "2"); ("a-", "1")])
     = ["a-=1"; "a%2F=2"]
  /\ PyStr.sorted SignatureSpec.key_leb
       (map (fun kv => (PyStr.quote (fst kv) "", PyStr.quote (snd kv) ""))
            [("a/", "2"); ("a-", "1")])
     = [("a%2F", "2"); ("a-", "1")]
  /\ TwitterOAuth1Handler._generate_oauth_signature
       (TwitterOAuth1Handler.Build_t "key" "s" "")
       "POST" "https://h/p" [("a/", "2"); ("a-", "1")] ""
     = "djjMEc77Hyxvh0d1Af/UuCEM8m0="
  /\ SignatureSpec.signature "s" "" "POST" "https://h/p" [("a/", "2"); ("a-", "1")]
     = "TqKO9DpcPnh2hT15nczcif6SQ+k=".
Proof.
  repeat (split; [vm_compute; reflexivity|]).
  vm_compute. reflexivity.
Qed.

Example signature_agrees_on_request_token_parameters :
  TwitterOAuth1Handler._generate_oauth_signature
    (TwitterOAuth1Handler.init Scenario.cfg "https://app/cb")
    "POST" TwitterOAuth1Handler.request_token_url
    [("oauth_callback", "https://app/cb");
     ("oauth_consumer_key", "tw-key");
     ("oauth_nonce", "0123456789abcdef0123456789abcdef");
     ("oauth_signature_method", "HMAC-SHA1");
     ("oauth_timestamp", "1700000000");
     ("oauth_version", "1.0")] ""
  = SignatureSpec.signature "tw-secret" "" "POST"
      TwitterOAuth1Handler.request_token_url
      [("oauth_callback", "https://app/cb");
       ("oauth_consumer_key", "tw-key");
       ("oauth_nonce", "0123456789abcdef0123456789abcdef");
       ("oauth_signature_method", "HMAC-SHA1");
       ("oauth_timestamp", "1700000000");
       ("oauth_version", "1.0")].
Proof.
  apply SignatureFacts.signature_agrees_on_unreserved_names.
  - repeat constructor; cbn; intuition discriminate.
  - repeat constructor.
Qed.

(** * The connection service ([services/platform_connection_service.py]) *)

Module DictFacts.
Import Dict Statements.

Lemma get_In {V} (d : dict V) (k : string) (v : V) :
  get d k = Some v -> In k (map fst d).
Proof.
  induction d as [|[k' v'] r IH]; cbn [get map fst]; [discriminate|].
  destruct (String.eqb k k') eqn:E.
  - intros _. left. apply String.eqb_eq in E. now symmetry.
  - intro H. right. now apply IH.
Qed.

Lemma get_del_same {V} (d : dict V) (k : string) : get (del d k) k = None.
Proof.
  unfold del. induction d as [|[k' v'] r IH]; cbn [filter fst]; [reflexivity|].
  destruct (String.eqb k k') eqn:E; cbn [negb].
  - exact IH.
  - cbn [get]. rewrite E. exact IH.
Qed.

Lemma In_set_keys {V} (d : dict V) (k k0 : string) (v : V) :
  In k0 (map fst (set d k v)) -> k0 = k \/ In k0 (map fst d).
Proof.
  induction d as [|[k' v'] r IH]; cbn [set map fst].
  - intros [E|[]]. left. now symmetry.
  - destruct (String.eqb k k') eqn:E; cbn [map fst].
    + intros [H|H]; [right; left; exact H | right; right; exact H].
    + intros [H|H]; [right; left; exact H|].
      destruct (IH H) as [H'|H']; [left; exact H' | right; right; exact H'].
Qed.

Lemma set_wf {V} (d : dict V) (k : string) (v : V) : wf d -> wf (set d k v).
Proof.
  unfold wf. induction d as [|[k' v'] r IH]; cbn [set map fst]; intro H.
  - constructor; [intros [] | constructor].
  - inversion H as [|? ? Hn Hr]; subst.
    destruct (String.eqb k k') eqn:E; cbn [map fst].
    + constructor; assumption.
    + constructor; [|now apply IH].
      intro Hin. apply In_set_keys in Hin. destruct Hin as [Hk|Hin].
      * subst k'. rewrite String.eqb_refl in E. discriminate.
      * now apply Hn.
Qed.

Lemma del_wf {V} (d : dict V) (k : string) : wf d -> wf (del d k).
Proof.
  unfold wf, del. induction d as [|[k' v'] r IH]; cbn [filter map fst]; intro H.
  - constructor.
  - inversion H as [|? ? Hn Hr]; subst.
    destruct (negb (String.eqb k k')); cbn [map fst]; [|now apply IH].
    constructor; [|now apply IH].
    intro Hin. apply Hn. apply in_map_iff in Hin.
    destruct Hin as [[k1 v1] [E Hin]]. apply filter_In in Hin.
    apply in_map_iff. exists (k1, v1). tauto.
Qed.

Lemma get_set_same {V} (d : dict V) (k : string) (v : V) :
  get (set d k v) k = Some v.
Proof.
  induction d as [|[k' v'] r IH]; cbn [set get].
  - now rewrite String.eqb_refl.
  - destruct (String.eqb k k') eqn:E; cbn [get]; rewrite E; [reflexivity | exact IH].
Qed.

End DictFacts.

Module ServiceFacts.
Import PlatformConnectionService Statements DictFacts.

(** The request token is looked up in the dictionary of a wrapper that was
    just built, which is empty: the exchange stops at its first check. *)
Lemma exchange_on_new_wrapper (cfg : Settings) (redirect_uri : string) (env : Env)
      (oauth_token oauth_verifier : option string) (state : string) :
  TwitterOAuthHandler.exchange_code_for_tokens
    (TwitterOAuthHandler.init cfg redirect_uri) env oauth_token oauth_verifier state
  = Raise (Exception "Invalid state or expired request token").
Proof. reflexivity. Qed.

(** With a dictionary that is well formed, the state the loop finds is a
    twitter state of the dictionary. *)
Lemma first_twitter_state_get (d : Dict.dict StateData) (s : string) :
  wf d -> first_twitter_state d = Some s ->
  exists data, Dict.get d s = Some data /\ sd_platform data = "twitter".
Proof.
  unfold wf. induction d as [|[k v] r IH]; cbn [first_twitter_state map fst];
    [discriminate|].
  intros Hwf H. inversion Hwf as [|? ? Hn Hr]; subst.
  destruct (String.eqb (sd_platform v) "twitter") eqn:E.
  - injection H as <-. exists v. cbn [Dict.get]. rewrite String.eqb_refl.
    split; [reflexivity | now apply String.eqb_eq].
  - destruct (IH Hr H) as [data [Hg Hp]].
    exists data. split; [|exact Hp].
    cbn [Dict.get]. destruct (String.eqb s k) eqn:Ek; [|exact Hg].
    apply String.eqb_eq in Ek. subst k. exfalso. apply Hn.
    now apply (get_In r s data).
Qed.

(** What the [async with] block of [complete_oauth] can end in, for the
    handler [_get_oauth_handler] builds: tokens only for a platform other
    than twitter, and never the error of the state check. *)
Lemma exchange_outcome (env : Env) (platform redirect_uri : string)
      (code oauth_token oauth_verifier : option string) (state : string) :
  match
    (handler <- _get_oauth_handler env platform redirect_uri ;;
     exchange_and_fetch_profile env handler platform code oauth_token
                                oauth_verifier state)
  with
  | Ok _ => platform <> "twitter"
  | Raise e => e <> state_error
  end.
Proof.
  unfold _get_oauth_handler, oauth_handlers, state_error. cbn [Dict.get].
  destruct (String.eqb platform "twitter") eqn:E1.
  { cbn [bind]. unfold exchange_and_fetch_profile. rewrite E1.
    rewrite exchange_on_new_wrapper. cbn [bind]. discriminate. }
  assert (platform <> "twitter") as Hne.
  { intro H. subst platform. discriminate. }
  assert (forall h,
             match exchange_and_fetch_profile env (OAuth2 h) platform code
                     oauth_token oauth_verifier state with
             | Ok _ => platform <> "twitter"
             | Raise e => e <> ValueError "Invalid or expired state parameter"
             end) as Hh.
  { intro h. unfold exchange_and_fetch_profile. rewrite E1.
    unfold BaseOAuthHandler.exchange_code_for_tokens,
      BaseOAuthHandler.parse_token_response, BaseOAuthHandler.datetime_add,
      BaseOAuthHandler.get_user_profile.
    repeat (match goal with
            | |- context [if ?b then _ else _] => destruct b
            | |- context [match td_access_token ?x with _ => _ end] =>
                destruct (td_access_token x)
            | |- context [match td_expires_in ?x with _ => _ end] =>
                destruct (td_expires_in x)
            end; cbn [bind]); try discriminate; exact Hne. }
  destruct (String.eqb platform "linkedin"); [cbn [bind]; apply Hh|].
  destruct (String.eqb platform "facebook"); [cbn [bind]; apply Hh|].
  destruct (String.eqb platform "instagram"); [cbn [bind]; apply Hh|].
  cbn [bind]. intro H. injection H as H. cbn in H. discriminate.
Qed.

Section WithTokenEncryption.
Context {F : FernetLib}.
Variable te : TokenEncryption.t.

(** A callback that names its state (OAuth 2.0). *)
Lemma complete_by_state (self : t) (env : Env) (db : database)
      (code oauth_token oauth_verifier : option string) (s : string) :
  truthy oauth_token && truthy oauth_verifier = false ->
  complete_oauth te self env db code (Some s) oauth_token oauth_verifier
  = match Dict.get (active_states self) s with
    | None => (self, db, Raise state_error)
    | Some data =>
        after_state_check te self env db code oauth_token oauth_verifier s data
    end.
Proof.
  intro H. unfold complete_oauth. rewrite H.
  destruct (Dict.get (active_states self) s); reflexivity.
Qed.

(** A callback that carries [oauth_token] and [oauth_verifier] (OAuth 1.0a):
    the state is the first twitter state, whatever [oauth_token] is. *)
Lemma complete_by_oauth_token (self : t) (env : Env) (db : database)
      (code state oauth_token oauth_verifier : option string) :
  truthy oauth_token && truthy oauth_verifier = true ->
  complete_oauth te self env db code state oauth_token oauth_verifier
  = match first_twitter_state (active_states self) with
    | None => (self, db, Raise (ValueError "Invalid or expired OAuth token"))
    | Some s =>
        if Bytes.is_empty s
        then (self, db, Raise (ValueError "Invalid or expired OAuth token"))
        else
          match Dict.get (active_states self) s with
          | None => (self, db, Raise state_error)
          | Some data =>
              after_state_check te self env db oauth_verifier oauth_token
                                oauth_verifier s data
          end
    end.
Proof.
  intro H. unfold complete_oauth. rewrite H.
  destruct (first_twitter_state (active_states self)) as [s|]; [|reflexivity].
  cbn [truthy]. destruct (Bytes.is_empty s); cbn [negb]; [reflexivity|].
  destruct (Dict.get (active_states self) s); reflexivity.
Qed.

(** Once the state check is passed the state is gone, whatever follows. *)
Lemma after_state_check_states (self : t) (env : Env) (db : database)
      (code oauth_token oauth_verifier : option string)
      (s : string) (data : StateData) :
  active_states
    (fst (fst (after_state_check te self env db code oauth_token oauth_verifier
                                 s data)))
  = Dict.del (active_states self) s.
Proof.
  unfold after_state_check.
  destruct (handler <- _get_oauth_handler env (sd_platform data)
                         (sd_redirect_uri data) ;;
            exchange_and_fetch_profile env handler (sd_platform data) code
              oauth_token oauth_verifier s) as [[tokens profile]|e];
    [|reflexivity].
  destruct (_get_existing_connection db (sd_user_id data) (sd_platform data)
              (UserProfile.platform_user_id profile)) as [[c|]|e].
  - destruct (_update_connection_tokens te env db c tokens). reflexivity.
  - destruct (_create_new_connection te env db (sd_user_id data)
                (sd_platform data) tokens profile). reflexivity.
  - reflexivity.
Qed.

(** A twitter state ends the call in the request-token error. *)
Lemma after_state_check_twitter (self : t) (env : Env) (db : database)
      (code oauth_token oauth_verifier : option string)
      (s : string) (data : StateData) :
  sd_platform data = "twitter" ->
  after_state_check te self env db code oauth_token oauth_verifier s data
  = ({| active_states := Dict.del (active_states self) s |}, db,
     Raise (Exception "Invalid state or expired request token")).
Proof.
  intro H. unfold after_state_check. rewrite H. reflexivity.
Qed.

End WithTokenEncryption.
End ServiceFacts.

(** C2.  A callback of the OAuth 1.0a kind (it carries [oauth_token] and
    [oauth_verifier]) never yields a connection.  With no twitter state
    pending, [complete_oauth] stops with "Invalid or expired OAuth token".
    Otherwise it consumes the first twitter state and builds a new
    [TwitterOAuthHandler], whose [_request_tokens] is empty, so
    [exchange_code_for_tokens] raises "Invalid state or expired request
    token".  The table is left as it was. *)
Theorem twitter_completion_always_fails
        (F : FernetLib) (te : TokenEncryption.t)
        (self : PlatformConnectionService.t) (env : Env) (db : database)
        (code state oauth_token oauth_verifier : option string) :
  Statements.wf (PlatformConnectionService.active_states self) ->
  truthy oauth_token = true ->
  truthy oauth_verifier = true ->
  exists self' e,
    PlatformConnectionService.complete_oauth te self env db code state
                                             oauth_token oauth_verifier
    = (self', db, Raise e)
    /\ (e = ValueError "Invalid or expired OAuth token"
        \/ e = Exception "Invalid state or expired request token").
Proof.
  intros Hwf Ht Hv.
  rewrite ServiceFacts.complete_by_oauth_token by (rewrite Ht, Hv; reflexivity).
  destruct (PlatformConnectionService.first_twitter_state
              (PlatformConnectionService.active_states self)) as [s|] eqn:Es.
  - destruct (Bytes.is_empty s).
    + eexists _, _. split; [reflexivity | left; reflexivity].
    + destruct (ServiceFacts.first_twitter_state_get _ _ Hwf Es)
        as [data [Hg Hp]].
      rewrite Hg, (ServiceFacts.after_state_check_twitter te _ _ _ _ _ _ _ _ Hp).
      eexists _, _. split; [reflexivity | right; reflexivity].
  - eexists _, _. split; [reflexivity | left; reflexivity].
Qed.

Module ServiceFacts2.
Import PlatformConnectionService Statements DictFacts ServiceFacts.

Section WithTokenEncryption.
Context {F : FernetLib}.
Variable te : TokenEncryption.t.

Lemma scalar_one_or_none_raises {A} (rows : list A) (e : exn) :
  scalar_one_or_none rows = Raise e -> e = MultipleResultsFound.
Proof.
  destruct rows as [|a [|b r]]; cbn; intro H; try discriminate.
  now injection H as <-.
Qed.

(** After the state check the error of the state check cannot occur. *)
Lemma after_state_check_error (self : t) (env : Env) (db : database)
      (code oauth_token oauth_verifier : option string)
      (s : string) (data : StateData) :
  snd (after_state_check te self env db code oauth_token oauth_verifier s data)
  <> Raise state_error.
Proof.
  unfold after_state_check.
  pose proof (exchange_outcome env (sd_platform data) (sd_redirect_uri data)
                               code oauth_token oauth_verifier s) as Hx.
  destruct (handler <- _get_oauth_handler env (sd_platform data)
                         (sd_redirect_uri data) ;;
            exchange_and_fetch_profile env handler (sd_platform data) code
              oauth_token oauth_verifier s) as [[tokens profile]|e].
  - destruct (_get_existing_connection db (sd_user_id data) (sd_platform data)
                (UserProfile.platform_user_id profile)) as [[c|]|e] eqn:Eg.
    + cbn. discriminate.
    + unfold _create_new_connection.
      destruct (existsb _ db); cbn; discriminate.
    + unfold _get_existing_connection in Eg.
      apply scalar_one_or_none_raises in Eg. subst e. cbn. discriminate.
  - cbn. intro H. injection H as H. contradiction.
Qed.

End WithTokenEncryption.
End ServiceFacts2.

(** C2, witness: the callback of the one pending twitter initiation, with
    the request token the provider issued for it. *)
Lemma twitter_completion_always_fails_witness :
  exists self' e,
    PlatformConnectionService.complete_oauth Scenario.cipher
      Scenario.one_twitter_pending
      (Scenario.world 60 "s9" "id1" "acc" "oauth_token=at&oauth_token_secret=as" "m1")
      [] None None (Some "rt1") (Some "verifier")
    = (self', [], Raise e)
    /\ (e = ValueError "Invalid or expired OAuth token"
        \/ e = Exception "Invalid state or expired request token").
Proof.
  apply (twitter_completion_always_fails tagged_cipher Scenario.cipher).
  - repeat constructor. cbn. intuition.
  - reflexivity.
  - reflexivity.
Defined.

(** C3.  Two twitter initiations are pending, [s1] for user [u1] with request
    token [rt1] and [s2] for user [u2] with request token [rt2].  The
    callback that carries [rt2] consumes [s1], the state of the other user:
    the loop takes the first twitter state and never looks at [oauth_token].
    The comment above the loop says "Find state by oauth_token". *)
Theorem callback_consumes_first_twitter_state :
  snd (PlatformConnectionService.initiate_oauth PlatformConnectionService.init
         (Scenario.world 0 "s1" "id1" "acc"
            "oauth_token=rt1&oauth_token_secret=rs1&oauth_callback_confirmed=true" "m1")
         "twitter" "u1" "https://app/cb")
  = Ok "https://api.x.com/oauth/authenticate?oauth_token=rt1"
  /\ snd (PlatformConnectionService.initiate_oauth Scenario.one_twitter_pending
            (Scenario.world 5 "s2" "id1" "acc"
               "oauth_token=rt2&oauth_token_secret=rs2&oauth_callback_confirmed=true" "m1")
            "twitter" "u2" "https://app/cb")
     = Ok "https://api.x.com/oauth/authenticate?oauth_token=rt2"
  /\ map fst (PlatformConnectionService.active_states Scenario.two_twitter_pending)
     = ["s1"; "s2"]
  /\ PlatformConnectionService.complete_oauth Scenario.cipher
       Scenario.two_twitter_pending
       (Scenario.world 60 "s9" "id1" "acc" "oauth_token=at&oauth_token_secret=as" "m1")
       [] None None (Some "rt2") (Some "verifier")
     = ({| PlatformConnectionService.active_states :=
             [("s2", {| PlatformConnectionService.sd_user_id := "u2";
                        PlatformConnectionService.sd_platform := "twitter";
                        PlatformConnectionService.sd_redirect_uri := "https://app/cb";
                        PlatformConnectionService.sd_created_at := 5 |})] |},
        [], Raise (Exception "Invalid state or expired request token")).
Proof.
  repeat (split; [vm_compute; reflexivity|]).
  vm_compute. reflexivity.
Qed.

(** C4, as amended.  After a [complete_oauth] that named the state [s], a
    second one naming [s] fails with "Invalid or expired state parameter"
    and leaves the pending states and the table as they were: no connection
    is created and no token rewritten.  The error is the one a state that
    was never issued gets; the code keeps no record of consumed states. *)
Theorem second_complete_fails_as_unknown_state
        (F : FernetLib) (te : TokenEncryption.t)
        (self : PlatformConnectionService.t) (env env' : Env) (db : database)
        (code code' : option string) (s : string) :
  let first :=
    PlatformConnectionService.complete_oauth te self env db code (Some s)
                                             None None in
  PlatformConnectionService.complete_oauth te (fst (fst first)) env'
    (snd (fst first)) code' (Some s) None None
  = (fst (fst first), snd (fst first),
     Raise (ValueError "Invalid or expired state parameter"))
  /\ forall s',
      Dict.get (PlatformConnectionService.active_states self) s' = None ->
      PlatformConnectionService.complete_oauth te self env db code (Some s')
                                               None None
      = (self, db, Raise (ValueError "Invalid or expired state parameter")).
Proof.
  cbv zeta. split.
  - rewrite (ServiceFacts.complete_by_state te _ env') by reflexivity.
    assert (Dict.get
              (PlatformConnectionService.active_states
                 (fst (fst (PlatformConnectionService.complete_oauth te self env
                              db code (Some s) None None)))) s = None) as H.
    { rewrite ServiceFacts.complete_by_state by reflexivity.
      destruct (Dict.get (PlatformConnectionService.active_states self) s)
        as [data|] eqn:E.
      - rewrite ServiceFacts.after_state_check_states.
        apply DictFacts.get_del_same.
      - exact E. }
    rewrite H. reflexivity.
  - intros s' H.
    rewrite ServiceFacts.complete_by_state by reflexivity.
    rewrite H. reflexivity.
Qed.

(** C4, counterexample.  A LinkedIn flow completes; the same callback
    delivered again gets the very error that a state never issued gets. *)
Lemma second_complete_error_not_distinct :
  (exists c,
      snd (PlatformConnectionService.complete_oauth Scenario.cipher
             Scenario.one_linkedin_pending
             (Scenario.world 60 "s9" "id1" "acc1" "" "m1")
             [] (Some "code1") (Some "s1") None None) = Ok c)
  /\ snd (PlatformConnectionService.complete_oauth Scenario.cipher
            (fst (fst Scenario.linkedin_completed))
            (Scenario.world 61 "s9" "id2" "acc2" "" "m1")
            (snd (fst Scenario.linkedin_completed))
            (Some "code1") (Some "s1") None None)
     = Raise (ValueError "Invalid or expired state parameter")
  /\ snd (PlatformConnectionService.complete_oauth Scenario.cipher
            (fst (fst Scenario.linkedin_completed))
            (Scenario.world 61 "s9" "id2" "acc2" "" "m1")
            (snd (fst Scenario.linkedin_completed))
            (Some "code1") (Some "never-issued") None None)
     = Raise (ValueError "Invalid or expired state parameter").
Proof.
  split; [eexists; vm_compute; reflexivity|].
  split; vm_compute; reflexivity.
Qed.

(** C8.  For a platform outside [oauth_handlers], [initiate_oauth] raises
    "Unsupported platform", but only after it has stored the state record:
    the record stays in [active_states]. *)
Theorem initiate_unsupported_platform_leaves_state
        (self : PlatformConnectionService.t) (env : Env)
        (platform user_id redirect_uri : string) :
  Dict.get PlatformConnectionService.oauth_handlers platform = None ->
  snd (PlatformConnectionService.initiate_oauth self env platform user_id
                                                redirect_uri)
  = Raise (ValueError ("Unsupported platform: " ++ platform))
  /\ Dict.get
       (PlatformConnectionService.active_states
          (fst (PlatformConnectionService.initiate_oauth self env platform
                                                         user_id redirect_uri)))
       (token_urlsafe env)
     = Some {| PlatformConnectionService.sd_user_id := user_id;
               PlatformConnectionService.sd_platform := platform;
               PlatformConnectionService.sd_redirect_uri := redirect_uri;
               PlatformConnectionService.sd_created_at := utcnow env |}.
Proof.
  intro H.
  unfold PlatformConnectionService.initiate_oauth,
    PlatformConnectionService._get_oauth_handler.
  rewrite H. cbn [fst snd PlatformConnectionService.active_states].
  split; [reflexivity | apply DictFacts.get_set_same].
Qed.

(** C8, witness: [myspace] on a new service. *)
Lemma initiate_unsupported_platform_leaves_state_witness :
  PlatformConnectionService.active_states PlatformConnectionService.init = []
  /\ snd (PlatformConnectionService.initiate_oauth PlatformConnectionService.init
            (Scenario.world 0 "s1" "id1" "acc" "" "m1")
            "myspace" "u1" "https://app/cb")
     = Raise (ValueError "Unsupported platform: myspace")
  /\ Dict.get
       (PlatformConnectionService.active_states
          (fst (PlatformConnectionService.initiate_oauth
                  PlatformConnectionService.init
                  (Scenario.world 0 "s1" "id1" "acc" "" "m1")
                  "myspace" "u1" "https://app/cb")))
       "s1"
     = Some {| PlatformConnectionService.sd_user_id := "u1";
               PlatformConnectionService.sd_platform := "myspace";
               PlatformConnectionService.sd_redirect_uri := "https://app/cb";
               PlatformConnectionService.sd_created_at := 0 |}.
Proof.
  split; [reflexivity|].
  apply (initiate_unsupported_platform_leaves_state
           PlatformConnectionService.init
           (Scenario.world 0 "s1" "id1" "acc" "" "m1")
           "myspace" "u1" "https://app/cb").
  reflexivity.
Defined.

(** C10, as amended.  A state record has no time to live: [complete_oauth]
    rejects the state [s] with "Invalid or expired state parameter" exactly
    when [s] is not in [active_states].  Neither [created_at] nor the clock
    enters the check, so a stored state is accepted at any age. *)
Theorem state_check_ignores_age
        (F : FernetLib) (te : TokenEncryption.t)
        (self : PlatformConnectionService.t) (env : Env) (db : database)
        (code : option string) (s : string) :
  snd (PlatformConnectionService.complete_oauth te self env db code (Some s)
                                                None None)
  = Raise (ValueError "Invalid or expired state parameter")
  <-> Dict.get (PlatformConnectionService.active_states self) s = None.
Proof.
  rewrite ServiceFacts.complete_by_state by reflexivity.
  destruct (Dict.get (PlatformConnectionService.active_states self) s)
    as [data|] eqn:E.
  - split; [|discriminate].
    intro H. exfalso.
    exact (ServiceFacts2.after_state_check_error te _ _ _ _ _ _ _ _ H).
  - split; reflexivity.
Qed.

(** C10, counterexample.  A state stored at clock reading 0 is presented
    at clock reading 1000000000, more than thirty years later, and the
    completion succeeds. *)
Lemma state_accepted_after_thirty_years :
  map (fun kv => PlatformConnectionService.sd_created_at (snd kv))
      (PlatformConnectionService.active_states Scenario.one_linkedin_pending)
  = [0%Z]
  /\ utcnow (Scenario.world 1000000000 "s9" "id1" "acc1" "" "m1") = 1000000000%Z
  /\ exists c,
      snd (PlatformConnectionService.complete_oauth Scenario.cipher
             Scenario.one_linkedin_pending
             (Scenario.world 1000000000 "s9" "id1" "acc1" "" "m1")
             [] (Some "code1") (Some "s1") None None) = Ok c
      /\ PlatformConnection.user_id c = "u1"
      /\ PlatformConnection.platform c = "linkedin".
Proof.
  split; [reflexivity|]. split; [reflexivity|].
  eexists. split; [vm_compute; reflexivity|]. split; reflexivity.
Qed.

Module TableFacts.
Import PlatformConnectionService Statements DictFacts ServiceFacts.

Lemma same_triple_true (u p q : string) (c : PlatformConnection.t) :
  same_triple u p q c = true ->
  PlatformConnection.user_id c = u
  /\ PlatformConnection.platform c = p
  /\ PlatformConnection.platform_user_id c = q.
Proof.
  unfold same_triple. intro H.
  apply andb_true_iff in H. destruct H as [H Hq].
  apply andb_true_iff in H. destruct H as [Hu Hp].
  repeat split; now apply String.eqb_eq.
Qed.


Lemma filter_map_same {A} (f : A -> bool) (g : A -> A) (l : list A) :
  (forall a, f (g a) = f a) -> filter f (map g l) = map g (filter f l).
Proof.
  intro H. induction l as [|a r IH]; [reflexivity|].
  cbn [map filter]. rewrite H. destruct (f a); cbn [map]; now rewrite IH.
Qed.

Lemma scalar_one_or_none_some {A} (rows : list A) (a : A) :
  scalar_one_or_none rows = Ok (Some a) -> rows = [a].
Proof.
  destruct rows as [|b [|b' r]]; cbn; intro H; try discriminate.
  now injection H as <-.
Qed.

Lemma scalar_one_or_none_none {A} (rows : list A) :
  scalar_one_or_none rows = Ok None -> rows = [].
Proof. destruct rows as [|b [|b' r]]; cbn; intro H; [reflexivity | discriminate ..]. Qed.

Lemma filter_length_le {A} (f : A -> bool) (l : list A) :
  (List.length (filter f l) <= List.length l)%nat.
Proof.
  induction l as [|a r IH]; [apply Nat.le_refl|].
  cbn [filter]. destruct (f a); cbn [List.length]; lia.
Qed.

Lemma filter_filter_length {A} (f g : A -> bool) (l : list A) :
  (List.length (filter f (filter g l)) <= List.length (filter f l))%nat.
Proof.
  induction l as [|a r IH]; [apply Nat.le_refl|].
  cbn [filter]. destruct (g a); cbn [filter]; destruct (f a);
    cbn [List.length]; lia.
Qed.

Section WithTokenEncryption.
Context {F : FernetLib}.
Variable te : TokenEncryption.t.



Lemma update_length (env : Env) (db : database) (c : PlatformConnection.t)
      (tokens : OAuthTokens.t) :
  List.length (fst (_update_connection_tokens te env db c tokens))
  = List.length db.
Proof. unfold _update_connection_tokens. cbn [fst]. apply length_map. Qed.






(** Inside its session a disconnect keeps the triples unique; closed
    without a commit, the session leaves the table as it was. *)
Lemma disconnect_unique (self : t) (db : database) (cid uid : string) :
  triple_unique db ->
  triple_unique
    (Session.seen (fst (disconnect_platform self (Session.AsyncSessionLocal db)
                                            cid uid))).
Proof.
  intros H u p q. unfold disconnect_platform. cbn [fst Session.execute
    Session.seen Session.AsyncSessionLocal].
  eapply Nat.le_trans; [apply filter_filter_length | apply H].
Qed.

Lemma disconnect_closed (self : t) (db : database) (cid uid : string) :
  Session.close (fst (disconnect_platform self (Session.AsyncSessionLocal db)
                                          cid uid))
  = db.
Proof. reflexivity. Qed.




(** The pending states stay a dictionary along every run. *)
Lemma complete_oauth_wf (self : t) (env : Env) (db : database)
      (code state oauth_token oauth_verifier : option string) :
  wf (active_states self) ->
  wf (active_states
        (fst (fst (complete_oauth te self env db code state oauth_token
                                  oauth_verifier)))).
Proof.
  intro H.
  destruct (truthy oauth_token && truthy oauth_verifier) eqn:E.
  - rewrite complete_by_oauth_token by exact E.
    destruct (first_twitter_state (active_states self)) as [s|]; [|exact H].
    destruct (Bytes.is_empty s); [exact H|].
    destruct (Dict.get (active_states self) s) as [data|]; [|exact H].
    rewrite after_state_check_states. now apply del_wf.
  - destruct state as [s|].
    + rewrite complete_by_state by exact E.
      destruct (Dict.get (active_states self) s) as [data|]; [|exact H].
      rewrite after_state_check_states. now apply del_wf.
    + unfold complete_oauth. rewrite E. exact H.
Qed.

Lemma initiate_oauth_states (self : t) (env : Env) (p u r : string) :
  active_states (fst (initiate_oauth self env p u r))
  = Dict.set (active_states self) (token_urlsafe env)
             {| sd_user_id := u; sd_platform := p; sd_redirect_uri := r;
                sd_created_at := utcnow env |}.
Proof.
  unfold initiate_oauth.
  destruct (_get_oauth_handler env p r) as [[h|h]|e];
    destruct (String.eqb p "twitter"); reflexivity.
Qed.

Lemma run_wf (calls : list Driver.call) (st : t * database) :
  wf (active_states (fst st)) ->
  wf (active_states (fst (Driver.run te calls st))).
Proof.
  revert st. induction calls as [|c r IH]; intros st H; [exact H|].
  cbn [Driver.run fold_left]. apply IH.
  destruct st as [self db]. cbn [fst] in H.
  destruct c as [env p u r'|env code state ot ov|env cid|cid uid];
    cbn [Driver.step fst].
  - rewrite initiate_oauth_states. now apply set_wf.
  - now apply complete_oauth_wf.
  - exact H.
  - exact H.
Qed.

End WithTokenEncryption.
End TableFacts.




(** * More of the token cipher *)

(** X1.  [encrypt_token] returns the empty string for the empty token only:
    a stored ciphertext is empty exactly when there was no token. *)
Theorem encrypt_token_empty_iff
        (F : FernetLib) (self : TokenEncryption.t)
        (now : Z) (iv x : string) :
  TokenEncryption.encrypt_token self now iv x = EmptyString <-> x = EmptyString.
Proof.
  unfold TokenEncryption.encrypt_token. split.
  - destruct (Bytes.is_empty x) eqn:E.
    + intros _. now apply TokenEncryptionFacts.is_empty_true.
    + intro H.
      pose proof (Base64Facts.urlsafe_b64encode_nonempty
                    (fernet_encrypt (TokenEncryption.cipher_suite self) now iv x)
                    (fernet_token_nonempty _ now iv x)) as Hne.
      rewrite H in Hne. discriminate.
  - intros ->. reflexivity.
Qed.

(** X2.  [decrypt_token] raises on no input, and a non-empty text it returns
    is the well-formed UTF-8 plaintext Fernet gives for the base64-decoded
    input. *)
Theorem decrypt_token_sound
        (F : FernetLib) (self : TokenEncryption.t) (c : string) :
  exists s,
    TokenEncryption.decrypt_token self c = Ok s
    /\ (s = EmptyString
        \/ exists d,
            Base64.urlsafe_b64decode c = Some d
            /\ fernet_decrypt (TokenEncryption.cipher_suite self) d = Some s
            /\ Utf8.valid s = true).
Proof.
  unfold TokenEncryption.decrypt_token, TokenEncryption.decrypt_attempt.
  destruct (Bytes.is_empty c); [exists EmptyString; auto|].
  destruct (Base64.urlsafe_b64decode c) as [d|]; cbn [bind];
    [|exists EmptyString; auto].
  destruct (fernet_decrypt (TokenEncryption.cipher_suite self) d) as [m|] eqn:Em;
    cbn [bind]; [|exists EmptyString; auto].
  unfold Utf8.decode. destruct (Utf8.valid m) eqn:Ev.
  - exists m. split; [reflexivity|]. right. exists d. auto.
  - exists EmptyString. auto.
Qed.

(** * More of the OAuth 1.0a signature *)

Module OrderFacts.
Import PyStr.

Lemma ascii_compare_lt_trans (a b c : ascii) :
  Ascii.compare a b = Lt -> Ascii.compare b c = Lt -> Ascii.compare a c = Lt.
Proof.
  unfold Ascii.compare. rewrite !N.compare_lt_iff. apply N.lt_trans.
Qed.

Lemma compare_lt_trans (a : string) :
  forall b c, String.compare a b = Lt -> String.compare b c = Lt ->
              String.compare a c = Lt.
Proof.
  induction a as [|x a IH]; intros [|y b] [|z c]; cbn [String.compare];
    try discriminate; try reflexivity.
  destruct (Ascii.compare x y) eqn:Exy; try discriminate;
    destruct (Ascii.compare y z) eqn:Eyz; try discriminate; intros H1 H2.
  - apply Ascii.compare_eq_iff in Exy, Eyz. subst.
    assert (Ascii.compare z z = Eq) as ->.
    { pose proof (Ascii.compare_antisym z z) as H.
      destruct (Ascii.compare z z); [reflexivity | discriminate ..]. }
    now apply (IH b c).
  - apply Ascii.compare_eq_iff in Exy. subst. now rewrite Eyz.
  - apply Ascii.compare_eq_iff in Eyz. subst. now rewrite Exy.
  - now rewrite (ascii_compare_lt_trans x y z Exy Eyz).
Qed.

Lemma compare_refl (a : string) : String.compare a a = Eq.
Proof.
  pose proof (String.compare_antisym a a) as H.
  destruct (String.compare a a); [reflexivity | discriminate ..].
Qed.

Lemma compare_gt_lt (a b : string) :
  String.compare a b = Gt <-> String.compare b a = Lt.
Proof.
  rewrite (String.compare_antisym b a).
  destruct (String.compare a b); cbn; split; congruence.
Qed.

Lemma leb_trans (a b c : string) :
  String.leb a b = true -> String.leb b c = true -> String.leb a c = true.
Proof.
  unfold String.leb.
  destruct (String.compare a b) eqn:Eab; try discriminate;
    destruct (String.compare b c) eqn:Ebc; try discriminate; intros _ _.
  - apply String.compare_eq_iff in Eab, Ebc. subst. now rewrite compare_refl.
  - apply String.compare_eq_iff in Eab. subst. now rewrite Ebc.
  - apply String.compare_eq_iff in Ebc. subst. now rewrite Eab.
  - now rewrite (compare_lt_trans a b c Eab Ebc).
Qed.

Lemma tuple_leb_total (p q : string * string) :
  tuple_leb p q = true \/ tuple_leb q p = true.
Proof.
  unfold tuple_leb.
  destruct (String.compare (fst p) (fst q)) eqn:E.
  - apply String.compare_eq_iff in E. rewrite E, compare_refl.
    apply String.leb_total.
  - left. reflexivity.
  - right. apply compare_gt_lt in E. now rewrite E.
Qed.

Lemma tuple_leb_antisym (p q : string * string) :
  tuple_leb p q = true -> tuple_leb q p = true -> p = q.
Proof.
  unfold tuple_leb. destruct p as [k v], q as [k' v']. cbn [fst snd].
  destruct (String.compare k k') eqn:E.
  - apply String.compare_eq_iff in E. subst k'. rewrite compare_refl.
    intros H1 H2. now rewrite (String.leb_antisym v v' H1 H2).
  - assert (String.compare k' k = Gt) as -> by now apply compare_gt_lt.
    discriminate.
  - discriminate.
Qed.

Lemma tuple_leb_trans (p q r : string * string) :
  tuple_leb p q = true -> tuple_leb q r = true -> tuple_leb p r = true.
Proof.
  unfold tuple_leb.
  destruct (String.compare (fst p) (fst q)) eqn:Epq; try discriminate;
    destruct (String.compare (fst q) (fst r)) eqn:Eqr; try discriminate.
  - apply String.compare_eq_iff in Epq, Eqr. rewrite Epq, Eqr, compare_refl.
    apply leb_trans.
  - apply String.compare_eq_iff in Epq. rewrite Epq, Eqr. reflexivity.
  - apply String.compare_eq_iff in Eqr. rewrite <- Eqr, Epq. reflexivity.
  - rewrite (compare_lt_trans _ _ _ Epq Eqr). reflexivity.
Qed.

Section InsertionOrder.
Context {A : Type} (le : A -> A -> bool).
Hypothesis le_total : forall x y, le x y = true \/ le y x = true.
Hypothesis le_antisym : forall x y, le x y = true -> le y x = true -> x = y.
Hypothesis le_trans :
  forall x y z, le x y = true -> le y z = true -> le x z = true.

Lemma insert_insert (x y : A) (l : list A) :
  insert le x (insert le y l) = insert le y (insert le x l).
Proof.
  induction l as [|z r IH].
  - cbn [insert].
    destruct (le x y) eqn:Exy, (le y x) eqn:Eyx; try reflexivity.
    + now rewrite (le_antisym x y Exy Eyx).
    + destruct (le_total x y); congruence.
  - cbn [insert].
    destruct (le x z) eqn:Exz, (le y z) eqn:Eyz; cbn [insert].
    + destruct (le x y) eqn:Exy, (le y x) eqn:Eyx;
        rewrite ?Exz, ?Eyz; try reflexivity.
      * now rewrite (le_antisym x y Exy Eyx).
      * destruct (le_total x y); congruence.
    + rewrite Exz.
      destruct (le y x) eqn:Eyx.
      * rewrite (le_trans y x z Eyx Exz) in Eyz. discriminate.
      * now rewrite Eyz.
    + rewrite Eyz.
      destruct (le x y) eqn:Exy.
      * rewrite (le_trans x y z Exy Eyz) in Exz. discriminate.
      * now rewrite Exz.
    + rewrite Exz, Eyz. now rewrite IH.
Qed.

(** Sorting forgets the order of the input. *)
Lemma sorted_permutation (l l' : list A) :
  Permutation l l' -> sorted le l = sorted le l'.
Proof.
  induction 1 as [|x l l' _ IH|x y l|l l' l'' _ IH1 _ IH2].
  - reflexivity.
  - cbn [sorted fold_right]. unfold sorted in IH. now rewrite IH.
  - cbn [sorted fold_right]. apply insert_insert.
  - now rewrite IH1.
Qed.

End InsertionOrder.
End OrderFacts.

(** X3.  The signature does not depend on the order in which the parameters
    were put into the dict. *)
Theorem signature_ignores_insertion_order
        (self : TwitterOAuth1Handler.t) (method url : string)
        (params params' : Dict.dict string) (token_secret : string) :
  Permutation params params' ->
  TwitterOAuth1Handler._generate_oauth_signature self method url params
                                                 token_secret
  = TwitterOAuth1Handler._generate_oauth_signature self method url params'
                                                   token_secret.
Proof.
  intro H. unfold TwitterOAuth1Handler._generate_oauth_signature.
  rewrite (OrderFacts.sorted_permutation PyStr.tuple_leb
             OrderFacts.tuple_leb_total OrderFacts.tuple_leb_antisym
             OrderFacts.tuple_leb_trans params params' H).
  reflexivity.
Qed.

(** X3, witness: two of the request-token parameters exchanged. *)
Lemma signature_ignores_insertion_order_witness :
  TwitterOAuth1Handler._generate_oauth_signature
    (TwitterOAuth1Handler.init Scenario.cfg "https://app/cb") "POST"
    TwitterOAuth1Handler.request_token_url
    [("oauth_nonce", "abc"); ("oauth_callback", "https://app/cb")] ""
  = TwitterOAuth1Handler._generate_oauth_signature
      (TwitterOAuth1Handler.init Scenario.cfg "https://app/cb") "POST"
      TwitterOAuth1Handler.request_token_url
      [("oauth_callback", "https://app/cb"); ("oauth_nonce", "abc")] "".
Proof.
  apply (signature_ignores_insertion_order
           (TwitterOAuth1Handler.init Scenario.cfg "https://app/cb")).
  apply perm_swap.
Defined.

Module SignatureLength.
Import Bytes Base64 AsciiFacts.

Lemma b2a_base64_length_exact (s : string) :
  String.length (b2a_base64 s) = (4 * ((String.length s + 2) / 3))%nat.
Proof.
  induction s as [|x|x y|x y z r IH] using string_ind3.
  - reflexivity.
  - reflexivity.
  - reflexivity.
  - rewrite Base64Facts.b2a_base64_3. cbn [String.length]. rewrite IH.
    replace (S (S (S (String.length r))) + 2)%nat
      with (String.length r + 2 + 1 * 3)%nat by lia.
    rewrite Nat.div_add by discriminate. lia.
Qed.

Lemma of_list_length (l : list ascii) :
  String.length (of_list l) = List.length l.
Proof. induction l as [|c r IH]; cbn; [reflexivity | now rewrite IH]. Qed.

Lemma be_bytes_length (count : nat) (x : Z) :
  List.length (SHA1.be_bytes count x) = count.
Proof. unfold SHA1.be_bytes. now rewrite length_map, length_rev, length_seq. Qed.

Lemma digest_values_length (m : list Z) :
  List.length (SHA1.digest_values m) = 20%nat.
Proof.
  unfold SHA1.digest_values. cbv zeta.
  rewrite !length_app, !be_bytes_length. reflexivity.
Qed.

Lemma hmac_sha1_length (key msg : string) :
  String.length (SHA1.hmac_sha1 key msg) = 20%nat.
Proof.
  unfold SHA1.hmac_sha1, SHA1.string_of_values. cbv zeta.
  rewrite of_list_length, length_map. apply digest_values_length.
Qed.

End SignatureLength.

(** X4.  Whatever the inputs, the signature is 28 characters long: the
    base64 text of the 20 bytes of an HMAC-SHA1. *)
Theorem signature_has_28_characters
        (self : TwitterOAuth1Handler.t) (method url : string)
        (params : Dict.dict string) (token_secret : string) :
  String.length
    (TwitterOAuth1Handler._generate_oauth_signature self method url params
                                                    token_secret)
  = 28%nat.
Proof.
  unfold TwitterOAuth1Handler._generate_oauth_signature, Base64.b64encode.
  cbv zeta.
  rewrite SignatureLength.b2a_base64_length_exact,
    SignatureLength.hmac_sha1_length.
  reflexivity.
Qed.

(** * The form-encoded answers of the OAuth 1.0a endpoints *)

Module FormFacts.
Import PyStr TwitterOAuth1Handler Statements.

Lemma split_on_length (sep : ascii) (s : string) :
  forall cur,
    List.length (split_on sep s cur) = S (count_char sep s).
Proof.
  induction s as [|c r IH]; intro cur; cbn [split_on count_char];
    [reflexivity|].
  destruct (Ascii.eqb c sep); cbn [List.length]; now rewrite IH.
Qed.

Lemma split_length (s : string) (sep : ascii) :
  List.length (split s sep) = S (count_char sep s).
Proof. apply split_on_length. Qed.

(** One turn of the loop goes on exactly on a segment with one [=]. *)
Lemma parse_pairs_cons (param : string) (rest : list string)
      (acc : Dict.dict string) :
  (count_char "=" param = 1%nat
   /\ exists key value,
       split param "=" = [key; value]
       /\ parse_pairs (param :: rest) acc
          = parse_pairs rest (Dict.set acc key value))
  \/ (count_char "=" param <> 1%nat
      /\ exists msg, parse_pairs (param :: rest) acc = Raise (ValueError msg)).
Proof.
  pose proof (split_length param "=") as Hl.
  cbn [parse_pairs].
  destruct (split param "=") as [|k [|v [|w l]]]; cbn [List.length] in Hl.
  - discriminate.
  - right. split; [lia | eexists; reflexivity].
  - left. split; [lia|]. exists k, v. split; reflexivity.
  - right. split; [lia | eexists; reflexivity].
Qed.

Lemma parse_pairs_ok (parts : list string) :
  forall acc,
    (exists d, parse_pairs parts acc = Ok d)
    <-> Forall (fun seg => count_char "=" seg = 1%nat) parts.
Proof.
  induction parts as [|param rest IH]; intro acc.
  - split; [constructor | intros _; eexists; reflexivity].
  - destruct (parse_pairs_cons param rest acc)
      as [[Hc [k [v [_ E]]]]|[Hc [msg E]]]; rewrite E.
    + rewrite IH. split; [intro H; constructor; assumption |].
      intro H. inversion H. assumption.
    + split; [intros [d H]; discriminate | inversion 1; contradiction].
Qed.

Lemma parse_pairs_error (parts : list string) :
  forall acc e,
    parse_pairs parts acc = Raise e -> exists msg, e = ValueError msg.
Proof.
  induction parts as [|param rest IH]; intros acc e; [discriminate|].
  destruct (parse_pairs_cons param rest acc)
    as [[Hc [k [v [_ E]]]]|[Hc [msg E]]]; rewrite E.
  - apply IH.
  - intro H. injection H as <-. eexists; reflexivity.
Qed.

Lemma append_empty (s : string) : s ++ EmptyString = s.
Proof. induction s as [|a s IH]; cbn; [reflexivity | now rewrite IH]. Qed.

Lemma append_cons (a : string) (c : ascii) (b : string) :
  (a ++ String c EmptyString) ++ b = a ++ String c b.
Proof. induction a as [|x a IH]; cbn; [reflexivity | now rewrite IH]. Qed.

(** Reading back listed pairs. *)
Lemma split_on_no_sep (sep : ascii) (s : string) :
  count_char sep s = 0%nat ->
  forall cur, split_on sep s cur = [cur ++ s].
Proof.
  induction s as [|c r IH]; cbn [count_char split_on]; intros H cur.
  - now rewrite append_empty.
  - destruct (Ascii.eqb c sep); [discriminate|].
    rewrite IH by exact H. now rewrite append_cons.
Qed.

Lemma split_on_app (sep : ascii) (a b : string) :
  count_char sep a = 0%nat ->
  forall cur,
    split_on sep (a ++ String sep b) cur = (cur ++ a) :: split_on sep b EmptyString.
Proof.
  induction a as [|c r IH]; cbn [count_char]; intros H cur.
  - cbn [append split_on]. rewrite Ascii.eqb_refl. now rewrite append_empty.
  - cbn [append split_on]. destruct (Ascii.eqb c sep); [discriminate|].
    rewrite IH by exact H. now rewrite append_cons.
Qed.

Lemma split_pair (k v : string) :
  count_char "=" k = 0%nat -> count_char "=" v = 0%nat ->
  split (k ++ "=" ++ v) "=" = [k; v].
Proof.
  intros Hk Hv. unfold split.
  change (k ++ "=" ++ v) with (k ++ String "=" v).
  rewrite split_on_app by exact Hk.
  rewrite split_on_no_sep by exact Hv. reflexivity.
Qed.

Lemma count_char_app (c : ascii) (a b : string) :
  count_char c (a ++ b) = (count_char c a + count_char c b)%nat.
Proof.
  induction a as [|x a IH]; cbn [append count_char]; [reflexivity|].
  destruct (Ascii.eqb x c); rewrite IH; reflexivity.
Qed.

Lemma split_join (segs : list string) :
  segs <> [] ->
  Forall (fun seg => count_char "&" seg = 0%nat) segs ->
  split (join "&" segs) "&" = segs.
Proof.
  induction segs as [|a r IH]; [congruence|]. intros _ H.
  inversion H as [|? ? Ha Hr]; subst.
  destruct r as [|b r'].
  - cbn [join]. unfold split. now rewrite split_on_no_sep.
  - change (join "&" (a :: b :: r')) with (a ++ String "&" (join "&" (b :: r'))).
    unfold split. rewrite split_on_app by exact Ha.
    f_equal. apply IH; [discriminate | exact Hr].
Qed.

Lemma set_fresh {V} (d : Dict.dict V) (k : string) (v : V) :
  ~ In k (map fst d) -> Dict.set d k v = (d ++ [(k, v)])%list.
Proof.
  induction d as [|[k' v'] r IH]; cbn [Dict.set map fst app]; intro H;
    [reflexivity|].
  destruct (String.eqb k k') eqn:E.
  - apply String.eqb_eq in E. subst. exfalso. apply H. now left.
  - rewrite IH; [reflexivity|]. intro Hin. apply H. now right.
Qed.

Lemma parse_pairs_listed (d : Dict.dict string) :
  forall acc,
    NoDup (map fst (acc ++ d)%list) ->
    Forall (fun kv => count_char "=" (fst kv) = 0%nat
                      /\ count_char "=" (snd kv) = 0%nat) d ->
    parse_pairs (map (fun kv => fst kv ++ "=" ++ snd kv) d) acc
    = Ok (acc ++ d)%list.
Proof.
  induction d as [|[k v] r IH]; intros acc Hnd Hall.
  - cbn. now rewrite app_nil_r.
  - inversion Hall as [|? ? [Hk Hv] Hr]; subst. cbn [fst snd] in Hk, Hv.
    cbn [map parse_pairs fst snd].
    rewrite split_pair by assumption.
    rewrite set_fresh.
    + rewrite IH; [now rewrite <- app_assoc | now rewrite <- app_assoc | exact Hr].
    + rewrite map_app in Hnd. cbn [map fst] in Hnd.
      apply NoDup_remove_2 in Hnd. intro Hin. apply Hnd.
      apply in_or_app. now left.
Qed.

End FormFacts.

(** X5.  The answer of a request-token or access-token request is read
    successfully exactly when every [&]-separated segment of the body holds
    exactly one [=]; any other body, the empty one included, raises
    [ValueError]. *)
Theorem parse_response_succeeds_iff (body : string) :
  ((exists d, TwitterOAuth1Handler.parse_response body = Ok d)
   <-> Forall (fun seg => Statements.count_char "=" seg = 1%nat)
              (PyStr.split body "&"))
  /\ (forall e, TwitterOAuth1Handler.parse_response body = Raise e ->
                exists msg, e = ValueError msg)
  /\ (exists msg,
         TwitterOAuth1Handler.parse_response EmptyString = Raise (ValueError msg)).
Proof.
  unfold TwitterOAuth1Handler.parse_response. split; [|split].
  - apply FormFacts.parse_pairs_ok.
  - apply FormFacts.parse_pairs_error.
  - eexists. reflexivity.
Qed.

(** X6.  A body that lists pairs [name=value] with distinct names, joined by
    [&], is read back as exactly those pairs in their order, when no name or
    value holds [&] or [=]. *)
Theorem parse_response_reads_back_pairs (d : Dict.dict string) :
  d <> [] ->
  NoDup (map fst d) ->
  Forall (fun kv =>
            Statements.count_char "=" (fst kv) = 0%nat
            /\ Statements.count_char "=" (snd kv) = 0%nat
            /\ Statements.count_char "&" (fst kv) = 0%nat
            /\ Statements.count_char "&" (snd kv) = 0%nat) d ->
  TwitterOAuth1Handler.parse_response
    (PyStr.join "&" (map (fun kv => fst kv ++ "=" ++ snd kv) d))
  = Ok d.
Proof.
  intros Hne Hnd Hall.
  unfold TwitterOAuth1Handler.parse_response.
  rewrite FormFacts.split_join.
  - apply (FormFacts.parse_pairs_listed d []); [exact Hnd|].
    eapply Forall_impl; [|exact Hall]. cbn. tauto.
  - destruct d; [congruence | discriminate].
  - apply Forall_map. eapply Forall_impl; [|exact Hall].
    intros [k v] [_ [_ [Hk Hv]]]. cbn [fst snd] in *.
    rewrite !FormFacts.count_char_app, Hk, Hv. reflexivity.
Qed.

(** X6, witness: the answer of a request-token request. *)
Lemma parse_response_reads_back_pairs_witness :
  TwitterOAuth1Handler.parse_response
    "oauth_token=rt1&oauth_token_secret=rs1&oauth_callback_confirmed=true"
  = Ok [("oauth_token", "rt1"); ("oauth_token_secret", "rs1");
        ("oauth_callback_confirmed", "true")].
Proof.
  apply (parse_response_reads_back_pairs
           [("oauth_token", "rt1"); ("oauth_token_secret", "rs1");
            ("oauth_callback_confirmed", "true")]).
  - discriminate.
  - repeat constructor; cbn; intuition discriminate.
  - repeat constructor.
Defined.

(** * The Twitter wrapper kept alive ([TwitterOAuthHandler]) *)

(** X7.  A wrapper that has run [initiate_oauth_flow] for a state holds the
    request token under that state, the URL it returned carries that token,
    and on this wrapper an exchange with any other [oauth_token] is refused
    with "OAuth token mismatch". *)
Theorem wrapper_keeps_request_token
        (h h1 : TwitterOAuthHandler.t) (env : Env) (s url : string) :
  TwitterOAuthHandler.initiate_oauth_flow h env s = Ok (h1, url) ->
  exists rt,
    Dict.get (TwitterOAuthHandler._request_tokens h1) s = Some rt
    /\ url = TwitterOAuth1Handler.authorize_url ++ "?oauth_token="
               ++ UrlEncode.quote_plus (TwitterOAuthHandler.oauth_token rt)
    /\ forall env' oauth_token oauth_verifier,
        oauth_token <> Some (TwitterOAuthHandler.oauth_token rt) ->
        TwitterOAuthHandler.exchange_code_for_tokens h1 env' oauth_token
                                                     oauth_verifier s
        = Raise (Exception "OAuth token mismatch").
Proof.
  unfold TwitterOAuthHandler.initiate_oauth_flow.
  destruct (TwitterOAuth1Handler.get_request_token
              (TwitterOAuthHandler.handler h) env 0) as [data|e];
    cbn [bind]; [|discriminate].
  destruct (Dict.item data "oauth_token") as [tok|e]; cbn [bind]; [|discriminate].
  destruct (Dict.item data "oauth_token_secret") as [sec|e]; cbn [bind];
    [|discriminate].
  intro H. injection H as <- <-.
  exists {| TwitterOAuthHandler.oauth_token := tok;
            TwitterOAuthHandler.oauth_token_secret := sec |}.
  cbn [TwitterOAuthHandler._request_tokens TwitterOAuthHandler.oauth_token].
  split; [apply DictFacts.get_set_same|]. split; [reflexivity|].
  intros env' ot ov Hne.
  unfold TwitterOAuthHandler.exchange_code_for_tokens.
  cbn [TwitterOAuthHandler._request_tokens].
  rewrite DictFacts.get_set_same.
  cbn [TwitterOAuthHandler.oauth_token].
  destruct ot as [t|]; cbn [TwitterOAuthHandler.option_string_eqb negb];
    [|reflexivity].
  destruct (String.eqb tok t) eqn:E; [|reflexivity].
  apply String.eqb_eq in E. subst. contradiction.
Qed.

(** X7, witness: the request-token round trip of [Scenario]. *)
Lemma wrapper_keeps_request_token_witness :
  exists rt,
    Dict.get (TwitterOAuthHandler._request_tokens Scenario.wrapper_initiated) "s1"
    = Some rt
    /\ "https://api.x.com/oauth/authenticate?oauth_token=rt1"
       = TwitterOAuth1Handler.authorize_url ++ "?oauth_token="
           ++ UrlEncode.quote_plus (TwitterOAuthHandler.oauth_token rt)
    /\ forall env' oauth_token oauth_verifier,
        oauth_token <> Some (TwitterOAuthHandler.oauth_token rt) ->
        TwitterOAuthHandler.exchange_code_for_tokens Scenario.wrapper_initiated
          env' oauth_token oauth_verifier "s1"
        = Raise (Exception "OAuth token mismatch").
Proof.
  apply (wrapper_keeps_request_token
           (TwitterOAuthHandler.init Scenario.cfg "https://app/cb")
           Scenario.wrapper_initiated
           (Scenario.world 0 "s1" "id1" "acc"
              "oauth_token=rt1&oauth_token_secret=rs1&oauth_callback_confirmed=true"
              "m1")
           "s1" "https://api.x.com/oauth/authenticate?oauth_token=rt1").
  vm_compute. reflexivity.
Defined.

(** X8.  On one wrapper a request token is used once: after an exchange
    that succeeded, every further exchange for the same state is refused
    with "Invalid state or expired request token".  The tokens it returned
    are OAuth 1.0a tokens: a token secret, no refresh token, no expiry. *)
Theorem wrapper_exchange_is_single_use
        (h1 h2 : TwitterOAuthHandler.t) (env : Env)
        (oauth_token oauth_verifier : option string) (s : string)
        (tokens : OAuthTokens.t) :
  TwitterOAuthHandler.exchange_code_for_tokens h1 env oauth_token oauth_verifier s
  = Ok (h2, tokens) ->
  (forall env' oauth_token' oauth_verifier',
      TwitterOAuthHandler.exchange_code_for_tokens h2 env' oauth_token'
                                                   oauth_verifier' s
      = Raise (Exception "Invalid state or expired request token"))
  /\ OAuthTokens.refresh_token tokens = None
  /\ OAuthTokens.expires_at tokens = None
  /\ OAuthTokens.token_type tokens = "oauth1"
  /\ exists secret, OAuthTokens.oauth_token_secret tokens = Some secret.
Proof.
  unfold TwitterOAuthHandler.exchange_code_for_tokens at 1.
  destruct (Dict.get (TwitterOAuthHandler._request_tokens h1) s) as [rt|];
    [|discriminate].
  destruct (negb _); [discriminate|].
  destruct (TwitterOAuth1Handler.get_access_token _ _ _ _ _ _) as [data|e];
    cbn [bind]; [|discriminate].
  destruct (Dict.item data "oauth_token") as [tok|e]; cbn [bind]; [|discriminate].
  destruct (Dict.item data "oauth_token_secret") as [sec|e]; cbn [bind];
    [|discriminate].
  intro H. injection H as <- <-.
  split; [|cbn; repeat split; eauto].
  intros env' ot' ov'.
  unfold TwitterOAuthHandler.exchange_code_for_tokens.
  cbn [TwitterOAuthHandler._request_tokens].
  now rewrite DictFacts.get_del_same.
Qed.

(** X8, witness: the access-token round trip of [Scenario]. *)
Lemma wrapper_exchange_is_single_use_witness :
  (forall env' oauth_token' oauth_verifier',
      TwitterOAuthHandler.exchange_code_for_tokens Scenario.wrapper_exchanged
        env' oauth_token' oauth_verifier' "s1"
      = Raise (Exception "Invalid state or expired request token"))
  /\ OAuthTokens.refresh_token Scenario.twitter_tokens = None
  /\ OAuthTokens.expires_at Scenario.twitter_tokens = None
  /\ OAuthTokens.token_type Scenario.twitter_tokens = "oauth1"
  /\ exists secret,
      OAuthTokens.oauth_token_secret Scenario.twitter_tokens = Some secret.
Proof.
  apply (wrapper_exchange_is_single_use Scenario.wrapper_initiated
           Scenario.wrapper_exchanged
           (Scenario.world 60 "s9" "id1" "acc"
              "oauth_token=at&oauth_token_secret=as" "m1")
           (Some "rt1") (Some "verifier") "s1" Scenario.twitter_tokens).
  vm_compute. reflexivity.
Defined.

(** * More of the connection service *)

Module CompletionFacts.
Import PlatformConnectionService Statements DictFacts ServiceFacts TableFacts.

Lemma handler_of_platform (env : Env) (p r : string) (handler : Handler) :
  _get_oauth_handler env p r = Ok handler ->
  match handler with
  | Twitter _ => p = "twitter"
  | OAuth2 _ => oauth2_platform p
  end.
Proof.
  unfold _get_oauth_handler, oauth_handlers, oauth2_platform. cbn [Dict.get].
  destruct (String.eqb p "twitter") eqn:E1.
  { intro H. injection H as <-. now apply String.eqb_eq. }
  destruct (String.eqb p "linkedin") eqn:E2.
  { intro H. injection H as <-. left. now apply String.eqb_eq. }
  destruct (String.eqb p "facebook") eqn:E3.
  { intro H. injection H as <-. right. left. now apply String.eqb_eq. }
  destruct (String.eqb p "instagram") eqn:E4.
  { intro H. injection H as <-. right. right. now apply String.eqb_eq. }
  discriminate.
Qed.

Lemma oauth2_platform_not_twitter (p : string) :
  oauth2_platform p -> String.eqb p "twitter" = false.
Proof. intros [-> | [-> | ->]]; reflexivity. Qed.

(** What [parse_token_response] makes of the provider's answer. *)
Lemma parse_token_response_ok (env : Env) (td : TokenData)
      (tokens : OAuthTokens.t) :
  BaseOAuthHandler.parse_token_response env td = Ok tokens ->
  td_access_token td = Some (OAuthTokens.access_token tokens)
  /\ OAuthTokens.refresh_token tokens = td_refresh_token td
  /\ OAuthTokens.oauth_token_secret tokens = None.
Proof.
  unfold BaseOAuthHandler.parse_token_response.
  destruct (td_expires_in td) as [seconds|];
    [destruct (BaseOAuthHandler.datetime_add (utcnow env) seconds) as [t|e]|];
    cbn [bind]; try discriminate;
    (destruct (td_access_token td) as [token|]; [|discriminate]);
    intro H; injection H as <-; cbn; auto.
Qed.

Lemma oauth2_exchange_ok (h : BaseOAuthHandler.t) (env : Env)
      (code : option string) (s : string) (tokens : OAuthTokens.t) :
  BaseOAuthHandler.exchange_code_for_tokens h env code s = Ok tokens ->
  from_provider env tokens.
Proof.
  unfold BaseOAuthHandler.exchange_code_for_tokens, from_provider. cbv zeta.
  destruct (negb _); [discriminate|].
  intro H. apply parse_token_response_ok in H.
  destruct H as [Ha [Hr Hs]].
  eexists _, _, _. repeat split; eassumption.
Qed.

Lemma oauth2_refresh_ok (h : BaseOAuthHandler.t) (env : Env)
      (rt : string) (tokens : OAuthTokens.t) :
  BaseOAuthHandler.refresh_access_token h env rt = Ok tokens ->
  from_provider env tokens.
Proof.
  unfold BaseOAuthHandler.refresh_access_token, from_provider. cbv zeta.
  destruct (Bytes.is_empty rt); [discriminate|].
  destruct (negb _); [discriminate|].
  intro H. apply parse_token_response_ok in H.
  destruct H as [Ha [Hr Hs]].
  eexists _, _, _. repeat split; eassumption.
Qed.

(** A block of [complete_oauth] that ends well ran an OAuth 2.0 handler. *)
Lemma exchange_and_fetch_ok (env : Env) (p r : string)
      (code oauth_token oauth_verifier : option string) (s : string)
      (tokens : OAuthTokens.t) (profile : UserProfile.t) :
  (handler <- _get_oauth_handler env p r ;;
   exchange_and_fetch_profile env handler p code oauth_token oauth_verifier s)
  = Ok (tokens, profile) ->
  oauth2_platform p /\ from_provider env tokens.
Proof.
  pose proof (exchange_outcome env p r code oauth_token oauth_verifier s) as Ho.
  destruct (_get_oauth_handler env p r) as [[h|h]|e] eqn:Eh; cbn [bind] in *;
    [| |discriminate].
  - intro H. rewrite H in Ho. apply handler_of_platform in Eh. contradiction.
  - clear Ho. pose proof (handler_of_platform _ _ _ _ Eh) as Hp. cbn in Hp.
    unfold exchange_and_fetch_profile.
    rewrite (oauth2_platform_not_twitter p Hp).
    destruct (BaseOAuthHandler.exchange_code_for_tokens h env code s)
      as [t|e] eqn:Ex; cbn [bind]; [|discriminate].
    destruct (BaseOAuthHandler.get_user_profile h env _) as [pr|e];
      cbn [bind]; [|discriminate].
    intro H. injection H as <- <-.
    split; [exact Hp | now apply (oauth2_exchange_ok h env code s)].
Qed.

Section WithTokenEncryption.
Context {F : FernetLib}.
Variable te : TokenEncryption.t.

Lemma with_new_tokens_written (env : Env) (tokens : OAuthTokens.t)
      (c : PlatformConnection.t) :
  tokens_written te env tokens (with_new_tokens te env tokens c).
Proof. unfold tokens_written. cbn. repeat split. Qed.

(** The anatomy of a completion that returns a connection. *)
Lemma after_state_check_ok (self self' : t) (env : Env) (db db' : database)
      (code oauth_token oauth_verifier : option string)
      (s : string) (data : StateData) (c : PlatformConnection.t) :
  after_state_check te self env db code oauth_token oauth_verifier s data
  = (self', db', Ok c) ->
  exists tokens,
    oauth2_platform (sd_platform data)
    /\ from_provider env tokens
    /\ active_states self' = Dict.del (active_states self) s
    /\ PlatformConnection.user_id c = sd_user_id data
    /\ PlatformConnection.platform c = sd_platform data
    /\ tokens_written te env tokens c
    /\ ((exists existing,
            filter (same_triple (sd_user_id data) (sd_platform data)
                                (PlatformConnection.platform_user_id c)) db
            = [existing]
            /\ c = with_new_tokens te env tokens existing
            /\ db' = map (fun r =>
                            if String.eqb (PlatformConnection.id r)
                                          (PlatformConnection.id existing)
                            then with_new_tokens te env tokens r else r) db)
        \/ (filter (same_triple (sd_user_id data) (sd_platform data)
                                (PlatformConnection.platform_user_id c)) db = []
            /\ PlatformConnection.id c = uuid4 env
            /\ PlatformConnection.created_at c = utcnow env
            /\ db' = (db ++ [c])%list)).
Proof.
  unfold after_state_check.
  destruct (handler <- _get_oauth_handler env (sd_platform data)
                         (sd_redirect_uri data) ;;
            exchange_and_fetch_profile env handler (sd_platform data) code
              oauth_token oauth_verifier s) as [[tokens profile]|e] eqn:Ex;
    [|discriminate].
  apply exchange_and_fetch_ok in Ex. destruct Ex as [Hp Hfrom].
  destruct (_get_existing_connection db (sd_user_id data) (sd_platform data)
              (UserProfile.platform_user_id profile)) as [[existing|]|e] eqn:Eg;
    [| |discriminate].
  - unfold _get_existing_connection in Eg.
    apply scalar_one_or_none_some in Eg.
    assert (In existing (filter (same_triple (sd_user_id data) (sd_platform data)
                                   (UserProfile.platform_user_id profile)) db))
      as Hin by (rewrite Eg; left; reflexivity).
    apply filter_In in Hin. destruct Hin as [_ Hst].
    apply same_triple_true in Hst. destruct Hst as [Hu [Hpl Hq]].
    unfold _update_connection_tokens.
    intro H. injection H as <- <- <-.
    exists tokens.
    split; [exact Hp|]. split; [exact Hfrom|]. split; [reflexivity|].
    split; [exact Hu|]. split; [exact Hpl|].
    split; [apply with_new_tokens_written|].
    left. exists existing.
    cbn [with_new_tokens PlatformConnection.platform_user_id].
    rewrite Hq. auto.
  - unfold _get_existing_connection in Eg.
    apply scalar_one_or_none_none in Eg.
    unfold _create_new_connection.
    destruct (existsb _ db); [discriminate|].
    intro H. injection H as <- <- <-.
    exists tokens.
    split; [exact Hp|]. split; [exact Hfrom|]. split; [reflexivity|].
    split; [reflexivity|]. split; [reflexivity|].
    split; [unfold tokens_written; cbn; repeat split|].
    right. cbn [PlatformConnection.platform_user_id PlatformConnection.id
                  PlatformConnection.created_at].
    auto.
Qed.

Lemma complete_oauth_ok (self self' : t) (env : Env) (db db' : database)
      (code state oauth_token oauth_verifier : option string)
      (c : PlatformConnection.t) :
  complete_oauth te self env db code state oauth_token oauth_verifier
  = (self', db', Ok c) ->
  exists s data code',
    Dict.get (active_states self) s = Some data
    /\ (truthy oauth_token && truthy oauth_verifier = false -> state = Some s)
    /\ after_state_check te self env db code' oauth_token oauth_verifier s data
       = (self', db', Ok c).
Proof.
  destruct (truthy oauth_token && truthy oauth_verifier) eqn:E.
  - rewrite complete_by_oauth_token by exact E.
    destruct (first_twitter_state (active_states self)) as [s|]; [|discriminate].
    destruct (Bytes.is_empty s); [discriminate|].
    destruct (Dict.get (active_states self) s) as [data|] eqn:Eg; [|discriminate].
    intro H. exists s, data, oauth_verifier. split; [exact Eg|].
    split; [discriminate | exact H].
  - destruct state as [s|].
    + rewrite complete_by_state by exact E.
      destruct (Dict.get (active_states self) s) as [data|] eqn:Eg;
        [|discriminate].
      intro H. exists s, data, code. auto.
    + unfold complete_oauth. rewrite E. discriminate.
Qed.

End WithTokenEncryption.
End CompletionFacts.

Module RefreshFacts.
Import PlatformConnectionService Statements DictFacts ServiceFacts TableFacts
       CompletionFacts.

Lemma Forall_map_if {A} (P : A -> Prop) (b : A -> bool) (g : A -> A)
      (l : list A) :
  (forall a, P a -> P (g a)) -> Forall P l ->
  Forall P (map (fun a => if b a then g a else a) l).
Proof.
  intros Hg H. induction H as [|a r Ha Hr IH]; cbn [map]; constructor.
  - destruct (b a); [now apply Hg | exact Ha].
  - exact IH.
Qed.

Lemma In_map_if {A} (b : A -> bool) (g : A -> A) (l : list A) (a : A) :
  In a l -> b a = false -> In a (map (fun a => if b a then g a else a) l).
Proof.
  intros Hin Hb. apply in_map_iff. exists a. rewrite Hb. auto.
Qed.

Lemma filter_id_map_if (cid : string) (g : PlatformConnection.t -> PlatformConnection.t)
      (b : PlatformConnection.t -> bool) (l : database) :
  (forall r, PlatformConnection.id (g r) = PlatformConnection.id r) ->
  filter (fun r => String.eqb (PlatformConnection.id r) cid)
         (map (fun r => if b r then g r else r) l)
  = map (fun r => if b r then g r else r)
        (filter (fun r => String.eqb (PlatformConnection.id r) cid) l).
Proof.
  intro Hg. apply filter_map_same. intro r.
  destruct (b r); [now rewrite Hg | reflexivity].
Qed.

Section WithTokenEncryption.
Context {F : FernetLib}.
Variable te : TokenEncryption.t.

Lemma with_new_tokens_service_row (env : Env) (tokens : OAuthTokens.t)
      (c : PlatformConnection.t) :
  from_provider env tokens ->
  oauth2_platform (PlatformConnection.platform c) ->
  service_row (with_new_tokens te env tokens c).
Proof.
  intros [url [data [headers [_ [_ Hs]]]]] Hp. unfold service_row.
  cbn [with_new_tokens PlatformConnection.platform
         PlatformConnection.oauth_token_secret PlatformConnection.is_active].
  rewrite Hs. auto.
Qed.

(** A completion that raises leaves the table as it was. *)
Lemma after_state_check_raise (self self' : t) (env : Env) (db db' : database)
      (code oauth_token oauth_verifier : option string)
      (s : string) (data : StateData) (e : exn) :
  after_state_check te self env db code oauth_token oauth_verifier s data
  = (self', db', Raise e) -> db' = db.
Proof.
  unfold after_state_check.
  destruct (handler <- _get_oauth_handler env (sd_platform data)
                         (sd_redirect_uri data) ;;
            exchange_and_fetch_profile env handler (sd_platform data) code
              oauth_token oauth_verifier s) as [[tokens profile]|e0].
  - destruct (_get_existing_connection db (sd_user_id data) (sd_platform data)
                (UserProfile.platform_user_id profile)) as [[existing|]|e1].
    + unfold _update_connection_tokens. discriminate.
    + unfold _create_new_connection.
      destruct (existsb _ db); [|discriminate].
      intro H. now injection H as _ <- _.
    + intro H. now injection H as _ <- _.
  - intro H. now injection H as _ <- _.
Qed.

Lemma complete_oauth_raise (self self' : t) (env : Env) (db db' : database)
      (code state oauth_token oauth_verifier : option string) (e : exn) :
  complete_oauth te self env db code state oauth_token oauth_verifier
  = (self', db', Raise e) -> db' = db.
Proof.
  destruct (truthy oauth_token && truthy oauth_verifier) eqn:E.
  - rewrite complete_by_oauth_token by exact E.
    destruct (first_twitter_state (active_states self)) as [s|];
      [|intro H; now injection H as _ <- _].
    destruct (Bytes.is_empty s); [intro H; now injection H as _ <- _|].
    destruct (Dict.get (active_states self) s) as [data|];
      [|intro H; now injection H as _ <- _].
    apply after_state_check_raise.
  - destruct state as [s|].
    + rewrite complete_by_state by exact E.
      destruct (Dict.get (active_states self) s) as [data|];
        [|intro H; now injection H as _ <- _].
      apply after_state_check_raise.
    + unfold complete_oauth. rewrite E. intro H. now injection H as _ <- _.
Qed.

(** A refresh that raises leaves the table as it was. *)
Lemma refresh_raise (self : t) (env : Env) (db db' : database) (cid : string)
      (e : exn) :
  refresh_connection_token te self env db cid = (db', Raise e) -> db' = db.
Proof.
  unfold refresh_connection_token.
  destruct (scalar_one_or_none _) as [[c0|]|e0];
    [| intro H; now injection H as <- _ ..].
  destruct (negb (truthy (PlatformConnection.refresh_token c0)));
    [intro H; now injection H as <- _|].
  destruct (TokenEncryption.decrypt_token te _) as [rt|e1];
    [|intro H; now injection H as <- _].
  destruct (handler <- _get_oauth_handler env (PlatformConnection.platform c0) _ ;;
            handler_refresh_access_token handler env rt) as [tokens|e2];
    [|intro H; now injection H as <- _].
  unfold _update_connection_tokens. discriminate.
Qed.

(** The anatomy of a refresh that returns a connection. *)
Lemma refresh_ok (self : t) (env : Env) (db db' : database) (cid : string)
      (c : PlatformConnection.t) :
  refresh_connection_token te self env db cid = (db', Ok c) ->
  exists c0 tokens,
    filter (fun r => String.eqb (PlatformConnection.id r) cid) db = [c0]
    /\ oauth2_platform (PlatformConnection.platform c0)
    /\ from_provider env tokens
    /\ c = with_new_tokens te env tokens c0
    /\ db' = map (fun r =>
                    if String.eqb (PlatformConnection.id r)
                                  (PlatformConnection.id c0)
                    then with_new_tokens te env tokens r else r) db.
Proof.
  unfold refresh_connection_token.
  destruct (scalar_one_or_none _) as [[c0|]|e0] eqn:Es; [|discriminate ..].
  apply scalar_one_or_none_some in Es.
  destruct (negb (truthy (PlatformConnection.refresh_token c0)));
    [discriminate|].
  destruct (TokenEncryption.decrypt_token te _) as [rt|e1]; [|discriminate].
  destruct (_get_oauth_handler env (PlatformConnection.platform c0) _)
    as [[h|h]|e2] eqn:Eh; cbn [bind handler_refresh_access_token];
    [discriminate| |discriminate].
  apply handler_of_platform in Eh.
  destruct (BaseOAuthHandler.refresh_access_token h env rt) as [tokens|e3] eqn:Er;
    [|discriminate].
  apply oauth2_refresh_ok in Er.
  unfold _update_connection_tokens. intro H. injection H as <- <-.
  exists c0, tokens. auto.
Qed.

Lemma filter_id_single (db : database) (cid : string) (c0 : PlatformConnection.t) :
  filter (fun r => String.eqb (PlatformConnection.id r) cid) db = [c0] ->
  In c0 db /\ PlatformConnection.id c0 = cid.
Proof.
  intro H.
  assert (In c0 (filter (fun r => String.eqb (PlatformConnection.id r) cid) db))
    as Hin by (rewrite H; left; reflexivity).
  apply filter_In in Hin. destruct Hin as [Hin E].
  split; [exact Hin | now apply String.eqb_eq].
Qed.

(** Every call keeps the rows of the table rows of the service. *)
Lemma step_service_rows (st : t * database) (c : Driver.call) :
  Forall service_row (snd st) ->
  Forall service_row (snd (Driver.step te st c)).
Proof.
  destruct st as [self db]. cbn [snd]. intro H.
  destruct c as [env p u r | env code state ot ov | env cid | cid uid];
    cbn [Driver.step snd].
  - exact H.
  - destruct (complete_oauth te self env db code state ot ov)
      as [[self' db'] [c|e]] eqn:Ec; cbn [fst snd].
    + apply complete_oauth_ok in Ec. destruct Ec as [s [data [code' [_ [_ Ec]]]]].
      apply after_state_check_ok in Ec.
      destruct Ec as [tokens [Hp [Hfrom [_ [_ [Hpl [Hw Hcase]]]]]]].
      destruct Hcase as [[existing [_ [_ ->]]] | [_ [_ [_ ->]]]].
      * apply Forall_map_if; [|exact H].
        intros a [Ha _]. now apply with_new_tokens_service_row.
      * apply Forall_app. split; [exact H|]. constructor; [|constructor].
        destruct Hw as [_ [_ [Hsec [_ [Hact _]]]]].
        destruct Hfrom as [url [data0 [headers [_ [_ Hs]]]]].
        unfold service_row. rewrite Hpl, Hsec, Hs, Hact. auto.
    + apply complete_oauth_raise in Ec. now subst db'.
  - destruct (refresh_connection_token te self env db cid) as [db' [c|e]] eqn:Er;
      cbn [fst].
    + apply refresh_ok in Er.
      destruct Er as [c0 [tokens [_ [_ [Hfrom [_ ->]]]]]].
      apply Forall_map_if; [|exact H].
      intros a [Ha _]. now apply with_new_tokens_service_row.
    + apply refresh_raise in Er. now subst db'.
  - rewrite disconnect_closed. exact H.
Qed.

Lemma run_service_rows (calls : list Driver.call) (st : t * database) :
  Forall service_row (snd st) ->
  Forall service_row (snd (Driver.run te calls st)).
Proof.
  revert st. induction calls as [|c r IH]; intros st H; [exact H|].
  cbn [Driver.run fold_left]. apply IH. now apply step_service_rows.
Qed.

(** What is encrypted by the service decrypts to what was encrypted. *)
Lemma decrypt_encrypted (now : Z) (iv x : string) :
  Utf8.valid x = true ->
  TokenEncryption.decrypt_token te (TokenEncryption.encrypt_token te now iv x)
  = Ok x.
Proof.
  intro Hx. unfold TokenEncryption.encrypt_token.
  destruct (Bytes.is_empty x) eqn:Ex.
  - apply TokenEncryptionFacts.is_empty_true in Ex. subst x. reflexivity.
  - unfold TokenEncryption.decrypt_token.
    rewrite Base64Facts.urlsafe_b64encode_nonempty
      by apply fernet_token_nonempty.
    unfold TokenEncryption.decrypt_attempt.
    rewrite Base64Facts.urlsafe_b64_round_trip. cbn [bind].
    rewrite fernet_round_trip. cbn [bind].
    unfold Utf8.decode. rewrite Hx. reflexivity.
Qed.

Lemma decrypt_encrypt_optional (env : Env) (n : nat) (x : option string) :
  Utf8.valid (get_or x "") = true ->
  TokenEncryption.decrypt_token te (get_or (encrypt_optional te env n x) "")
  = Ok (get_or x "").
Proof.
  intro Hx. unfold encrypt_optional.
  destruct x as [s|]; cbn [truthy get_or]; [|reflexivity].
  destruct (Bytes.is_empty s) eqn:Es; cbn [negb get_or].
  - apply TokenEncryptionFacts.is_empty_true in Es. subst s. reflexivity.
  - apply decrypt_encrypted. exact Hx.
Qed.

(** The tokens a connection was written from can be read back from it. *)
Lemma tokens_written_read_back (env : Env) (tokens : OAuthTokens.t)
      (c : PlatformConnection.t) :
  text_answers env -> from_provider env tokens -> tokens_written te env tokens c ->
  exists url data headers a,
    td_access_token (json_token (http_post env url data headers)) = Some a
    /\ TokenEncryption.decrypt_token te (PlatformConnection.access_token c) = Ok a
    /\ TokenEncryption.decrypt_token te
         (get_or (PlatformConnection.refresh_token c) "")
       = Ok (get_or (td_refresh_token
                       (json_token (http_post env url data headers))) "").
Proof.
  intros Htext [url [data [headers [Ha [Hr _]]]]] [Hwa [Hwr _]].
  exists url, data, headers, (OAuthTokens.access_token tokens).
  destruct (Htext url data headers) as [Hva Hvr].
  rewrite Ha in Hva. cbn [get_or] in Hva.
  split; [exact Ha|]. split.
  - rewrite Hwa. now apply decrypt_encrypted.
  - rewrite Hwr, Hr. now apply decrypt_encrypt_optional.
Qed.


End WithTokenEncryption.
End RefreshFacts.


(** * The table under the calls of the service *)

(** X9.  Whatever calls are made on an empty table, every row of the table
    is a row of LinkedIn, Facebook or Instagram, has no OAuth 1.0a secret
    and is active: the service stores no Twitter connection, and nothing it
    does deactivates a row. *)
Theorem service_stores_only_active_oauth2_rows
        (F : FernetLib) (te : TokenEncryption.t)
        (calls : list Driver.call) (self : PlatformConnectionService.t) :
  Forall Statements.service_row (snd (Driver.run te calls (self, []))).
Proof. apply RefreshFacts.run_service_rows. constructor. Qed.

(** X10.  A connection is returned only to a callback that names a pending
    state: the connection has the user and the platform recorded under that
    state, and the state is no longer pending afterwards. *)
Theorem completed_connection_is_of_the_pending_state
        (F : FernetLib) (te : TokenEncryption.t)
        (self self' : PlatformConnectionService.t) (env : Env)
        (db db' : database)
        (code state oauth_token oauth_verifier : option string)
        (c : PlatformConnection.t) :
  Statements.wf (PlatformConnectionService.active_states self) ->
  PlatformConnectionService.complete_oauth te self env db code state oauth_token
                                           oauth_verifier
  = (self', db', Ok c) ->
  exists s data,
    state = Some s
    /\ Dict.get (PlatformConnectionService.active_states self) s = Some data
    /\ PlatformConnection.user_id c = PlatformConnectionService.sd_user_id data
    /\ PlatformConnection.platform c = PlatformConnectionService.sd_platform data
    /\ Dict.get (PlatformConnectionService.active_states self') s = None.
Proof.
  intros Hwf H.
  destruct (truthy oauth_token && truthy oauth_verifier) eqn:E.
  - exfalso. rewrite ServiceFacts.complete_by_oauth_token in H by exact E.
    destruct (PlatformConnectionService.first_twitter_state
                (PlatformConnectionService.active_states self)) as [s|] eqn:Ef;
      [|discriminate].
    destruct (Bytes.is_empty s); [discriminate|].
    destruct (ServiceFacts.first_twitter_state_get _ _ Hwf Ef) as [data [Hg Hp]].
    rewrite Hg in H.
    rewrite (ServiceFacts.after_state_check_twitter te) in H by exact Hp.
    discriminate.
  - destruct state as [s|].
    + rewrite ServiceFacts.complete_by_state in H by exact E.
      destruct (Dict.get (PlatformConnectionService.active_states self) s)
        as [data|] eqn:Eg; [|discriminate].
      apply CompletionFacts.after_state_check_ok in H.
      destruct H as [tokens [_ [_ [Hs [Hu [Hp _]]]]]].
      exists s, data. repeat (split; [assumption || reflexivity|]).
      rewrite Hs. apply DictFacts.get_del_same.
    + unfold PlatformConnectionService.complete_oauth in H. rewrite E in H.
      discriminate.
Qed.

(** X10, witness: the LinkedIn callback of [Scenario]. *)
Lemma completed_connection_is_of_the_pending_state_witness :
  exists s data,
    Some "s1" = Some s
    /\ Dict.get (PlatformConnectionService.active_states
                   Scenario.one_linkedin_pending) s = Some data
    /\ PlatformConnection.user_id Scenario.linkedin_connection
       = PlatformConnectionService.sd_user_id data
    /\ PlatformConnection.platform Scenario.linkedin_connection
       = PlatformConnectionService.sd_platform data
    /\ Dict.get (PlatformConnectionService.active_states
                   PlatformConnectionService.init) s = None.
Proof.
  apply (completed_connection_is_of_the_pending_state tagged_cipher
           Scenario.cipher Scenario.one_linkedin_pending
           PlatformConnectionService.init
           (Scenario.world 60 "s9" "id1" "acc1" "" "m1")
           [] [Scenario.linkedin_connection]
           (Some "code1") (Some "s1") None None Scenario.linkedin_connection).
  - unfold Statements.wf. cbn. constructor; [intros [] | constructor].
  - vm_compute. reflexivity.
Defined.

(** X11.  A callback that fails leaves the table as it was.  One that
    returns a connection leaves that connection in the table, deletes no
    row, adds at most one, and keeps every row whose id is not the
    connection's as it was. *)
Theorem complete_oauth_touches_one_connection
        (F : FernetLib) (te : TokenEncryption.t)
        (self : PlatformConnectionService.t) (env : Env) (db : database)
        (code state oauth_token oauth_verifier : option string) :
  match
    PlatformConnectionService.complete_oauth te self env db code state
                                             oauth_token oauth_verifier
  with
  | (_, db', Raise _) => db' = db
  | (_, db', Ok c) =>
      In c db'
      /\ (List.length db <= List.length db' <= S (List.length db))%nat
      /\ forall r, In r db ->
                   PlatformConnection.id r <> PlatformConnection.id c ->
                   In r db'
  end.
Proof.
  destruct (PlatformConnectionService.complete_oauth te self env db code state
              oauth_token oauth_verifier) as [[self' db'] [c|e]] eqn:Ec.
  - apply CompletionFacts.complete_oauth_ok in Ec.
    destruct Ec as [s [data [code' [_ [_ Ec]]]]].
    apply CompletionFacts.after_state_check_ok in Ec.
    destruct Ec as [tokens [_ [_ [_ [_ [_ [_ Hcase]]]]]]].
    destruct Hcase as [[existing [Hf [-> ->]]] | [_ [_ [_ ->]]]].
    + assert (In existing db) as Hin.
      { assert (In existing
                   (filter (PlatformConnectionService.same_triple
                              (PlatformConnectionService.sd_user_id data)
                              (PlatformConnectionService.sd_platform data)
                              (PlatformConnection.platform_user_id
                                 (PlatformConnectionService.with_new_tokens
                                    te env tokens existing))) db)) as Hin
            by (rewrite Hf; left; reflexivity).
        apply filter_In in Hin. apply Hin. }
      split; [|split].
      * apply in_map_iff. exists existing. rewrite String.eqb_refl. auto.
      * rewrite length_map. lia.
      * intros r Hr Hne. apply RefreshFacts.In_map_if; [exact Hr|].
        apply String.eqb_neq. exact Hne.
    + split; [|split].
      * apply in_or_app. right. left. reflexivity.
      * rewrite length_app. cbn [List.length]. lia.
      * intros r Hr _. apply in_or_app. now left.
  - now apply RefreshFacts.complete_oauth_raise in Ec.
Qed.

(** X12.  When the provider's tokens are texts, the tokens stored in a
    connection that a callback returns decrypt to the very tokens of an
    answer of the provider: the access token, and the refresh token (the
    empty string standing for none). *)
Theorem completed_connection_decrypts_to_provider_tokens
        (F : FernetLib) (te : TokenEncryption.t)
        (self self' : PlatformConnectionService.t) (env : Env)
        (db db' : database)
        (code state oauth_token oauth_verifier : option string)
        (c : PlatformConnection.t) :
  Statements.text_answers env ->
  PlatformConnectionService.complete_oauth te self env db code state oauth_token
                                           oauth_verifier
  = (self', db', Ok c) ->
  exists url data headers a,
    td_access_token (json_token (http_post env url data headers)) = Some a
    /\ TokenEncryption.decrypt_token te (PlatformConnection.access_token c) = Ok a
    /\ TokenEncryption.decrypt_token te
         (get_or (PlatformConnection.refresh_token c) "")
       = Ok (get_or (td_refresh_token
                       (json_token (http_post env url data headers))) "").
Proof.
  intros Htext Ec.
  apply CompletionFacts.complete_oauth_ok in Ec.
  destruct Ec as [s [data [code' [_ [_ Ec]]]]].
  apply CompletionFacts.after_state_check_ok in Ec.
  destruct Ec as [tokens [_ [Hfrom [_ [_ [_ [Hw _]]]]]]].
  now apply (RefreshFacts.tokens_written_read_back te env tokens c).
Qed.

(** X12, witness: the LinkedIn callback of [Scenario]. *)
Lemma completed_connection_decrypts_to_provider_tokens_witness :
  exists url data headers a,
    td_access_token
      (json_token (http_post (Scenario.world 60 "s9" "id1" "acc1" "" "m1")
                             url data headers)) = Some a
    /\ TokenEncryption.decrypt_token Scenario.cipher
         (PlatformConnection.access_token Scenario.linkedin_connection) = Ok a
    /\ TokenEncryption.decrypt_token Scenario.cipher
         (get_or (PlatformConnection.refresh_token Scenario.linkedin_connection)
                 "")
       = Ok (get_or (td_refresh_token
                       (json_token
                          (http_post (Scenario.world 60 "s9" "id1" "acc1" "" "m1")
                                     url data headers))) "").
Proof.
  apply (completed_connection_decrypts_to_provider_tokens tagged_cipher
           Scenario.cipher Scenario.one_linkedin_pending
           PlatformConnectionService.init
           (Scenario.world 60 "s9" "id1" "acc1" "" "m1")
           [] [Scenario.linkedin_connection]
           (Some "code1") (Some "s1") None None Scenario.linkedin_connection).
  - intros url data headers. split; reflexivity.
  - vm_compute. reflexivity.
Defined.

(** * Refreshing and disconnecting *)

(** X13.  A refresh that fails leaves the table as it was.  One that
    succeeds found exactly one row with the given id, of an OAuth 2.0
    platform; it returns that row with its identity columns unchanged, keeps
    the number of rows, leaves the returned row as the only one with that
    id, and keeps every row with another id as it was. *)
Theorem refresh_rewrites_only_the_named_row
        (F : FernetLib) (te : TokenEncryption.t)
        (self : PlatformConnectionService.t) (env : Env) (db : database)
        (cid : string) :
  match
    PlatformConnectionService.refresh_connection_token te self env db cid
  with
  | (db', Raise _) => db' = db
  | (db', Ok c) =>
      exists c0,
        filter (fun r => String.eqb (PlatformConnection.id r) cid) db = [c0]
        /\ PlatformConnection.id c = cid
        /\ PlatformConnection.user_id c = PlatformConnection.user_id c0
        /\ PlatformConnection.platform c = PlatformConnection.platform c0
        /\ PlatformConnection.platform_user_id c
           = PlatformConnection.platform_user_id c0
        /\ PlatformConnection.platform_username c
           = PlatformConnection.platform_username c0
        /\ PlatformConnection.created_at c = PlatformConnection.created_at c0
        /\ Statements.oauth2_platform (PlatformConnection.platform c)
        /\ List.length db' = List.length db
        /\ filter (fun r => String.eqb (PlatformConnection.id r) cid) db' = [c]
        /\ forall r, In r db -> PlatformConnection.id r <> cid -> In r db'
  end.
Proof.
  destruct (PlatformConnectionService.refresh_connection_token te self env db cid)
    as [db' [c|e]] eqn:Er.
  - apply RefreshFacts.refresh_ok in Er.
    destruct Er as [c0 [tokens [Hf [Hp [_ [-> ->]]]]]].
    destruct (RefreshFacts.filter_id_single db cid c0 Hf) as [Hin Hid].
    exists c0.
    cbn [PlatformConnectionService.with_new_tokens PlatformConnection.id
           PlatformConnection.user_id PlatformConnection.platform
           PlatformConnection.platform_user_id
           PlatformConnection.platform_username PlatformConnection.created_at].
    repeat (split; [assumption || reflexivity|]).
    split; [apply length_map|]. split.
    + rewrite RefreshFacts.filter_id_map_if by reflexivity.
      rewrite Hf. cbn [map]. now rewrite String.eqb_refl.
    + intros r Hr Hne. apply RefreshFacts.In_map_if; [exact Hr|].
      apply String.eqb_neq. now rewrite Hid.
  - now apply RefreshFacts.refresh_raise in Er.
Qed.

(** X14.  When the provider's answers carry no refresh token, a successful
    refresh erases the stored one: the connection it returns has none, and
    every later refresh of it fails with "No refresh token available",
    leaving the table as it is. *)
Theorem refresh_without_new_refresh_token_is_the_last
        (F : FernetLib) (te : TokenEncryption.t)
        (self : PlatformConnectionService.t) (env : Env) (db db' : database)
        (cid : string) (c : PlatformConnection.t) :
  Statements.no_refresh_token_in_answers env ->
  PlatformConnectionService.refresh_connection_token te self env db cid
  = (db', Ok c) ->
  PlatformConnection.refresh_token c = None
  /\ forall self2 env2,
      PlatformConnectionService.refresh_connection_token te self2 env2 db' cid
      = (db', Raise (ValueError "No refresh token available")).
Proof.
  intros Hno Er.
  apply RefreshFacts.refresh_ok in Er.
  destruct Er as [c0 [tokens [Hf [_ [Hfrom [-> ->]]]]]].
  destruct Hfrom as [url [data [headers [_ [Hr _]]]]].
  rewrite (Hno url data headers) in Hr.
  assert (PlatformConnection.refresh_token
            (PlatformConnectionService.with_new_tokens te env tokens c0) = None)
    as Hnone.
  { cbn [PlatformConnectionService.with_new_tokens
           PlatformConnection.refresh_token].
    rewrite Hr. reflexivity. }
  split; [exact Hnone|].
  intros self2 env2. unfold PlatformConnectionService.refresh_connection_token.
  rewrite RefreshFacts.filter_id_map_if by reflexivity.
  rewrite Hf. cbn [map scalar_one_or_none]. rewrite String.eqb_refl.
  rewrite Hnone. reflexivity.
Qed.

(** X14, witness: the LinkedIn connection of [Scenario], refreshed at a
    provider that sends no refresh token. *)
Lemma refresh_without_new_refresh_token_is_the_last_witness :
  PlatformConnection.refresh_token Scenario.linkedin_refreshed = None
  /\ forall self2 env2,
      PlatformConnectionService.refresh_connection_token Scenario.cipher self2
        env2 [Scenario.linkedin_refreshed] "id1"
      = ([Scenario.linkedin_refreshed],
         Raise (ValueError "No refresh token available")).
Proof.
  apply (refresh_without_new_refresh_token_is_the_last tagged_cipher
           Scenario.cipher PlatformConnectionService.init
           (Scenario.world_without_refresh 120 "acc2")
           [Scenario.linkedin_connection] [Scenario.linkedin_refreshed]
           "id1" Scenario.linkedin_refreshed).
  - intros url data headers. reflexivity.
  - vm_compute. reflexivity.
Defined.

(** X15.  A connection of an OAuth 2.0 platform whose stored refresh token
    is not empty and cannot be read (the base64 decoder or Fernet rejects it) is not
    refreshed: the call fails with the handler's "No refresh token
    available", an [Exception] and not the [ValueError] of a connection
    without refresh token, whatever the provider would answer, and the table
    stays as it was. *)
Theorem refresh_with_unreadable_refresh_token_fails
        (F : FernetLib) (te : TokenEncryption.t)
        (self : PlatformConnectionService.t) (env : Env) (db : database)
        (cid : string) (c0 : PlatformConnection.t) (x : string) :
  filter (fun r => String.eqb (PlatformConnection.id r) cid) db = [c0] ->
  PlatformConnection.refresh_token c0 = Some x ->
  x <> EmptyString ->
  Statements.unreadable te x ->
  Statements.oauth2_platform (PlatformConnection.platform c0) ->
  PlatformConnectionService.refresh_connection_token te self env db cid
  = (db, Raise (Exception "No refresh token available")).
Proof.
  intros Hf Hx Hne Hun Hp.
  assert (TokenEncryption.decrypt_token te x = Ok EmptyString) as Hd.
  { unfold TokenEncryption.decrypt_token, TokenEncryption.decrypt_attempt.
    destruct (Bytes.is_empty x); [reflexivity|].
    destruct Hun as [H | [d [H1 H2]]].
    - rewrite H. reflexivity.
    - rewrite H1. cbn [bind]. rewrite H2. reflexivity. }
  unfold PlatformConnectionService.refresh_connection_token.
  rewrite Hf. cbn [scalar_one_or_none]. rewrite Hx. cbn [truthy get_or].
  destruct x as [|a r]; [contradiction|]. cbn [Bytes.is_empty negb].
  rewrite Hd.
  unfold PlatformConnectionService._get_oauth_handler,
    PlatformConnectionService.oauth_handlers.
  destruct Hp as [-> | [-> | ->]]; reflexivity.
Qed.

(** X15, witness: a LinkedIn row whose stored refresh token is ["A"]. *)
Lemma refresh_with_unreadable_refresh_token_fails_witness :
  PlatformConnectionService.refresh_connection_token Scenario.cipher
    PlatformConnectionService.init (Scenario.world 120 "s9" "id9" "acc2" "" "m1")
    [Scenario.linkedin_damaged] "id1"
  = ([Scenario.linkedin_damaged],
     Raise (Exception "No refresh token available")).
Proof.
  apply (refresh_with_unreadable_refresh_token_fails tagged_cipher
           Scenario.cipher PlatformConnectionService.init
           (Scenario.world 120 "s9" "id9" "acc2" "" "m1")
           [Scenario.linkedin_damaged] "id1" Scenario.linkedin_damaged "A").
  - reflexivity.
  - reflexivity.
  - discriminate.
  - left. reflexivity.
  - left. reflexivity.
Defined.

(** X16.  [disconnect_platform] reports a deletion exactly when the table
    has a row with the given id that belongs to the given user.  Inside the
    session of the call those rows and no others are gone, so a user who
    does not own the connection changes nothing there, and
    [get_connection_by_id] finds nothing for that id and user.  The deletion
    is not committed: once the session is closed the table is as it was
    before the call. *)
Theorem disconnect_deletes_in_its_session_only
        (self : PlatformConnectionService.t) (db : database)
        (cid uid : string) :
  (snd (PlatformConnectionService.disconnect_platform self
          (Session.AsyncSessionLocal db) cid uid) = true
   <-> exists c, In c db /\ PlatformConnection.id c = cid
                 /\ PlatformConnection.user_id c = uid)
  /\ (forall c,
         In c (Session.seen
                 (fst (PlatformConnectionService.disconnect_platform self
                         (Session.AsyncSessionLocal db) cid uid)))
         <-> In c db /\ ~ (PlatformConnection.id c = cid
                           /\ PlatformConnection.user_id c = uid))
  /\ (snd (PlatformConnectionService.disconnect_platform self
              (Session.AsyncSessionLocal db) cid uid) = false
      -> Session.seen
           (fst (PlatformConnectionService.disconnect_platform self
                   (Session.AsyncSessionLocal db) cid uid))
         = db)
  /\ PlatformConnectionService.get_connection_by_id self
       (Session.seen
          (fst (PlatformConnectionService.disconnect_platform self
                  (Session.AsyncSessionLocal db) cid uid)))
       cid uid
     = Ok None
  /\ Session.close
       (fst (PlatformConnectionService.disconnect_platform self
               (Session.AsyncSessionLocal db) cid uid))
     = db.
Proof.
  pose (hit := fun c : PlatformConnection.t =>
                 String.eqb (PlatformConnection.id c) cid
                 && String.eqb (PlatformConnection.user_id c) uid).
  assert (PlatformConnectionService.disconnect_platform self
            (Session.AsyncSessionLocal db) cid uid
          = ({| Session.committed := db;
                Session.seen := filter (fun c => negb (hit c)) db |},
             existsb hit db)) as Hd by reflexivity.
  rewrite !Hd. cbn [fst snd Session.seen Session.close Session.committed].
  assert (forall c, hit c = true
                    <-> PlatformConnection.id c = cid
                        /\ PlatformConnection.user_id c = uid) as Hhit.
  { intro c. unfold hit. rewrite andb_true_iff, !String.eqb_eq. reflexivity. }
  split; [|split; [|split; [|split]]].
  - rewrite existsb_exists. split.
    + intros [c [Hin Hc]]. exists c. apply Hhit in Hc. tauto.
    + intros [c [Hin Hc]]. exists c. split; [exact Hin | now apply Hhit].
  - intro c. rewrite filter_In, negb_true_iff, <- Hhit.
    destruct (hit c); split; intros [H1 H2]; (split; [exact H1|]);
      first [reflexivity | discriminate | congruence | exfalso; now apply H2].
  - intro Hfalse. induction db as [|a r IH]; [reflexivity|].
    cbn [existsb] in Hfalse. apply orb_false_iff in Hfalse.
    destruct Hfalse as [Ha Hr]. cbn [filter]. rewrite Ha. cbn [negb].
    now rewrite IH.
  - unfold PlatformConnectionService.get_connection_by_id.
    assert (forall l : database,
               filter (fun c => hit c && Bool.eqb (PlatformConnection.is_active c) true)
                      (filter (fun c => negb (hit c)) l) = []) as Hn2.
    { induction l as [|a r IH]; [reflexivity|].
      cbn [filter]. destruct (hit a) eqn:Ea; cbn [negb filter]; [exact IH|].
      rewrite Ea. exact IH. }
    change (fun c => String.eqb (PlatformConnection.id c) cid
                     && String.eqb (PlatformConnection.user_id c) uid
                     && Bool.eqb (PlatformConnection.is_active c) true)
      with (fun c => hit c && Bool.eqb (PlatformConnection.is_active c) true).
    rewrite Hn2. reflexivity.
  - reflexivity.
Qed.

(** * Starting a flow, and the profile of a LinkedIn member *)

Module InitiateFacts.
Import Bytes PyStr Statements PlatformConnectionService.

Lemma safe_is_no_space (c : ascii) :
  always_safe c = true -> UrlEncode.plus_for_space c = c.
Proof.
  intro H.
  pose proof (AsciiFacts.forall_ascii
                (fun c => implb (always_safe c)
                                (Ascii.eqb (UrlEncode.plus_for_space c) c))) as Hall.
  specialize (Hall ltac:(vm_compute; reflexivity) c).
  cbv beta in Hall. rewrite H in Hall. cbn [implb] in Hall.
  now apply Ascii.eqb_eq.
Qed.

(** [quote_plus] leaves a string of unreserved characters as it is. *)
Lemma quote_plus_unreserved (s : string) :
  unreserved s = true -> UrlEncode.quote_plus s = s.
Proof.
  unfold UrlEncode.quote_plus.
  induction s as [|c r IH]; [reflexivity|].
  cbn [unreserved quote]. intro H. apply andb_true_iff in H. destruct H as [Hc Hr].
  rewrite Hc. cbn [orb translate]. rewrite (safe_is_no_space c Hc).
  now rewrite IH.
Qed.

Lemma get_set_other {V} (d : Dict.dict V) (k k0 : string) (v : V) :
  k0 <> k -> Dict.get (Dict.set d k v) k0 = Dict.get d k0.
Proof.
  intro Hne. apply String.eqb_neq in Hne.
  induction d as [|[k' v'] r IH]; cbn [Dict.set Dict.get].
  - now rewrite Hne.
  - destruct (String.eqb k k') eqn:E; cbn [Dict.get].
    + apply String.eqb_eq in E. subst k'. now rewrite Hne.
    + destruct (String.eqb k0 k'); [reflexivity | exact IH].
Qed.

Lemma append_assoc (a b c : string) : (a ++ b) ++ c = a ++ (b ++ c).
Proof. induction a as [|x a IH]; cbn; [reflexivity | now rewrite IH]. Qed.

(** The URL of an OAuth 2.0 handler ends with the state. *)
Lemma authorization_url_ends_with_state (h : BaseOAuthHandler.t) (s : string) :
  unreserved s = true ->
  exists prefix,
    BaseOAuthHandler.generate_authorization_url h s = prefix ++ "&state=" ++ s.
Proof.
  intro Hs. unfold BaseOAuthHandler.generate_authorization_url.
  unfold BaseOAuthHandler.get_authorization_params.
  cbn [Dict.update fold_left]. unfold UrlEncode.urlencode.
  cbn [map join fst snd]. rewrite (quote_plus_unreserved s Hs).
  exists (OAuthConfig.authorization_url (BaseOAuthHandler.config h) ++ "?"
          ++ UrlEncode.quote_plus "client_id" ++ "="
          ++ UrlEncode.quote_plus (OAuthConfig.client_id (BaseOAuthHandler.config h))
          ++ "&" ++ UrlEncode.quote_plus "redirect_uri" ++ "="
          ++ UrlEncode.quote_plus
               (OAuthConfig.redirect_uri (BaseOAuthHandler.config h))
          ++ "&" ++ UrlEncode.quote_plus "scope" ++ "="
          ++ UrlEncode.quote_plus (OAuthConfig.scope (BaseOAuthHandler.config h))
          ++ "&" ++ UrlEncode.quote_plus "response_type" ++ "="
          ++ UrlEncode.quote_plus "code").
  rewrite !append_assoc. reflexivity.
Qed.

(** The first piece of a split: the text before the first separator. *)
Lemma split_on_hd (sep : ascii) (s : string) :
  forall cur,
  exists a,
    hd EmptyString (split_on sep s cur) = cur ++ a
    /\ count_char sep a = 0%nat
    /\ (s = a \/ exists rest, s = a ++ String sep rest).
Proof.
  induction s as [|c r IH]; intro cur; cbn [split_on].
  - exists EmptyString. cbn [hd count_char]. rewrite FormFacts.append_empty. auto.
  - destruct (Ascii.eqb c sep) eqn:E.
    + apply Ascii.eqb_eq in E. subst c.
      exists EmptyString. cbn [hd count_char]. rewrite FormFacts.append_empty.
      split; [reflexivity|]. split; [reflexivity|]. right. exists r. reflexivity.
    + destruct (IH (cur ++ String c EmptyString)) as [a [Hh [Hc Hs]]].
      exists (String c a). rewrite Hh, FormFacts.append_cons.
      split; [reflexivity|]. split.
      * cbn [count_char]. rewrite E. exact Hc.
      * destruct Hs as [-> | [rest ->]]; [left; reflexivity|].
        right. exists rest. reflexivity.
Qed.

End InitiateFacts.

(** X17.  For LinkedIn, Facebook and Instagram, with a state token made of
    unreserved characters (as [secrets.token_urlsafe] gives), [initiate_oauth]
    returns a URL that ends with [&state=] and the token; under that token
    the user, the platform, the redirect URI and the time of the call are
    pending, and every other pending state is as it was. *)
Theorem initiate_oauth2_url_carries_the_pending_state
        (self : PlatformConnectionService.t) (env : Env)
        (platform user_id redirect_uri : string) :
  Statements.oauth2_platform platform ->
  Statements.unreserved (token_urlsafe env) = true ->
  (exists prefix,
      snd (PlatformConnectionService.initiate_oauth self env platform user_id
                                                    redirect_uri)
      = Ok (prefix ++ "&state=" ++ token_urlsafe env))
  /\ Dict.get
       (PlatformConnectionService.active_states
          (fst (PlatformConnectionService.initiate_oauth self env platform
                                                         user_id redirect_uri)))
       (token_urlsafe env)
     = Some {| PlatformConnectionService.sd_user_id := user_id;
               PlatformConnectionService.sd_platform := platform;
               PlatformConnectionService.sd_redirect_uri := redirect_uri;
               PlatformConnectionService.sd_created_at := utcnow env |}
  /\ forall s,
      s <> token_urlsafe env ->
      Dict.get
        (PlatformConnectionService.active_states
           (fst (PlatformConnectionService.initiate_oauth self env platform
                                                          user_id redirect_uri)))
        s
      = Dict.get (PlatformConnectionService.active_states self) s.
Proof.
  intros Hp Hs. split; [|split].
  - destruct Hp as [-> | [-> | ->]].
    + destruct (InitiateFacts.authorization_url_ends_with_state
                  (BaseOAuthHandler.LinkedInOAuthHandler (settings env)
                                                         redirect_uri)
                  (token_urlsafe env) Hs) as [prefix E].
      exists prefix. rewrite <- E. reflexivity.
    + destruct (InitiateFacts.authorization_url_ends_with_state
                  (BaseOAuthHandler.FacebookOAuthHandler (settings env)
                                                         redirect_uri)
                  (token_urlsafe env) Hs) as [prefix E].
      exists prefix. rewrite <- E. reflexivity.
    + destruct (InitiateFacts.authorization_url_ends_with_state
                  (BaseOAuthHandler.InstagramOAuthHandler (settings env)
                                                          redirect_uri)
                  (token_urlsafe env) Hs) as [prefix E].
      exists prefix. rewrite <- E. reflexivity.
  - rewrite TableFacts.initiate_oauth_states. apply DictFacts.get_set_same.
  - intros s Hne. rewrite TableFacts.initiate_oauth_states.
    now apply InitiateFacts.get_set_other.
Qed.

(** X17, witness: the LinkedIn initiation of [Scenario]. *)
Lemma initiate_oauth2_url_carries_the_pending_state_witness :
  (exists prefix,
      snd (PlatformConnectionService.initiate_oauth
             PlatformConnectionService.init
             (Scenario.world 0 "s1" "id1" "acc1" "" "m1")
             "linkedin" "u1" "https://app/cb")
      = Ok (prefix ++ "&state=" ++ "s1"))
  /\ Dict.get (PlatformConnectionService.active_states
                 Scenario.one_linkedin_pending) "s1"
     = Some {| PlatformConnectionService.sd_user_id := "u1";
               PlatformConnectionService.sd_platform := "linkedin";
               PlatformConnectionService.sd_redirect_uri := "https://app/cb";
               PlatformConnectionService.sd_created_at := 0 |}
  /\ forall s,
      s <> "s1" ->
      Dict.get (PlatformConnectionService.active_states
                  Scenario.one_linkedin_pending) s
      = Dict.get (PlatformConnectionService.active_states
                    PlatformConnectionService.init) s.
Proof.
  apply (initiate_oauth2_url_carries_the_pending_state
           PlatformConnectionService.init
           (Scenario.world 0 "s1" "id1" "acc1" "" "m1")
           "linkedin" "u1" "https://app/cb").
  - left. reflexivity.
  - reflexivity.
Defined.

(** X18.  The username of a LinkedIn member whose profile has a non-empty
    email is the part of the email before its first [@] (the whole email
    when it has none): the username contains no [@]. *)
Theorem linkedin_username_is_the_email_local_part
        (cfg : Settings) (redirect_uri : string) (profile_data : ProfileData)
        (email : string) :
  pd_email profile_data = Some email ->
  email <> EmptyString ->
  Statements.count_char "@"
    (UserProfile.username
       (BaseOAuthHandler.parse_user_profile
          (BaseOAuthHandler.LinkedInOAuthHandler cfg redirect_uri) profile_data))
  = 0%nat
  /\ (UserProfile.username
        (BaseOAuthHandler.parse_user_profile
           (BaseOAuthHandler.LinkedInOAuthHandler cfg redirect_uri) profile_data)
      = email
      \/ exists rest,
          email
          = UserProfile.username
              (BaseOAuthHandler.parse_user_profile
                 (BaseOAuthHandler.LinkedInOAuthHandler cfg redirect_uri)
                 profile_data)
            ++ "@" ++ rest).
Proof.
  intros He Hne.
  unfold BaseOAuthHandler.parse_user_profile.
  cbn [BaseOAuthHandler.platform BaseOAuthHandler.LinkedInOAuthHandler
         UserProfile.username].
  rewrite He. cbn [truthy get_or].
  destruct email as [|a e]; [contradiction|]. cbn [Bytes.is_empty negb].
  unfold PyStr.split.
  destruct (InitiateFacts.split_on_hd "@" (String a e) EmptyString)
    as [u [Hh [Hc Hs]]].
  rewrite Hh. cbn [append]. split; [exact Hc|].
  destruct Hs as [Hs | [rest Hs]]; [left; now symmetry|].
  right. exists rest. exact Hs.
Qed.

(** X18, witness: the member of [Scenario], [ada@example.org]. *)
Lemma linkedin_username_is_the_email_local_part_witness :
  Statements.count_char "@"
    (UserProfile.username
       (BaseOAuthHandler.parse_user_profile
          (BaseOAuthHandler.LinkedInOAuthHandler Scenario.cfg "https://app/cb")
          (json_profile (Scenario.provider_get "m1" "" []))))
  = 0%nat
  /\ (UserProfile.username
        (BaseOAuthHandler.parse_user_profile
           (BaseOAuthHandler.LinkedInOAuthHandler Scenario.cfg "https://app/cb")
           (json_profile (Scenario.provider_get "m1" "" [])))
      = "ada@example.org"
      \/ exists rest,
          "ada@example.org"
          = UserProfile.username
              (BaseOAuthHandler.parse_user_profile
                 (BaseOAuthHandler.LinkedInOAuthHandler Scenario.cfg
                                                        "https://app/cb")
                 (json_profile (Scenario.provider_get "m1" "" [])))
            ++ "@" ++ rest).
Proof.
  apply (linkedin_username_is_the_email_local_part Scenario.cfg "https://app/cb"
           (json_profile (Scenario.provider_get "m1" "" [])) "ada@example.org").
  - reflexivity.
  - discriminate.
Defined.
